(** * Halo geometry and face-wise load/store transfers (src/astaroth/loadStore.cc)

    A shallow embedding of the copier functions for the "plates" of the halo:
    the halo widths set up by [initLoadStore], the staging buffers it
    allocates and [finalLoadStore] releases, and the coordinate boxes and
    device calls issued by the six [loadOuter*] and six [storeInner*]
    functions and their two batch drivers. *)

From Stdlib Require Import ZArith List Bool Lia.
Import ListNotations.
Local Open Scope Z_scope.

(** ** Machine integers

    The source computes with C [int].  A value is a [Z]; every arithmetic
    operation of the source is followed by the reduction of the result to the
    32-bit two's-complement range. *)

Module Int.

Definition half : Z := 2147483648.
Definition modulus : Z := 4294967296.
Definition min_int : Z := - half.
Definition max_int : Z := half - 1.

Definition wrap (z : Z) : Z := (z + half) mod modulus - half.

Definition add (a b : Z) : Z := wrap (a + b).
Definition sub (a b : Z) : Z := wrap (a - b).
Definition mul (a b : Z) : Z := wrap (a * b).

Definition in_range (z : Z) : Prop := min_int <= z <= max_int.

(** [size_t] is 64 bits wide; an [int] operand of a mixed product is first
    converted to it. *)
Definition size_modulus : Z := 18446744073709551616.
Definition to_size_t (z : Z) : Z := z mod size_modulus.
Definition size_mul (a b : Z) : Z := (a * b) mod size_modulus.

End Int.

Infix "+i" := Int.add (at level 50, left associativity).
Infix "-i" := Int.sub (at level 50, left associativity).
Infix "*i" := Int.mul (at level 40, left associativity).

(** ** Configuration

    The quantities the file reads from cparam_c.h and cdata_c.h. *)

Record Config := {
  nghost : Z;
  nx : Z;
  ny : Z;
  nz : Z;
  NUM_VTXBUF_HANDLES : Z;
  sizeof_AcReal : Z;
  lperi_0 : bool;
  lperi_1 : bool;
  lperi_2 : bool;
  lfirst_proc_x : bool;
  llast_proc_x : bool;
  lfirst_proc_y : bool;
  llast_proc_y : bool;
  lfirst_proc_z : bool;
  llast_proc_z : bool;
  lyinyang : bool
}.

(** Modelled from the spec: cparam_c.h and cdata_c.h are not among the
    sources.  The mesh covers "the full local domain including all ghost
    layers", the ghost depth is fixed, and the interior is addressed by
    1-based indices; so each extent with ghost layers is the interior extent
    plus the ghost depth on both sides, and the interior runs from index
    [nghost+1] to index [nghost+n]. *)
Definition mx (c : Config) : Z := nx c + 2 * nghost c.
Definition my (c : Config) : Z := ny c + 2 * nghost c.
Definition mz (c : Config) : Z := nz c + 2 * nghost c.
Definition l1 (c : Config) : Z := nghost c + 1.
Definition l2 (c : Config) : Z := mx c - nghost c.
Definition m1 (c : Config) : Z := nghost c + 1.
Definition m2 (c : Config) : Z := my c - nghost c.
Definition n1 (c : Config) : Z := nghost c + 1.
Definition n2 (c : Config) : Z := mz c - nghost c.

(** [const int mxy=mx*my, nxy=nx*ny;] *)
Definition mxy (c : Config) : Z := mx c *i my c.
Definition nxy (c : Config) : Z := nx c *i ny c.

(** ** Arrays indexed by BOT, TOP (and TOT) *)

Inductive Side := BOT | TOP.

(** [int w[3]]: slots BOT, TOP and TOT. *)
Record HaloWidths := mkWidths { w_BOT : Z; w_TOP : Z; w_TOT : Z }.

Definition width (w : HaloWidths) (i : Side) : Z :=
  match i with BOT => w_BOT w | TOP => w_TOP w end.

Definition set_width (w : HaloWidths) (i : Side) (v : Z) : HaloWidths :=
  match i with
  | BOT => mkWidths v (w_TOP w) (w_TOT w)
  | TOP => mkWidths (w_BOT w) v (w_TOT w)
  end.

Definition set_TOT (w : HaloWidths) (v : Z) : HaloWidths :=
  mkWidths (w_BOT w) (w_TOP w) v.

(** [T a[2]]: slots BOT and TOP. *)
Record Arr2 (A : Type) := mkArr2 { at_BOT : A; at_TOP : A }.
Arguments mkArr2 {A} _ _.
Arguments at_BOT {A} _.
Arguments at_TOP {A} _.

Definition get {A} (a : Arr2 A) (i : Side) : A :=
  match i with BOT => at_BOT a | TOP => at_TOP a end.

Definition set {A} (a : Arr2 A) (i : Side) (v : A) : Arr2 A :=
  match i with
  | BOT => mkArr2 v (at_TOP a)
  | TOP => mkArr2 (at_BOT a) v
  end.

(** ** The host allocator

    [malloc] and [free] are external.  The allocator hands out the addresses
    of [supply] in order ([NULL] for a failed request, and when the supply is
    used up) and keeps a log of every request and release. *)

Definition ptr := Z.
Definition NULL : ptr := 0.

Inductive MemEvent :=
| Malloc (bytes : Z) (p : ptr)
| Free (p : ptr).

Record Heap := mkHeap { supply : list ptr; mem_log : list MemEvent }.

Definition malloc (bytes : Z) (h : Heap) : ptr * Heap :=
  match supply h with
  | [] => (NULL, mkHeap [] (mem_log h ++ [Malloc bytes NULL]))
  | p :: rest => (p, mkHeap rest (mem_log h ++ [Malloc bytes p]))
  end.

Definition free (p : ptr) (h : Heap) : Heap :=
  mkHeap (supply h) (mem_log h ++ [Free p]).

(** ** Program state: the file's globals and the allocator *)

Record State := mkState {
  halo_widths_x : HaloWidths;
  halo_widths_y : HaloWidths;
  halo_widths_z : HaloWidths;
  halo_xz_size : Arr2 Z;
  halo_yz_size : Arr2 Z;
  halo_xz_buffer : Arr2 ptr;
  halo_yz_buffer : Arr2 ptr;
  heap : Heap
}.

Definition with_widths_x (s : State) (w : HaloWidths) : State :=
  mkState w (halo_widths_y s) (halo_widths_z s) (halo_xz_size s)
          (halo_yz_size s) (halo_xz_buffer s) (halo_yz_buffer s) (heap s).
Definition with_widths_y (s : State) (w : HaloWidths) : State :=
  mkState (halo_widths_x s) w (halo_widths_z s) (halo_xz_size s)
          (halo_yz_size s) (halo_xz_buffer s) (halo_yz_buffer s) (heap s).
Definition with_widths_z (s : State) (w : HaloWidths) : State :=
  mkState (halo_widths_x s) (halo_widths_y s) w (halo_xz_size s)
          (halo_yz_size s) (halo_xz_buffer s) (halo_yz_buffer s) (heap s).
Definition with_xz_size (s : State) (a : Arr2 Z) : State :=
  mkState (halo_widths_x s) (halo_widths_y s) (halo_widths_z s) a
          (halo_yz_size s) (halo_xz_buffer s) (halo_yz_buffer s) (heap s).
Definition with_yz_size (s : State) (a : Arr2 Z) : State :=
  mkState (halo_widths_x s) (halo_widths_y s) (halo_widths_z s)
          (halo_xz_size s) a (halo_xz_buffer s) (halo_yz_buffer s) (heap s).
Definition with_xz_buffer (s : State) (a : Arr2 ptr) (h : Heap) : State :=
  mkState (halo_widths_x s) (halo_widths_y s) (halo_widths_z s)
          (halo_xz_size s) (halo_yz_size s) a (halo_yz_buffer s) h.
Definition with_yz_buffer (s : State) (a : Arr2 ptr) (h : Heap) : State :=
  mkState (halo_widths_x s) (halo_widths_y s) (halo_widths_z s)
          (halo_xz_size s) (halo_yz_size s) (halo_xz_buffer s) a h.
Definition with_heap (s : State) (h : Heap) : State :=
  mkState (halo_widths_x s) (halo_widths_y s) (halo_widths_z s)
          (halo_xz_size s) (halo_yz_size s) (halo_xz_buffer s)
          (halo_yz_buffer s) h.

(** The state at program start: the three width arrays hold
    [{nghost,nghost,2*nghost}], the static buffer pointers are null; the
    size arrays are defined elsewhere ([extern]). *)
Definition initial_widths (c : Config) : HaloWidths :=
  mkWidths (nghost c) (nghost c) (2 *i nghost c).

Definition initial_state (c : Config) (xz_size yz_size : Arr2 Z) (h : Heap)
  : State :=
  mkState (initial_widths c) (initial_widths c) (initial_widths c)
          xz_size yz_size (mkArr2 NULL NULL) (mkArr2 NULL NULL) h.

(** ** initLoadStore *)

(** Lines 37-53: halo widths for the undivided data cube. *)
Definition set_halo_widths (c : Config) (s : State) : State :=
  let s :=
    if negb (lperi_0 c) then
      let s := if lfirst_proc_x c
               then with_widths_x s (set_width (halo_widths_x s) BOT (nghost c +i 1))
               else s in
      if llast_proc_x c
      then with_widths_x s (set_width (halo_widths_x s) TOP (nghost c +i 1))
      else s
    else s in
  let s :=
    if negb (lyinyang c) then
      let s :=
        if negb (lperi_1 c) then
          let s := if lfirst_proc_y c
                   then with_widths_y s (set_width (halo_widths_y s) BOT (nghost c +i 1))
                   else s in
          if llast_proc_y c
          then with_widths_y s (set_width (halo_widths_y s) TOP (nghost c +i 1))
          else s
        else s in
      if negb (lperi_2 c) then
        let s := if lfirst_proc_z c
                 then with_widths_z s (set_width (halo_widths_z s) BOT (nghost c +i 1))
                 else s in
        if llast_proc_z c
        then with_widths_z s (set_width (halo_widths_z s) TOP (nghost c +i 1))
        else s
      else s
    else s in
  let s := with_widths_x s
             (set_TOT (halo_widths_x s)
                (width (halo_widths_x s) BOT +i width (halo_widths_x s) TOP)) in
  let s := with_widths_y s
             (set_TOT (halo_widths_y s)
                (width (halo_widths_y s) BOT +i width (halo_widths_y s) TOP)) in
  with_widths_z s
    (set_TOT (halo_widths_z s)
       (width (halo_widths_z s) BOT +i width (halo_widths_z s) TOP)).

(** The byte count handed to [malloc]: [size*sizeof(AcReal)], a product in
    [size_t]. *)
Definition alloc_bytes (c : Config) (size : Z) : Z :=
  Int.size_mul (Int.to_size_t size) (sizeof_AcReal c).

(** Lines 62-65: the body of the loop over [i]. *)
Definition alloc_buffers_at (c : Config) (s : State) (i : Side) : State :=
  let s := with_xz_size s
             (set (halo_xz_size s) i
                (mx c *i nz c *i width (halo_widths_y s) i *i NUM_VTXBUF_HANDLES c)) in
  let s := with_yz_size s
             (set (halo_yz_size s) i
                (ny c *i nz c *i width (halo_widths_x s) i *i NUM_VTXBUF_HANDLES c)) in
  let s :=
    if get (halo_xz_buffer s) i =? NULL then
      let '(p, h) := malloc (alloc_bytes c (get (halo_xz_size s) i)) (heap s) in
      with_xz_buffer s (set (halo_xz_buffer s) i p) h
    else s in
  if get (halo_yz_buffer s) i =? NULL then
    let '(p, h) := malloc (alloc_bytes c (get (halo_yz_size s) i)) (heap s) in
    with_yz_buffer s (set (halo_yz_buffer s) i p) h
  else s.

Definition initLoadStore (c : Config) (s : State) : State :=
  fold_left (alloc_buffers_at c) [BOT; TOP] (set_halo_widths c s).

(** ** finalLoadStore *)

Definition free_buffers_at (s : State) (i : Side) : State :=
  let s := with_heap s (free (get (halo_xz_buffer s) i) (heap s)) in
  with_heap s (free (get (halo_yz_buffer s) i) (heap s)).

Definition finalLoadStore (s : State) : State :=
  fold_left free_buffers_at [BOT; TOP] s.

(** ** Device interface

    The transfer primitives of the device runtime (astaroth.h) are external:
    a call is recorded with the arguments the source passes.  The device
    handle [node] is one global and is left out. *)

(** [int3] with the scalar [+] and [-] of math_utils.h, which act on every
    component. *)
Record int3 := mkInt3 { ix : Z; iy : Z; iz : Z }.

Definition int3_add (a : int3) (k : Z) : int3 :=
  mkInt3 (ix a +i k) (iy a +i k) (iz a +i k).
Definition int3_sub (a : int3) (k : Z) : int3 :=
  mkInt3 (ix a -i k) (iy a -i k) (iz a -i k).

(** Modelled from the spec: astaroth.h is not among the sources.  The
    execution channels named in the file are distinct identifiers ("six
    channels total" for the stores, one "shared default channel" for the
    loads). *)
Inductive Stream :=
| STREAM_DEFAULT | STREAM_1 | STREAM_2 | STREAM_3
| STREAM_4 | STREAM_5 | STREAM_6.

Inductive PlateType := AC_XY | AC_XZ | AC_YZ.

(** The host mesh is passed by reference; only its identity reaches this
    layer. *)
Definition AcMesh := Z.

Inductive DeviceCall :=
| acNodeLoadMeshWithOffset
    (stream : Stream) (mesh : AcMesh) (src dst : int3) (num_vertices : Z)
| acNodeLoadPlateXcomp
    (stream : Stream) (start end_ : int3) (mesh : AcMesh) (buffer : ptr)
    (plate : PlateType)
| acNodeLoadPlate
    (stream : Stream) (start end_ : int3) (mesh : AcMesh) (buffer : ptr)
    (plate : PlateType)
| acNodeStoreIXYPlate
    (stream : Stream) (start end_ : int3) (mesh : AcMesh) (side : Side)
| acNodeStorePlate
    (stream : Stream) (start end_ : int3) (mesh : AcMesh) (buffer : ptr)
    (plate : PlateType).

(** ** The six load operations *)

Section Operations.

Variable c : Config.
Variable s : State.

Let hx := halo_widths_x s.
Let hy := halo_widths_y s.
Let hz := halo_widths_z s.

Definition loadOuterFront (mesh : AcMesh) (stream : Stream) : list DeviceCall :=
  let src := mkInt3 0 0 0 in
  let num_vertices := mxy c *i width hz BOT in
  [acNodeLoadMeshWithOffset stream mesh src src num_vertices].

Definition loadOuterBack (mesh : AcMesh) (stream : Stream) : list DeviceCall :=
  let src := mkInt3 0 0 (mz c -i width hz TOP) in
  let num_vertices := mxy c *i width hz TOP in
  [acNodeLoadMeshWithOffset stream mesh src src num_vertices].

Definition loadOuterBot (mesh : AcMesh) (stream : Stream) : list DeviceCall :=
  let start := mkInt3 0 0 (width hz BOT) in
  let end_ := mkInt3 (mx c) (width hy BOT) (mz c -i width hz TOP) in
  [acNodeLoadPlateXcomp stream start end_ mesh (get (halo_xz_buffer s) BOT) AC_XZ].

Definition loadOuterTop (mesh : AcMesh) (stream : Stream) : list DeviceCall :=
  let start := mkInt3 0 (my c -i width hy TOP) (width hz BOT) in
  let end_ := mkInt3 (mx c) (my c) (mz c -i width hz TOP) in
  [acNodeLoadPlateXcomp stream start end_ mesh (get (halo_xz_buffer s) TOP) AC_XZ].

Definition loadOuterLeft (mesh : AcMesh) (stream : Stream) : list DeviceCall :=
  let start := mkInt3 0 (width hy BOT) (width hz BOT) in
  let end_ :=
    int3_add (mkInt3 (width hx BOT -i 1)
                     (my c -i width hy TOP -i 1)
                     (mz c -i width hz TOP -i 1)) 1 in
  [acNodeLoadPlate stream start end_ mesh (get (halo_yz_buffer s) BOT) AC_YZ].

Definition loadOuterRight (mesh : AcMesh) (stream : Stream) : list DeviceCall :=
  let start := mkInt3 (mx c -i width hx TOP) (width hy BOT) (width hz BOT) in
  let end_ :=
    int3_add (mkInt3 (mx c -i 1)
                     (my c -i width hy TOP -i 1)
                     (mz c -i width hz TOP -i 1)) 1 in
  [acNodeLoadPlate stream start end_ mesh (get (halo_yz_buffer s) TOP) AC_YZ].

Definition loadOuterHalos (mesh : AcMesh) : list DeviceCall :=
  loadOuterFront mesh STREAM_DEFAULT ++
  loadOuterBack mesh STREAM_DEFAULT ++
  loadOuterTop mesh STREAM_DEFAULT ++
  loadOuterBot mesh STREAM_DEFAULT ++
  loadOuterLeft mesh STREAM_DEFAULT ++
  loadOuterRight mesh STREAM_DEFAULT.

(** ** The six store operations *)

Definition storeInnerFront (mesh : AcMesh) (stream : Stream) : list DeviceCall :=
  let start := int3_sub (mkInt3 (l1 c) (m1 c) (n1 c)) 1 in
  let end_ :=
    int3_add (int3_sub (mkInt3 (l2 c) (m2 c) (n1 c +i width hz BOT -i 1)) 1) 1 in
  [acNodeStoreIXYPlate stream start end_ mesh BOT].

Definition storeInnerBack (mesh : AcMesh) (stream : Stream) : list DeviceCall :=
  let start := int3_sub (mkInt3 (l1 c) (m1 c) (n2 c -i width hz TOP +i 1)) 1 in
  let end_ := int3_add (int3_sub (mkInt3 (l2 c) (m2 c) (n2 c)) 1) 1 in
  [acNodeStoreIXYPlate stream start end_ mesh TOP].

Definition storeInnerBot (mesh : AcMesh) (stream : Stream) : list DeviceCall :=
  let start := int3_sub (mkInt3 (l1 c) (m1 c) (n1 c +i width hz BOT)) 1 in
  let end_ :=
    int3_add (int3_sub (mkInt3 (l2 c)
                               (m1 c +i width hy BOT -i 1)
                               (n2 c -i width hz TOP)) 1) 1 in
  [acNodeStorePlate stream start end_ mesh (get (halo_xz_buffer s) BOT) AC_XZ].

Definition storeInnerTop (mesh : AcMesh) (stream : Stream) : list DeviceCall :=
  let start :=
    int3_sub (mkInt3 (l1 c)
                     (m2 c -i width hy TOP +i 1)
                     (n1 c +i width hz BOT)) 1 in
  let end_ :=
    int3_add (int3_sub (mkInt3 (l2 c) (m2 c) (n2 c -i width hz TOP)) 1) 1 in
  [acNodeStorePlate stream start end_ mesh (get (halo_xz_buffer s) TOP) AC_XZ].

Definition storeInnerLeft (mesh : AcMesh) (stream : Stream) : list DeviceCall :=
  let start :=
    int3_sub (mkInt3 (l1 c)
                     (m1 c +i width hy BOT)
                     (n1 c +i width hz BOT)) 1 in
  let end_ :=
    int3_add (int3_sub (mkInt3 (l1 c +i width hx BOT -i 1)
                               (m2 c -i width hy TOP)
                               (n2 c -i width hz TOP)) 1) 1 in
  [acNodeStorePlate stream start end_ mesh (get (halo_yz_buffer s) BOT) AC_YZ].

Definition storeInnerRight (mesh : AcMesh) (stream : Stream) : list DeviceCall :=
  let start :=
    int3_sub (mkInt3 (l2 c -i width hx TOP +i 1)
                     (m1 c +i width hy BOT)
                     (n1 c +i width hz BOT)) 1 in
  let end_ :=
    int3_add (int3_sub (mkInt3 (l2 c)
                               (m2 c -i width hy TOP)
                               (n2 c -i width hz TOP)) 1) 1 in
  [acNodeStorePlate stream start end_ mesh (get (halo_yz_buffer s) TOP) AC_YZ].

Definition storeInnerHalos (mesh : AcMesh) : list DeviceCall :=
  storeInnerLeft mesh STREAM_4 ++
  storeInnerRight mesh STREAM_5 ++
  storeInnerBot mesh STREAM_2 ++
  storeInnerTop mesh STREAM_3 ++
  storeInnerFront mesh STREAM_6 ++
  storeInnerBack mesh STREAM_1.

End Operations.

(** ** Faces, boxes and the cells a call touches *)

Inductive Face := Front | Back | Bot | Top | Left | Right.

Definition loadOuter (c : Config) (s : State) (f : Face)
  : AcMesh -> Stream -> list DeviceCall :=
  match f with
  | Front => loadOuterFront c s
  | Back => loadOuterBack c s
  | Bot => loadOuterBot c s
  | Top => loadOuterTop c s
  | Left => loadOuterLeft c s
  | Right => loadOuterRight c s
  end.

Definition storeInner (c : Config) (s : State) (f : Face)
  : AcMesh -> Stream -> list DeviceCall :=
  match f with
  | Front => storeInnerFront c s
  | Back => storeInnerBack c s
  | Bot => storeInnerBot c s
  | Top => storeInnerTop c s
  | Left => storeInnerLeft c s
  | Right => storeInnerRight c s
  end.

(** A coordinate box: inclusive start, exclusive end. *)
Record Box := mkBox { box_start : int3; box_end : int3 }.

Definition in_box (p : int3) (b : Box) : bool :=
  (ix (box_start b) <=? ix p) && (ix p <? ix (box_end b)) &&
  (iy (box_start b) <=? iy p) && (iy p <? iy (box_end b)) &&
  (iz (box_start b) <=? iz p) && (iz p <? iz (box_end b)).

Definition box_nonempty (b : Box) : bool :=
  (ix (box_start b) <? ix (box_end b)) &&
  (iy (box_start b) <? iy (box_end b)) &&
  (iz (box_start b) <? iz (box_end b)).

Definition box_within (b outer : Box) : bool :=
  (ix (box_start outer) <=? ix (box_start b)) &&
  (ix (box_end b) <=? ix (box_end outer)) &&
  (iy (box_start outer) <=? iy (box_start b)) &&
  (iy (box_end b) <=? iy (box_end outer)) &&
  (iz (box_start outer) <=? iz (box_start b)) &&
  (iz (box_end b) <=? iz (box_end outer)).

Definition box_volume (b : Box) : Z :=
  Z.max 0 (ix (box_end b) - ix (box_start b)) *
  Z.max 0 (iy (box_end b) - iy (box_start b)) *
  Z.max 0 (iz (box_end b) - iz (box_start b)).

Definition call_stream (d : DeviceCall) : Stream :=
  match d with
  | acNodeLoadMeshWithOffset st _ _ _ _ => st
  | acNodeLoadPlateXcomp st _ _ _ _ _ => st
  | acNodeLoadPlate st _ _ _ _ _ => st
  | acNodeStoreIXYPlate st _ _ _ _ => st
  | acNodeStorePlate st _ _ _ _ _ => st
  end.

(** The box a plate call is given; a bulk copy is given none. *)
Definition plate_box (d : DeviceCall) : option Box :=
  match d with
  | acNodeLoadMeshWithOffset _ _ _ _ _ => None
  | acNodeLoadPlateXcomp _ a b _ _ _ => Some (mkBox a b)
  | acNodeLoadPlate _ a b _ _ _ => Some (mkBox a b)
  | acNodeStoreIXYPlate _ a b _ _ => Some (mkBox a b)
  | acNodeStorePlate _ a b _ _ _ => Some (mkBox a b)
  end.

(** The staging buffer a call is given, if any. *)
Definition staging_buffer (d : DeviceCall) : option ptr :=
  match d with
  | acNodeLoadMeshWithOffset _ _ _ _ _ => None
  | acNodeLoadPlateXcomp _ _ _ _ p _ => Some p
  | acNodeLoadPlate _ _ _ _ p _ => Some p
  | acNodeStoreIXYPlate _ _ _ _ _ => None
  | acNodeStorePlate _ _ _ _ p _ => Some p
  end.

(** A call moves something: its box has start < end on every axis, or its
    element count is positive. *)
Definition call_nonempty (d : DeviceCall) : bool :=
  match plate_box d with
  | Some b => box_nonempty b
  | None =>
      match d with
      | acNodeLoadMeshWithOffset _ _ _ _ n => 0 <? n
      | _ => false
      end
  end.

Definition mesh_box (c : Config) : Box :=
  mkBox (mkInt3 0 0 0) (mkInt3 (mx c) (my c) (mz c)).

Definition in_mesh (c : Config) (p : int3) : bool := in_box p (mesh_box c).

(** Modelled from the spec: the vertex index of astaroth.h is not among the
    sources.  The mesh is "laid out with the first axis fastest-varying". *)
Definition vertex_idx (c : Config) (p : int3) : Z :=
  ix p + iy p * mx c + iz p * (mx c * my c).

(** The mesh cells a call touches: those of its box, or, for a bulk copy of
    [num_vertices] elements from [src], those whose index lies in the run. *)
Definition covers (c : Config) (d : DeviceCall) (p : int3) : bool :=
  match d with
  | acNodeLoadMeshWithOffset _ _ src _ n =>
      in_mesh c p &&
      (vertex_idx c src <=? vertex_idx c p) &&
      (vertex_idx c p <? vertex_idx c src + n)
  | acNodeLoadPlateXcomp _ a b _ _ _ => in_box p (mkBox a b)
  | acNodeLoadPlate _ a b _ _ _ => in_box p (mkBox a b)
  | acNodeStoreIXYPlate _ a b _ _ => in_box p (mkBox a b)
  | acNodeStorePlate _ a b _ _ _ => in_box p (mkBox a b)
  end.

Definition load_covers (c : Config) (s : State) (f : Face) (p : int3) : bool :=
  existsb (fun d => covers c d p) (loadOuter c s f 0 STREAM_DEFAULT).

(** The interior box of the halo shell:
    [halo_widths[BOT], m - halo_widths[TOP]) on each axis. *)
Definition shell_interior (c : Config) (s : State) : Box :=
  mkBox (mkInt3 (width (halo_widths_x s) BOT)
                (width (halo_widths_y s) BOT)
                (width (halo_widths_z s) BOT))
        (mkInt3 (mx c - width (halo_widths_x s) TOP)
                (my c - width (halo_widths_y s) TOP)
                (mz c - width (halo_widths_z s) TOP)).

Definition in_halo_shell (c : Config) (s : State) (p : int3) : bool :=
  in_mesh c p && negb (in_box p (shell_interior c s)).

(** The interior region l1..l2, m1..m2, n1..n2 in 0-based
    inclusive-start, exclusive-end form. *)
Definition domain_interior (c : Config) : Box :=
  mkBox (mkInt3 (l1 c - 1) (m1 c - 1) (n1 c - 1))
        (mkInt3 (l2 c) (m2 c) (n2 c)).

(** Every box of a list of calls passes a test. *)
Definition all_boxes (P : Box -> bool) (ds : list DeviceCall) : bool :=
  forallb (fun d => match plate_box d with Some b => P b | None => true end) ds.

(** The calls of all twelve operations. *)
Definition all_faces : list Face := [Front; Back; Bot; Top; Left; Right].

Definition twelve_operations (c : Config) (s : State) (mesh : AcMesh)
  (stream : Stream) : list DeviceCall :=
  flat_map (fun f => loadOuter c s f mesh stream) all_faces ++
  flat_map (fun f => storeInner c s f mesh stream) all_faces.

(** ** Axes and the width rule in the words of the specification *)

Inductive Axis := AxisX | AxisY | AxisZ.

Definition halo_widths (s : State) (a : Axis) : HaloWidths :=
  match a with
  | AxisX => halo_widths_x s
  | AxisY => halo_widths_y s
  | AxisZ => halo_widths_z s
  end.

Definition lperi (c : Config) (a : Axis) : bool :=
  match a with
  | AxisX => lperi_0 c
  | AxisY => lperi_1 c
  | AxisZ => lperi_2 c
  end.

Definition at_edge (c : Config) (a : Axis) (i : Side) : bool :=
  match a, i with
  | AxisX, BOT => lfirst_proc_x c
  | AxisX, TOP => llast_proc_x c
  | AxisY, BOT => lfirst_proc_y c
  | AxisY, TOP => llast_proc_y c
  | AxisZ, BOT => lfirst_proc_z c
  | AxisZ, TOP => llast_proc_z c
  end.

(** "width equals the fixed ghost depth unless the axis is non-periodic AND
    the subdomain is first/last, in which case it is ghost depth + 1" *)
Definition spec_width (c : Config) (a : Axis) (i : Side) : Z :=
  if negb (lperi c a) && at_edge c a i then nghost c + 1 else nghost c.

(** The widening is switched off on Y and Z in the yin-yang mode. *)
Definition widening_enabled (c : Config) (a : Axis) : bool :=
  match a with
  | AxisX => true
  | _ => negb (lyinyang c)
  end.

(** ** Reading the allocator log *)

(** A release of a non-null address that is not live at that point: never
    handed out, or released before. *)
Fixpoint invalid_free_from (live : list ptr) (log : list MemEvent) : bool :=
  match log with
  | [] => false
  | Malloc _ p :: rest =>
      invalid_free_from (if p =? NULL then live else p :: live) rest
  | Free p :: rest =>
      if p =? NULL then invalid_free_from live rest
      else if existsb (Z.eqb p) live
           then invalid_free_from (filter (fun q => negb (q =? p)) live) rest
           else true
  end.

Definition invalid_free (log : list MemEvent) : bool :=
  invalid_free_from [] log.

(** The four releases of one teardown, in the order of the loop. *)
Definition teardown_releases (s : State) : list MemEvent :=
  [Free (get (halo_xz_buffer s) BOT); Free (get (halo_yz_buffer s) BOT);
   Free (get (halo_xz_buffer s) TOP); Free (get (halo_yz_buffer s) TOP)].

Definition buffers_allocated (s : State) : Prop :=
  get (halo_xz_buffer s) BOT <> NULL /\ get (halo_yz_buffer s) BOT <> NULL /\
  get (halo_xz_buffer s) TOP <> NULL /\ get (halo_yz_buffer s) TOP <> NULL.

(** ** Ranges in which the arithmetic of the source does not overflow *)

Definition ghost_fits (c : Config) : Prop :=
  0 <= nghost c /\ 2 * nghost c + 2 <= Int.max_int.

Definition geometry_fits (c : Config) : Prop :=
  0 <= nghost c /\ 0 <= nx c /\ 0 <= ny c /\ 0 <= nz c /\
  mx c + 2 <= Int.max_int /\ my c + 2 <= Int.max_int /\
  mz c + 2 <= Int.max_int.

(** The element count of a bulk copy fits. *)
Definition slab_fits (c : Config) : Prop :=
  mx c * my c * (nghost c + 1) <= Int.max_int.

(** The element counts of the staging buffers fit. *)
Definition sizes_fit (c : Config) : Prop :=
  0 <= NUM_VTXBUF_HANDLES c /\
  mx c * nz c * (nghost c + 1) * NUM_VTXBUF_HANDLES c <= Int.max_int /\
  ny c * nz c * (nghost c + 1) * NUM_VTXBUF_HANDLES c <= Int.max_int.

(** ** Sample configurations *)

Definition sample_config (n ng : Z) (periodic yinyang : bool) : Config :=
  {| nghost := ng; nx := n; ny := n; nz := n;
     NUM_VTXBUF_HANDLES := 8; sizeof_AcReal := 8;
     lperi_0 := periodic; lperi_1 := periodic; lperi_2 := periodic;
     lfirst_proc_x := true; llast_proc_x := true;
     lfirst_proc_y := true; llast_proc_y := true;
     lfirst_proc_z := true; llast_proc_z := true;
     lyinyang := yinyang |}.

Definition sample_heap : Heap := mkHeap [4096; 8192; 12288; 16384] [].

Definition sample_state (c : Config) : State :=
  initLoadStore c (initial_state c (mkArr2 0 0) (mkArr2 0 0) sample_heap).

(** ** Closed forms used in the statements *)

(** What [set_halo_widths] leaves in one width array: the slots of the start
    state, overwritten where the widening is [on] and the subdomain is
    [first] or [last]. *)
Definition widened (w : HaloWidths) (on first last : bool) (ng : Z) : HaloWidths :=
  let b := if on && first then ng +i 1 else w_BOT w in
  let t := if on && last then ng +i 1 else w_TOP w in
  mkWidths b t (b +i t).

(** The extra cell of a side: one where the widening applies, else none. *)
Definition extra (c : Config) (a : Axis) (i : Side) : Z :=
  if widening_enabled c a && negb (lperi c a) && at_edge c a i then 1 else 0.

(** Every width is the ghost depth, or one more. *)
Definition widths_near (c : Config) (s : State) : Prop :=
  forall a i, nghost c <= width (halo_widths s a) i <= nghost c + 1.

(** ** Properties in the words of the specification *)

(** Widths by the rule of the specification, on every axis and side. *)
Definition width_rule_as_specified (c : Config) (s : State) : Prop :=
  forall a,
    w_TOT (halo_widths s a) =
      width (halo_widths s a) BOT + width (halo_widths s a) TOP /\
    forall i, width (halo_widths s a) i = spec_width c a i.

(** The six load operations touch pairwise disjoint sets of cells, and
    together exactly the halo shell. *)
Definition loads_partition_shell (c : Config) (s : State) : Prop :=
  (forall f g p, f <> g ->
     ~ (load_covers c s f p = true /\ load_covers c s g p = true)) /\
  (forall p, (exists f, load_covers c s f p = true) <->
             in_halo_shell c s p = true).

(** Positive interior extents and ghost depth. *)
Definition positive_extents (c : Config) : Prop :=
  0 < nx c /\ 0 < ny c /\ 0 < nz c /\ 0 < nghost c.

(** Every one of the twelve operations moves a non-empty region. *)
Definition boxes_nonempty (c : Config) (s : State) : Prop :=
  forall mesh stream,
    forallb call_nonempty (twelve_operations c s mesh stream) = true.

(** Every store box lies within the interior region. *)
Definition stores_within_interior (c : Config) (s : State) : Prop :=
  forall f mesh stream,
    all_boxes (fun b => box_within b (domain_interior c))
              (storeInner c s f mesh stream) = true.

(** The non-null addresses passed to [free], in order. *)
Fixpoint releases (log : list MemEvent) : list ptr :=
  match log with
  | [] => []
  | Malloc _ _ :: rest => releases rest
  | Free p :: rest => if p =? NULL then releases rest else p :: releases rest
  end.

(** A second teardown in a row releases nothing: the log holds the same
    releases after it as before it. *)
Definition second_teardown_releases_nothing (s : State) : Prop :=
  releases (mem_log (heap (finalLoadStore (finalLoadStore s)))) =
  releases (mem_log (heap (finalLoadStore s))).

(** The three width arrays hold the ghost depth plus the extra cell of each
    side, and the sum of the two in slot TOT. *)
Definition widths_closed (c : Config) (s : State) : Prop :=
  forall a,
    halo_widths s a =
    mkWidths (nghost c + extra c a BOT) (nghost c + extra c a TOP)
             (2 * nghost c + extra c a BOT + extra c a TOP).

(** The interior extent along an axis. *)
Definition extent (c : Config) (a : Axis) : Z :=
  match a with
  | AxisX => nx c
  | AxisY => ny c
  | AxisZ => nz c
  end.

(** The extent with ghost layers along an axis. *)
Definition mesh_extent (c : Config) (a : Axis) : Z :=
  match a with
  | AxisX => mx c
  | AxisY => my c
  | AxisZ => mz c
  end.

(** The two size arrays hold the products of lines 62-63. *)
Definition sizes_closed (c : Config) (s : State) : Prop :=
  forall i,
    get (halo_xz_size s) i =
      mx c * nz c * width (halo_widths_y s) i * NUM_VTXBUF_HANDLES c /\
    get (halo_yz_size s) i =
      ny c * nz c * width (halo_widths_x s) i * NUM_VTXBUF_HANDLES c.

(** The primitive, side tag and staging buffer of each store operation. *)
Definition stores_use_primitives (c : Config) (s : State) : Prop :=
  forall mesh st,
    (exists a b,
        storeInnerFront c s mesh st = [acNodeStoreIXYPlate st a b mesh BOT]) /\
    (exists a b,
        storeInnerBack c s mesh st = [acNodeStoreIXYPlate st a b mesh TOP]) /\
    (exists a b,
        storeInnerBot c s mesh st =
        [acNodeStorePlate st a b mesh (get (halo_xz_buffer s) BOT) AC_XZ]) /\
    (exists a b,
        storeInnerTop c s mesh st =
        [acNodeStorePlate st a b mesh (get (halo_xz_buffer s) TOP) AC_XZ]) /\
    (exists a b,
        storeInnerLeft c s mesh st =
        [acNodeStorePlate st a b mesh (get (halo_yz_buffer s) BOT) AC_YZ]) /\
    (exists a b,
        storeInnerRight c s mesh st =
        [acNodeStorePlate st a b mesh (get (halo_yz_buffer s) TOP) AC_YZ]).

(** The plates of a list of calls fit into a buffer of [size] elements:
    box volume times the number of fields is at most [size]. *)
Definition plates_fit (c : Config) (size : Z) (ds : list DeviceCall) : bool :=
  all_boxes (fun b => box_volume b * NUM_VTXBUF_HANDLES c <=? size) ds.

(** Each staging buffer holds the plates staged through it by the load and
    the store operation of its face. *)
Definition staging_buffers_suffice (c : Config) (s : State) : Prop :=
  forall mesh st,
    plates_fit c (get (halo_xz_size s) BOT)
      (loadOuterBot c s mesh st ++ storeInnerBot c s mesh st) = true /\
    plates_fit c (get (halo_xz_size s) TOP)
      (loadOuterTop c s mesh st ++ storeInnerTop c s mesh st) = true /\
    plates_fit c (get (halo_yz_size s) BOT)
      (loadOuterLeft c s mesh st ++ storeInnerLeft c s mesh st) = true /\
    plates_fit c (get (halo_yz_size s) TOP)
      (loadOuterRight c s mesh st ++ storeInnerRight c s mesh st) = true.

(** The element counts of lines 62-63, as the source computes them. *)
Definition xz_count (c : Config) (s : State) (i : Side) : Z :=
  mx c *i nz c *i width (halo_widths_y s) i *i NUM_VTXBUF_HANDLES c.
Definition yz_count (c : Config) (s : State) (i : Side) : Z :=
  ny c *i nz c *i width (halo_widths_x s) i *i NUM_VTXBUF_HANDLES c.

(** A state that [initLoadStore] leaves as it is, up to allocation: the
    width arrays are stable under the widening and the size arrays hold the
    counts. *)
Definition settled (c : Config) (s : State) : Prop :=
  halo_widths_x s =
    widened (halo_widths_x s) (negb (lperi_0 c))
            (lfirst_proc_x c) (llast_proc_x c) (nghost c) /\
  halo_widths_y s =
    widened (halo_widths_y s) (negb (lyinyang c) && negb (lperi_1 c))
            (lfirst_proc_y c) (llast_proc_y c) (nghost c) /\
  halo_widths_z s =
    widened (halo_widths_z s) (negb (lyinyang c) && negb (lperi_2 c))
            (lfirst_proc_z c) (llast_proc_z c) (nghost c) /\
  (forall i, get (halo_xz_size s) i = xz_count c s i) /\
  (forall i, get (halo_yz_size s) i = yz_count c s i).

(** ** Further readings of the calls and of the allocator log *)

Definition store_covers (c : Config) (s : State) (f : Face) (p : int3) : bool :=
  existsb (fun d => covers c d p) (storeInner c s f 0 STREAM_DEFAULT).

(** The core of the interior: what is left of l1..l2, m1..m2, n1..n2 when
    the bottom and top halo widths are taken off on each axis. *)
Definition inner_core (c : Config) (s : State) : Box :=
  mkBox (mkInt3 (nghost c + width (halo_widths_x s) BOT)
                (nghost c + width (halo_widths_y s) BOT)
                (nghost c + width (halo_widths_z s) BOT))
        (mkInt3 (nghost c + nx c - width (halo_widths_x s) TOP)
                (nghost c + ny c - width (halo_widths_y s) TOP)
                (nghost c + nz c - width (halo_widths_z s) TOP)).

(** The inner shell: the interior cells outside the core. *)
Definition in_inner_shell (c : Config) (s : State) (p : int3) : bool :=
  in_box p (domain_interior c) && negb (in_box p (inner_core c s)).

(** The number of vertices (per field) a call moves. *)
Definition call_vertices (d : DeviceCall) : Z :=
  match d with
  | acNodeLoadMeshWithOffset _ _ _ _ n => n
  | acNodeLoadPlateXcomp _ a b _ _ _ => box_volume (mkBox a b)
  | acNodeLoadPlate _ a b _ _ _ => box_volume (mkBox a b)
  | acNodeStoreIXYPlate _ a b _ _ => box_volume (mkBox a b)
  | acNodeStorePlate _ a b _ _ _ => box_volume (mkBox a b)
  end.

Definition total_vertices (ds : list DeviceCall) : Z :=
  fold_right (fun d acc => call_vertices d + acc) 0 ds.

(** A call stays inside the mesh: its box lies within the mesh box, or its
    run of [num_vertices] elements from [src] lies within the vertex
    indices [0, mx*my*mz). *)
Definition call_in_mesh (c : Config) (d : DeviceCall) : bool :=
  match d with
  | acNodeLoadMeshWithOffset _ _ src _ n =>
      (0 <=? vertex_idx c src) && (0 <=? n) &&
      (vertex_idx c src + n <=? mx c * my c * mz c)
  | _ =>
      match plate_box d with
      | Some b => box_within b (mesh_box c)
      | None => false
      end
  end.

(** The six store operations touch pairwise disjoint sets of cells, and
    together exactly the inner shell. *)
Definition stores_partition_inner_shell (c : Config) (s : State) : Prop :=
  (forall f g p, f <> g ->
     ~ (store_covers c s f p = true /\ store_covers c s g p = true)) /\
  (forall p, (exists f, store_covers c s f p = true) <->
             in_inner_shell c s p = true).

(** The axis a face is normal to, its side, and the coordinate of a cell
    along an axis. *)
Definition face_axis (f : Face) : Axis :=
  match f with
  | Front | Back => AxisZ
  | Bot | Top => AxisY
  | Left | Right => AxisX
  end.

Definition face_side (f : Face) : Side :=
  match f with
  | Front | Bot | Left => BOT
  | Back | Top | Right => TOP
  end.

Definition coord (a : Axis) (p : int3) : Z :=
  match a with
  | AxisX => ix p
  | AxisY => iy p
  | AxisZ => iz p
  end.

(** The outermost interior layer behind a face: the first interior index on
    a bottom side, the last one on a top side (0-based). *)
Definition boundary_layer (c : Config) (f : Face) : Z :=
  match face_side f with
  | BOT => nghost c
  | TOP => nghost c + extent c (face_axis f) - 1
  end.

Definition is_malloc (e : MemEvent) : bool :=
  match e with Malloc _ _ => true | Free _ => false end.

Definition is_null (p : ptr) : bool := p =? NULL.

(** The number of staging buffer pointers that are null. *)
Definition null_slots (s : State) : nat :=
  length (filter is_null
            [get (halo_xz_buffer s) BOT; get (halo_yz_buffer s) BOT;
             get (halo_xz_buffer s) TOP; get (halo_yz_buffer s) TOP]).

(** The blocks that are live after a log, starting from the live blocks
    [live]: handed out and not released since. *)
Fixpoint live_from (live : list ptr) (log : list MemEvent) : list ptr :=
  match log with
  | [] => live
  | Malloc _ p :: rest =>
      live_from (if p =? NULL then live else p :: live) rest
  | Free p :: rest =>
      live_from (filter (fun q => negb (q =? p)) live) rest
  end.

(** ** The allocation behind a staging buffer *)

(** The byte count of the block that is live at address [p] after a log:
    that of the latest request that returned [p], 0 once [p] has been
    released, and 0 for the null pointer. *)
Fixpoint allocated_bytes_from (cur : Z) (p : ptr) (log : list MemEvent) : Z :=
  match log with
  | [] => cur
  | Malloc b q :: rest =>
      allocated_bytes_from (if q =? p then b else cur) p rest
  | Free q :: rest =>
      allocated_bytes_from (if q =? p then 0 else cur) p rest
  end.

Definition allocated_bytes (log : list MemEvent) (p : ptr) : Z :=
  if p =? NULL then 0 else allocated_bytes_from 0 p log.

(** The eight operations that stage a plate through a buffer of this file. *)
Definition staged_calls (c : Config) (s : State) (mesh : AcMesh) (st : Stream)
  : list DeviceCall :=
  loadOuterBot c s mesh st ++ loadOuterTop c s mesh st ++
  loadOuterLeft c s mesh st ++ loadOuterRight c s mesh st ++
  storeInnerBot c s mesh st ++ storeInnerTop c s mesh st ++
  storeInnerLeft c s mesh st ++ storeInnerRight c s mesh st.

(** The plate of a staged call fits into the block allocated at the buffer
    it is given: box volume times the number of fields times the size of an
    element is at most the byte count of that block. *)
Definition plate_within_allocation (c : Config) (log : list MemEvent)
  (d : DeviceCall) : bool :=
  match staging_buffer d, plate_box d with
  | Some p, Some b =>
      box_volume b * NUM_VTXBUF_HANDLES c * sizeof_AcReal c
      <=? allocated_bytes log p
  | _, _ => false
  end.

(** * Proofs *)

(** * Facts about the machine arithmetic *)

Lemma wrap_small (z : Z) : Int.in_range z -> Int.wrap z = z.
Proof.
  unfold Int.in_range, Int.wrap, Int.min_int, Int.max_int, Int.half, Int.modulus.
  intros Hz. rewrite Z.mod_small; lia.
Qed.

Lemma wrap_in_range (z : Z) : Int.in_range (Int.wrap z).
Proof.
  unfold Int.in_range, Int.wrap, Int.min_int, Int.max_int, Int.half, Int.modulus.
  pose proof (Z.mod_pos_bound (z + 2147483648) 4294967296 ltac:(lia)). lia.
Qed.

Ltac range_lia :=
  unfold Int.in_range, Int.min_int, Int.max_int, Int.half in *; lia.

(** Removes every reduction whose argument is seen to be in range, innermost
    first. *)
Ltac int_norm :=
  unfold Int.add, Int.sub, Int.mul in *;
  repeat match goal with
         | |- context [Int.wrap ?z] => rewrite (wrap_small z) by range_lia
         end.

(** * The halo widths after initLoadStore *)

Ltac break_alloc :=
  unfold alloc_buffers_at; cbv zeta;
  repeat match goal with
         | |- context [if ?b then _ else _] => destruct b
         | |- context [malloc ?n ?h] => destruct (malloc n h)
         end.

Lemma alloc_buffers_at_widths (c : Config) (s : State) (i : Side) :
  halo_widths_x (alloc_buffers_at c s i) = halo_widths_x s /\
  halo_widths_y (alloc_buffers_at c s i) = halo_widths_y s /\
  halo_widths_z (alloc_buffers_at c s i) = halo_widths_z s.
Proof. break_alloc; simpl; auto. Qed.

Lemma initLoadStore_widths_xyz (c : Config) (s : State) :
  halo_widths_x (initLoadStore c s) = halo_widths_x (set_halo_widths c s) /\
  halo_widths_y (initLoadStore c s) = halo_widths_y (set_halo_widths c s) /\
  halo_widths_z (initLoadStore c s) = halo_widths_z (set_halo_widths c s).
Proof.
  unfold initLoadStore; cbn [fold_left].
  destruct (alloc_buffers_at_widths c (alloc_buffers_at c (set_halo_widths c s) BOT) TOP)
    as (Hx & Hy & Hz).
  destruct (alloc_buffers_at_widths c (set_halo_widths c s) BOT)
    as (Hx' & Hy' & Hz').
  repeat apply conj; congruence.
Qed.

Lemma initLoadStore_widths_from (c : Config) (s : State) (a : Axis) :
  halo_widths (initLoadStore c s) a = halo_widths (set_halo_widths c s) a.
Proof.
  destruct (initLoadStore_widths_xyz c s) as (Hx & Hy & Hz).
  destruct a; unfold halo_widths; assumption.
Qed.

(** What [set_halo_widths] leaves in each width array, for any state. *)
Lemma set_halo_widths_x (c : Config) (s : State) :
  halo_widths_x (set_halo_widths c s) =
  widened (halo_widths_x s) (negb (lperi_0 c))
          (lfirst_proc_x c) (llast_proc_x c) (nghost c).
Proof.
  destruct c as [ng ? ? ? ? ? p0 p1 p2 fx lx fy ly fz lz yy].
  destruct s as [wx wy wz ? ? ? ? ?].
  destruct p0, fx, lx, p1, p2, fy, ly, fz, lz, yy; reflexivity.
Qed.

Lemma set_halo_widths_y (c : Config) (s : State) :
  halo_widths_y (set_halo_widths c s) =
  widened (halo_widths_y s) (negb (lyinyang c) && negb (lperi_1 c))
          (lfirst_proc_y c) (llast_proc_y c) (nghost c).
Proof.
  destruct c as [ng ? ? ? ? ? p0 p1 p2 fx lx fy ly fz lz yy].
  destruct s as [wx wy wz ? ? ? ? ?].
  destruct p0, fx, lx, p1, p2, fy, ly, fz, lz, yy; reflexivity.
Qed.

Lemma set_halo_widths_z (c : Config) (s : State) :
  halo_widths_z (set_halo_widths c s) =
  widened (halo_widths_z s) (negb (lyinyang c) && negb (lperi_2 c))
          (lfirst_proc_z c) (llast_proc_z c) (nghost c).
Proof.
  destruct c as [ng ? ? ? ? ? p0 p1 p2 fx lx fy ly fz lz yy].
  destruct s as [wx wy wz ? ? ? ? ?].
  destruct p0, fx, lx, p1, p2, fy, ly, fz, lz, yy; reflexivity.
Qed.

Lemma set_halo_widths_rest (c : Config) (s : State) :
  halo_xz_size (set_halo_widths c s) = halo_xz_size s /\
  halo_yz_size (set_halo_widths c s) = halo_yz_size s /\
  halo_xz_buffer (set_halo_widths c s) = halo_xz_buffer s /\
  halo_yz_buffer (set_halo_widths c s) = halo_yz_buffer s /\
  heap (set_halo_widths c s) = heap s.
Proof.
  destruct c as [ng ? ? ? ? ? p0 p1 p2 fx lx fy ly fz lz yy].
  destruct s as [wx wy wz ? ? ? ? ?].
  destruct p0, fx, lx, p1, p2, fy, ly, fz, lz, yy; repeat split; reflexivity.
Qed.

(** The widths in closed form: one extra cell where the widening applies. *)
Lemma extra_bounds (c : Config) (a : Axis) (i : Side) : 0 <= extra c a i <= 1.
Proof. unfold extra; destruct (_ && _); lia. Qed.

Lemma widened_initial (c : Config) (on first last : bool) :
  ghost_fits c ->
  widened (initial_widths c) on first last (nghost c) =
  mkWidths (nghost c + (if on && first then 1 else 0))
           (nghost c + (if on && last then 1 else 0))
           (2 * nghost c + (if on && first then 1 else 0)
                         + (if on && last then 1 else 0)).
Proof.
  intros [Hg Hm]. unfold widened, initial_widths.
  destruct on, first, last; cbn [andb w_BOT w_TOP]; int_norm; f_equal; lia.
Qed.

Lemma set_halo_widths_closed (c : Config) (xs ys : Arr2 Z) (h : Heap) (a : Axis) :
  ghost_fits c ->
  halo_widths (set_halo_widths c (initial_state c xs ys h)) a =
  mkWidths (nghost c + extra c a BOT) (nghost c + extra c a TOP)
           (2 * nghost c + extra c a BOT + extra c a TOP).
Proof.
  intros Hg. unfold extra.
  destruct a; unfold halo_widths, lperi, at_edge, widening_enabled;
    [rewrite set_halo_widths_x | rewrite set_halo_widths_y
     | rewrite set_halo_widths_z];
    unfold initial_state; cbn [halo_widths_x halo_widths_y halo_widths_z];
    rewrite (widened_initial c _ _ _ Hg); reflexivity.
Qed.

Lemma initLoadStore_widths_closed (c : Config) (xs ys : Arr2 Z) (h : Heap) :
  ghost_fits c ->
  widths_closed c (initLoadStore c (initial_state c xs ys h)).
Proof.
  intros Hg a. rewrite initLoadStore_widths_from.
  now apply set_halo_widths_closed.
Qed.

Lemma widths_closed_near (c : Config) (s : State) :
  widths_closed c s -> widths_near c s.
Proof.
  intros Hs a i. rewrite (Hs a).
  pose proof (extra_bounds c a BOT). pose proof (extra_bounds c a TOP).
  destruct i; cbn [width w_BOT w_TOP]; lia.
Qed.

Ltac case_flags c :=
  repeat match goal with
         | |- context [lperi_0 c] => destruct (lperi_0 c)
         | |- context [lperi_1 c] => destruct (lperi_1 c)
         | |- context [lperi_2 c] => destruct (lperi_2 c)
         | |- context [lfirst_proc_x c] => destruct (lfirst_proc_x c)
         | |- context [llast_proc_x c] => destruct (llast_proc_x c)
         | |- context [lfirst_proc_y c] => destruct (lfirst_proc_y c)
         | |- context [llast_proc_y c] => destruct (llast_proc_y c)
         | |- context [lfirst_proc_z c] => destruct (lfirst_proc_z c)
         | |- context [llast_proc_z c] => destruct (llast_proc_z c)
         | |- context [lyinyang c] => destruct (lyinyang c)
         end.

Ltac fits_tac :=
  unfold ghost_fits, geometry_fits, slab_fits, sizes_fit, mx, my, mz,
    Int.max_int, Int.half; cbn; lia.

Lemma widths_closed_explicit (c : Config) (s : State) :
  widths_closed c s ->
  width (halo_widths_x s) BOT =
    (if negb (lperi_0 c) && lfirst_proc_x c then nghost c + 1 else nghost c) /\
  width (halo_widths_x s) TOP =
    (if negb (lperi_0 c) && llast_proc_x c then nghost c + 1 else nghost c) /\
  width (halo_widths_y s) BOT =
    (if negb (lyinyang c) && (negb (lperi_1 c) && lfirst_proc_y c)
     then nghost c + 1 else nghost c) /\
  width (halo_widths_y s) TOP =
    (if negb (lyinyang c) && (negb (lperi_1 c) && llast_proc_y c)
     then nghost c + 1 else nghost c) /\
  width (halo_widths_z s) BOT =
    (if negb (lyinyang c) && (negb (lperi_2 c) && lfirst_proc_z c)
     then nghost c + 1 else nghost c) /\
  width (halo_widths_z s) TOP =
    (if negb (lyinyang c) && (negb (lperi_2 c) && llast_proc_z c)
     then nghost c + 1 else nghost c) /\
  w_TOT (halo_widths_x s) =
    width (halo_widths_x s) BOT + width (halo_widths_x s) TOP /\
  w_TOT (halo_widths_y s) =
    width (halo_widths_y s) BOT + width (halo_widths_y s) TOP /\
  w_TOT (halo_widths_z s) =
    width (halo_widths_z s) BOT + width (halo_widths_z s) TOP.
Proof.
  intros Hs.
  pose proof (Hs AxisX) as Hx. pose proof (Hs AxisY) as Hy.
  pose proof (Hs AxisZ) as Hz. unfold halo_widths in Hx, Hy, Hz.
  rewrite Hx, Hy, Hz.
  unfold extra, widening_enabled, lperi, at_edge, width, w_BOT, w_TOP, w_TOT.
  repeat apply conj; case_flags c; cbn [negb andb]; lia.
Qed.

(** C1: after [initLoadStore] every bottom and top halo width is [nghost],
    except that on a non-periodic X axis the bottom width is [nghost+1] when
    the subdomain is first along X and the top width is [nghost+1] when it is
    last; the same holds on Y and Z unless the yin-yang mode is on, in which
    case nothing is widened there; and every total is bottom plus top. *)
Theorem initLoadStore_halo_widths (c : Config) (xs ys : Arr2 Z) (h : Heap) :
  ghost_fits c ->
  let s := initLoadStore c (initial_state c xs ys h) in
  width (halo_widths_x s) BOT =
    (if negb (lperi_0 c) && lfirst_proc_x c then nghost c + 1 else nghost c) /\
  width (halo_widths_x s) TOP =
    (if negb (lperi_0 c) && llast_proc_x c then nghost c + 1 else nghost c) /\
  width (halo_widths_y s) BOT =
    (if negb (lyinyang c) && (negb (lperi_1 c) && lfirst_proc_y c)
     then nghost c + 1 else nghost c) /\
  width (halo_widths_y s) TOP =
    (if negb (lyinyang c) && (negb (lperi_1 c) && llast_proc_y c)
     then nghost c + 1 else nghost c) /\
  width (halo_widths_z s) BOT =
    (if negb (lyinyang c) && (negb (lperi_2 c) && lfirst_proc_z c)
     then nghost c + 1 else nghost c) /\
  width (halo_widths_z s) TOP =
    (if negb (lyinyang c) && (negb (lperi_2 c) && llast_proc_z c)
     then nghost c + 1 else nghost c) /\
  w_TOT (halo_widths_x s) =
    width (halo_widths_x s) BOT + width (halo_widths_x s) TOP /\
  w_TOT (halo_widths_y s) =
    width (halo_widths_y s) BOT + width (halo_widths_y s) TOP /\
  w_TOT (halo_widths_z s) =
    width (halo_widths_z s) BOT + width (halo_widths_z s) TOP.
Proof.
  intros Hg s.
  exact (widths_closed_explicit c s (initLoadStore_widths_closed c xs ys h Hg)).
Qed.

Lemma initLoadStore_halo_widths_witness :
  ghost_fits (sample_config 32 3 false true) /\
  (let s := initLoadStore (sample_config 32 3 false true)
              (initial_state (sample_config 32 3 false true)
                 (mkArr2 0 0) (mkArr2 0 0) sample_heap) in
   width (halo_widths_x s) BOT = 4 /\ width (halo_widths_y s) BOT = 3).
Proof.
  assert (Hg : ghost_fits (sample_config 32 3 false true)) by fits_tac.
  split; [exact Hg|].
  intro s.
  destruct (initLoadStore_halo_widths (sample_config 32 3 false true)
              (mkArr2 0 0) (mkArr2 0 0) sample_heap Hg)
    as (Hxb & _ & Hyb & _).
  split; [exact Hxb | exact Hyb].
Defined.

(** C3 (counterexample): the rule of the specification fails in the yin-yang
    mode.  With a non-periodic Y axis whose first subdomain this is, and
    ghost depth 3, [halo_widths_y[BOT]] is 3 where the rule gives 4. *)
Lemma width_rule_fails_in_yinyang :
  width (halo_widths_y (sample_state (sample_config 32 3 false true))) BOT = 3 /\
  spec_width (sample_config 32 3 false true) AxisY BOT = 4 /\
  ~ width_rule_as_specified (sample_config 32 3 false true)
      (sample_state (sample_config 32 3 false true)).
Proof.
  split; [vm_compute; reflexivity|]. split; [vm_compute; reflexivity|].
  intros H. destruct (H AxisY) as [_ Hw]. specialize (Hw BOT).
  vm_compute in Hw. discriminate Hw.
Qed.

Lemma widths_closed_rule (c : Config) (s : State) (a : Axis) :
  widths_closed c s ->
  w_TOT (halo_widths s a) =
    width (halo_widths s a) BOT + width (halo_widths s a) TOP /\
  forall i, width (halo_widths s a) i =
            if widening_enabled c a then spec_width c a i else nghost c.
Proof.
  intros Hs. rewrite (Hs a). unfold extra, spec_width.
  split; [cbn [w_TOT width w_BOT w_TOP]; lia|].
  intros i; destruct i; cbn [width w_BOT w_TOP];
    destruct (widening_enabled c a), (negb (lperi c a)), (at_edge c a _);
    cbn [andb]; lia.
Qed.

(** C3 (amended): after [initLoadStore], on every axis the total width is
    bottom plus top; on X always, and on Y and Z when the yin-yang mode is
    off, a side's width is the ghost depth unless the axis is non-periodic
    and the subdomain is first (bottom) or last (top) along it, in which case
    it is the ghost depth plus one; on Y and Z in the yin-yang mode both
    sides keep the ghost depth. *)
Theorem initLoadStore_width_rule
  (c : Config) (xs ys : Arr2 Z) (h : Heap) (a : Axis) :
  ghost_fits c ->
  let s := initLoadStore c (initial_state c xs ys h) in
  w_TOT (halo_widths s a) =
    width (halo_widths s a) BOT + width (halo_widths s a) TOP /\
  forall i, width (halo_widths s a) i =
            if widening_enabled c a then spec_width c a i else nghost c.
Proof.
  intros Hg s.
  exact (widths_closed_rule c s a (initLoadStore_widths_closed c xs ys h Hg)).
Qed.

Lemma initLoadStore_width_rule_witness :
  ghost_fits (sample_config 32 3 false true) /\
  (let s := initLoadStore (sample_config 32 3 false true)
              (initial_state (sample_config 32 3 false true)
                 (mkArr2 0 0) (mkArr2 0 0) sample_heap) in
   width (halo_widths s AxisY) BOT = 3 /\ width (halo_widths s AxisX) TOP = 4).
Proof.
  assert (Hg : ghost_fits (sample_config 32 3 false true)) by fits_tac.
  split; [exact Hg|].
  intro s. split.
  - exact (proj2 (initLoadStore_width_rule (sample_config 32 3 false true)
                    (mkArr2 0 0) (mkArr2 0 0) sample_heap AxisY Hg) BOT).
  - exact (proj2 (initLoadStore_width_rule (sample_config 32 3 false true)
                    (mkArr2 0 0) (mkArr2 0 0) sample_heap AxisX Hg) TOP).
Defined.

(** * The batch drivers *)

(** C8: [loadOuterHalos] issues the six load operations, all of them on
    [STREAM_DEFAULT]; [storeInnerHalos] issues the six store operations, each
    on a channel of its own, six different channels in all. *)
Theorem batch_drivers_channels (c : Config) (s : State) (mesh : AcMesh) :
  loadOuterHalos c s mesh =
    flat_map (fun f => loadOuter c s f mesh STREAM_DEFAULT)
             [Front; Back; Top; Bot; Left; Right] /\
  map call_stream (loadOuterHalos c s mesh) = repeat STREAM_DEFAULT 6 /\
  storeInnerHalos c s mesh =
    flat_map (fun fs => storeInner c s (fst fs) mesh (snd fs))
             [(Left, STREAM_4); (Right, STREAM_5); (Bot, STREAM_2);
              (Top, STREAM_3); (Front, STREAM_6); (Back, STREAM_1)] /\
  map call_stream (storeInnerHalos c s mesh) =
    [STREAM_4; STREAM_5; STREAM_2; STREAM_3; STREAM_6; STREAM_1] /\
  NoDup (map call_stream (storeInnerHalos c s mesh)).
Proof.
  repeat apply conj; try reflexivity.
  cbn [storeInnerHalos storeInnerLeft storeInnerRight storeInnerBot
       storeInnerTop storeInnerFront storeInnerBack app map call_stream].
  repeat constructor; cbn [In]; intuition discriminate.
Qed.

(** * The calls of the twelve operations in closed form *)

Lemma geometry_fits_ghost (c : Config) : geometry_fits c -> ghost_fits c.
Proof. unfold geometry_fits, ghost_fits, mx; lia. Qed.

Ltac calls_eq :=
  repeat match goal with
         | |- @eq Z _ _ => lia
         | |- _ => f_equal
         end.

Section ClosedCalls.

Variable c : Config.
Variable s : State.
Hypothesis Hgeo : geometry_fits c.
Hypothesis Hnear : widths_near c s.

Ltac closed_call :=
  pose proof (Hnear AxisX BOT); pose proof (Hnear AxisX TOP);
  pose proof (Hnear AxisY BOT); pose proof (Hnear AxisY TOP);
  pose proof (Hnear AxisZ BOT); pose proof (Hnear AxisZ TOP);
  destruct Hgeo as (? & ? & ? & ? & ? & ? & ?);
  cbn [halo_widths] in *;
  unfold int3_add, int3_sub, l1, l2, m1, m2, n1, n2, mx, my, mz in *;
  cbv zeta; cbn [ix iy iz];
  int_norm; calls_eq.

Lemma loadOuterBot_closed (mesh : AcMesh) (st : Stream) :
  loadOuterBot c s mesh st =
  [acNodeLoadPlateXcomp st
     (mkInt3 0 0 (width (halo_widths_z s) BOT))
     (mkInt3 (mx c) (width (halo_widths_y s) BOT)
             (mz c - width (halo_widths_z s) TOP))
     mesh (get (halo_xz_buffer s) BOT) AC_XZ].
Proof. unfold loadOuterBot. closed_call. Qed.

Lemma loadOuterTop_closed (mesh : AcMesh) (st : Stream) :
  loadOuterTop c s mesh st =
  [acNodeLoadPlateXcomp st
     (mkInt3 0 (my c - width (halo_widths_y s) TOP) (width (halo_widths_z s) BOT))
     (mkInt3 (mx c) (my c) (mz c - width (halo_widths_z s) TOP))
     mesh (get (halo_xz_buffer s) TOP) AC_XZ].
Proof. unfold loadOuterTop. closed_call. Qed.

Lemma loadOuterLeft_closed (mesh : AcMesh) (st : Stream) :
  loadOuterLeft c s mesh st =
  [acNodeLoadPlate st
     (mkInt3 0 (width (halo_widths_y s) BOT) (width (halo_widths_z s) BOT))
     (mkInt3 (width (halo_widths_x s) BOT)
             (my c - width (halo_widths_y s) TOP)
             (mz c - width (halo_widths_z s) TOP))
     mesh (get (halo_yz_buffer s) BOT) AC_YZ].
Proof. unfold loadOuterLeft. closed_call. Qed.

Lemma loadOuterRight_closed (mesh : AcMesh) (st : Stream) :
  loadOuterRight c s mesh st =
  [acNodeLoadPlate st
     (mkInt3 (mx c - width (halo_widths_x s) TOP)
             (width (halo_widths_y s) BOT) (width (halo_widths_z s) BOT))
     (mkInt3 (mx c)
             (my c - width (halo_widths_y s) TOP)
             (mz c - width (halo_widths_z s) TOP))
     mesh (get (halo_yz_buffer s) TOP) AC_YZ].
Proof. unfold loadOuterRight. closed_call. Qed.

Lemma storeInnerFront_closed (mesh : AcMesh) (st : Stream) :
  storeInnerFront c s mesh st =
  [acNodeStoreIXYPlate st
     (mkInt3 (nghost c) (nghost c) (nghost c))
     (mkInt3 (nghost c + nx c) (nghost c + ny c)
             (nghost c + width (halo_widths_z s) BOT))
     mesh BOT].
Proof. unfold storeInnerFront. closed_call. Qed.

Lemma storeInnerBack_closed (mesh : AcMesh) (st : Stream) :
  storeInnerBack c s mesh st =
  [acNodeStoreIXYPlate st
     (mkInt3 (nghost c) (nghost c)
             (nghost c + nz c - width (halo_widths_z s) TOP))
     (mkInt3 (nghost c + nx c) (nghost c + ny c) (nghost c + nz c))
     mesh TOP].
Proof. unfold storeInnerBack. closed_call. Qed.

Lemma storeInnerBot_closed (mesh : AcMesh) (st : Stream) :
  storeInnerBot c s mesh st =
  [acNodeStorePlate st
     (mkInt3 (nghost c) (nghost c) (nghost c + width (halo_widths_z s) BOT))
     (mkInt3 (nghost c + nx c)
             (nghost c + width (halo_widths_y s) BOT)
             (nghost c + nz c - width (halo_widths_z s) TOP))
     mesh (get (halo_xz_buffer s) BOT) AC_XZ].
Proof. unfold storeInnerBot. closed_call. Qed.

Lemma storeInnerTop_closed (mesh : AcMesh) (st : Stream) :
  storeInnerTop c s mesh st =
  [acNodeStorePlate st
     (mkInt3 (nghost c)
             (nghost c + ny c - width (halo_widths_y s) TOP)
             (nghost c + width (halo_widths_z s) BOT))
     (mkInt3 (nghost c + nx c) (nghost c + ny c)
             (nghost c + nz c - width (halo_widths_z s) TOP))
     mesh (get (halo_xz_buffer s) TOP) AC_XZ].
Proof. unfold storeInnerTop. closed_call. Qed.

Lemma storeInnerLeft_closed (mesh : AcMesh) (st : Stream) :
  storeInnerLeft c s mesh st =
  [acNodeStorePlate st
     (mkInt3 (nghost c)
             (nghost c + width (halo_widths_y s) BOT)
             (nghost c + width (halo_widths_z s) BOT))
     (mkInt3 (nghost c + width (halo_widths_x s) BOT)
             (nghost c + ny c - width (halo_widths_y s) TOP)
             (nghost c + nz c - width (halo_widths_z s) TOP))
     mesh (get (halo_yz_buffer s) BOT) AC_YZ].
Proof. unfold storeInnerLeft. closed_call. Qed.

Lemma storeInnerRight_closed (mesh : AcMesh) (st : Stream) :
  storeInnerRight c s mesh st =
  [acNodeStorePlate st
     (mkInt3 (nghost c + nx c - width (halo_widths_x s) TOP)
             (nghost c + width (halo_widths_y s) BOT)
             (nghost c + width (halo_widths_z s) BOT))
     (mkInt3 (nghost c + nx c)
             (nghost c + ny c - width (halo_widths_y s) TOP)
             (nghost c + nz c - width (halo_widths_z s) TOP))
     mesh (get (halo_yz_buffer s) TOP) AC_YZ].
Proof. unfold storeInnerRight. closed_call. Qed.

(** The two bulk copies; their element counts are products. *)
Hypothesis Hcnt : slab_fits c.

Lemma slab_count_range (i : Side) :
  0 <= mx c * my c <= Int.max_int /\
  0 <= mx c * my c * width (halo_widths_z s) i <= Int.max_int.
Proof.
  pose proof (Hnear AxisZ i) as Hw. cbn [halo_widths] in Hw.
  destruct Hgeo as (Hg & Hx & Hy & Hz & _).
  pose proof Hcnt as Hc. unfold slab_fits in Hc.
  assert (0 <= mx c) by (unfold mx; lia).
  assert (0 <= my c) by (unfold my; lia).
  assert (HP : 0 <= mx c * my c) by (apply Z.mul_nonneg_nonneg; lia).
  set (P := mx c * my c) in *.
  assert (P * width (halo_widths_z s) i <= P * (nghost c + 1))
    by (apply Z.mul_le_mono_nonneg_l; lia).
  assert (0 <= P * width (halo_widths_z s) i)
    by (apply Z.mul_nonneg_nonneg; lia).
  assert (P * 1 <= P * (nghost c + 1))
    by (apply Z.mul_le_mono_nonneg_l; lia).
  lia.
Qed.

Lemma slab_count_closed (i : Side) :
  mxy c *i width (halo_widths_z s) i =
  mx c * my c * width (halo_widths_z s) i.
Proof.
  destruct (slab_count_range i) as [H1 H2].
  unfold mxy, Int.mul.
  rewrite (wrap_small (mx c * my c)) by range_lia.
  apply wrap_small. range_lia.
Qed.

Lemma loadOuterFront_closed (mesh : AcMesh) (st : Stream) :
  loadOuterFront c s mesh st =
  [acNodeLoadMeshWithOffset st mesh (mkInt3 0 0 0) (mkInt3 0 0 0)
     (mx c * my c * width (halo_widths_z s) BOT)].
Proof.
  unfold loadOuterFront; cbv zeta. now rewrite slab_count_closed.
Qed.

Lemma loadOuterBack_closed (mesh : AcMesh) (st : Stream) :
  loadOuterBack c s mesh st =
  [acNodeLoadMeshWithOffset st mesh
     (mkInt3 0 0 (mz c - width (halo_widths_z s) TOP))
     (mkInt3 0 0 (mz c - width (halo_widths_z s) TOP))
     (mx c * my c * width (halo_widths_z s) TOP)].
Proof.
  unfold loadOuterBack; cbv zeta. rewrite slab_count_closed.
  pose proof (Hnear AxisZ TOP) as Hw. cbn [halo_widths] in Hw.
  destruct Hgeo as (? & ? & ? & ? & ? & ? & ?).
  unfold mz in *. int_norm. reflexivity.
Qed.

End ClosedCalls.

(** * The two bulk copies *)

Lemma bulk_copies_unstaged (c : Config) (s : State) (mesh : AcMesh) (st : Stream) :
  map staging_buffer (loadOuterFront c s mesh st) = [None] /\
  map staging_buffer (loadOuterBack c s mesh st) = [None].
Proof. split; reflexivity. Qed.

(** C6: for every mesh and channel, [loadOuterFront] issues exactly one bulk
    copy, of [mx*my*halo_widths_z[BOT]] elements starting at (0,0,0), and
    [loadOuterBack] exactly one, of [mx*my*halo_widths_z[TOP]] elements
    starting at (0,0,mz-halo_widths_z[TOP]); neither is given a staging
    buffer. *)
Theorem loadOuterFront_Back_bulk_copy
  (c : Config) (xs ys : Arr2 Z) (h : Heap) (mesh : AcMesh) (stream : Stream) :
  geometry_fits c -> slab_fits c ->
  let s := initLoadStore c (initial_state c xs ys h) in
  loadOuterFront c s mesh stream =
    [acNodeLoadMeshWithOffset stream mesh (mkInt3 0 0 0) (mkInt3 0 0 0)
       (mx c * my c * width (halo_widths_z s) BOT)] /\
  loadOuterBack c s mesh stream =
    [acNodeLoadMeshWithOffset stream mesh
       (mkInt3 0 0 (mz c - width (halo_widths_z s) TOP))
       (mkInt3 0 0 (mz c - width (halo_widths_z s) TOP))
       (mx c * my c * width (halo_widths_z s) TOP)] /\
  map staging_buffer (loadOuterFront c s mesh stream) = [None] /\
  map staging_buffer (loadOuterBack c s mesh stream) = [None].
Proof.
  intros Hgeo Hcnt s.
  assert (Hnear : widths_near c s)
    by (apply widths_closed_near, initLoadStore_widths_closed,
          geometry_fits_ghost, Hgeo).
  split; [exact (loadOuterFront_closed c s Hgeo Hnear Hcnt mesh stream)|].
  split; [exact (loadOuterBack_closed c s Hgeo Hnear Hcnt mesh stream)|].
  exact (bulk_copies_unstaged c s mesh stream).
Qed.

Lemma loadOuterFront_Back_bulk_copy_witness :
  geometry_fits (sample_config 32 3 false false) /\
  slab_fits (sample_config 32 3 false false) /\
  (let s := initLoadStore (sample_config 32 3 false false)
              (initial_state (sample_config 32 3 false false)
                 (mkArr2 0 0) (mkArr2 0 0) sample_heap) in
   loadOuterFront (sample_config 32 3 false false) s 7 STREAM_DEFAULT =
     [acNodeLoadMeshWithOffset STREAM_DEFAULT 7 (mkInt3 0 0 0) (mkInt3 0 0 0)
        (38 * 38 * width (halo_widths_z s) BOT)]).
Proof.
  assert (Hgeo : geometry_fits (sample_config 32 3 false false)) by fits_tac.
  assert (Hcnt : slab_fits (sample_config 32 3 false false)) by fits_tac.
  split; [exact Hgeo|]. split; [exact Hcnt|].
  intro s.
  exact (proj1 (loadOuterFront_Back_bulk_copy (sample_config 32 3 false false)
                  (mkArr2 0 0) (mkArr2 0 0) sample_heap 7 STREAM_DEFAULT
                  Hgeo Hcnt)).
Defined.

(** * The cells the load operations touch *)

Lemma in_box_iff (p : int3) (b : Box) :
  in_box p b = true <->
  ix (box_start b) <= ix p < ix (box_end b) /\
  iy (box_start b) <= iy p < iy (box_end b) /\
  iz (box_start b) <= iz p < iz (box_end b).
Proof.
  unfold in_box. rewrite !andb_true_iff, !Z.leb_le, !Z.ltb_lt. lia.
Qed.

Lemma in_mesh_iff (c : Config) (p : int3) :
  in_mesh c p = true <->
  0 <= ix p < mx c /\ 0 <= iy p < my c /\ 0 <= iz p < mz c.
Proof. unfold in_mesh. rewrite in_box_iff. reflexivity. Qed.

(** A run of [w] full planes starting at plane [z0] is the slab of those
    planes. *)
Lemma run_is_slab (c : Config) (p : int3) (z0 w : Z) :
  in_mesh c p = true ->
  (vertex_idx c (mkInt3 0 0 z0) <= vertex_idx c p <
   vertex_idx c (mkInt3 0 0 z0) + mx c * my c * w) <->
  z0 <= iz p < z0 + w.
Proof.
  rewrite in_mesh_iff. intros (Hx & Hy & _).
  unfold vertex_idx; cbn [ix iy iz].
  assert (Hr : 0 <= ix p + iy p * mx c < mx c * my c) by nia.
  set (r := ix p + iy p * mx c) in *.
  set (M := mx c * my c) in *.
  replace (0 + 0 * mx c + z0 * M) with (z0 * M) by lia.
  replace (ix p + iy p * mx c + iz p * M) with (r + iz p * M) by (unfold r; lia).
  split.
  - intros [H1 H2]. split.
    + destruct (Z_lt_le_dec (iz p) z0) as [Hlt|]; [|assumption].
      assert (iz p * M <= (z0 - 1) * M)
        by (apply Z.mul_le_mono_nonneg_r; lia).
      lia.
    + destruct (Z_lt_le_dec (iz p) (z0 + w)) as [|Hge]; [assumption|].
      assert ((z0 + w) * M <= iz p * M)
        by (apply Z.mul_le_mono_nonneg_r; lia).
      lia.
  - intros [H1 H2]. split.
    + assert (z0 * M <= iz p * M)
        by (apply Z.mul_le_mono_nonneg_r; lia).
      lia.
    + assert (iz p * M <= (z0 + w - 1) * M)
        by (apply Z.mul_le_mono_nonneg_r; lia).
      lia.
Qed.

Section LoadCoverage.

Variable c : Config.
Variable s : State.
Hypothesis Hgeo : geometry_fits c.
Hypothesis Hcnt : slab_fits c.
Hypothesis Hnear : widths_near c s.

Lemma load_covers_Front (p : int3) :
  load_covers c s Front p = true <->
  in_mesh c p = true /\ 0 <= iz p < width (halo_widths_z s) BOT.
Proof.
  unfold load_covers, loadOuter.
  rewrite (loadOuterFront_closed c s Hgeo Hnear Hcnt).
  cbn [existsb covers]. rewrite orb_false_r, !andb_true_iff, Z.leb_le, Z.ltb_lt.
  split.
  - intros [[Hm H1] H2]. split; [exact Hm|].
    pose proof (proj1 (run_is_slab c p 0 _ Hm) (conj H1 H2)). lia.
  - intros [Hm Hz].
    destruct (proj2 (run_is_slab c p 0 (width (halo_widths_z s) BOT) Hm)
                ltac:(lia)) as [H1 H2].
    auto.
Qed.

Lemma load_covers_Back (p : int3) :
  load_covers c s Back p = true <->
  in_mesh c p = true /\
  mz c - width (halo_widths_z s) TOP <= iz p < mz c.
Proof.
  unfold load_covers, loadOuter.
  rewrite (loadOuterBack_closed c s Hgeo Hnear Hcnt).
  cbn [existsb covers]. rewrite orb_false_r, !andb_true_iff, Z.leb_le, Z.ltb_lt.
  split.
  - intros [[Hm H1] H2]. split; [exact Hm|].
    pose proof (proj1 (run_is_slab c p _ _ Hm) (conj H1 H2)). lia.
  - intros [Hm Hz].
    destruct (proj2 (run_is_slab c p (mz c - width (halo_widths_z s) TOP)
                       (width (halo_widths_z s) TOP) Hm)
                ltac:(lia)) as [H1 H2].
    auto.
Qed.

Lemma load_covers_Bot (p : int3) :
  load_covers c s Bot p = true <->
  0 <= ix p < mx c /\ 0 <= iy p < width (halo_widths_y s) BOT /\
  width (halo_widths_z s) BOT <= iz p < mz c - width (halo_widths_z s) TOP.
Proof.
  unfold load_covers, loadOuter.
  rewrite (loadOuterBot_closed c s Hgeo Hnear).
  cbn [existsb covers]. rewrite orb_false_r, in_box_iff. reflexivity.
Qed.

Lemma load_covers_Top (p : int3) :
  load_covers c s Top p = true <->
  0 <= ix p < mx c /\ my c - width (halo_widths_y s) TOP <= iy p < my c /\
  width (halo_widths_z s) BOT <= iz p < mz c - width (halo_widths_z s) TOP.
Proof.
  unfold load_covers, loadOuter.
  rewrite (loadOuterTop_closed c s Hgeo Hnear).
  cbn [existsb covers]. rewrite orb_false_r, in_box_iff. reflexivity.
Qed.

Lemma load_covers_Left (p : int3) :
  load_covers c s Left p = true <->
  0 <= ix p < width (halo_widths_x s) BOT /\
  width (halo_widths_y s) BOT <= iy p < my c - width (halo_widths_y s) TOP /\
  width (halo_widths_z s) BOT <= iz p < mz c - width (halo_widths_z s) TOP.
Proof.
  unfold load_covers, loadOuter.
  rewrite (loadOuterLeft_closed c s Hgeo Hnear).
  cbn [existsb covers]. rewrite orb_false_r, in_box_iff. reflexivity.
Qed.

Lemma load_covers_Right (p : int3) :
  load_covers c s Right p = true <->
  mx c - width (halo_widths_x s) TOP <= ix p < mx c /\
  width (halo_widths_y s) BOT <= iy p < my c - width (halo_widths_y s) TOP /\
  width (halo_widths_z s) BOT <= iz p < mz c - width (halo_widths_z s) TOP.
Proof.
  unfold load_covers, loadOuter.
  rewrite (loadOuterRight_closed c s Hgeo Hnear).
  cbn [existsb covers]. rewrite orb_false_r, in_box_iff. reflexivity.
Qed.

Lemma in_halo_shell_iff (p : int3) :
  in_halo_shell c s p = true <->
  (0 <= ix p < mx c /\ 0 <= iy p < my c /\ 0 <= iz p < mz c) /\
  ~ (width (halo_widths_x s) BOT <= ix p < mx c - width (halo_widths_x s) TOP /\
     width (halo_widths_y s) BOT <= iy p < my c - width (halo_widths_y s) TOP /\
     width (halo_widths_z s) BOT <= iz p < mz c - width (halo_widths_z s) TOP).
Proof.
  unfold in_halo_shell.
  rewrite andb_true_iff, negb_true_iff, <- not_true_iff_false, in_mesh_iff,
    in_box_iff.
  reflexivity.
Qed.

Ltac face_facts :=
  repeat match goal with
         | H : load_covers c s Front _ = true |- _ =>
             apply load_covers_Front in H; rewrite in_mesh_iff in H
         | H : load_covers c s Back _ = true |- _ =>
             apply load_covers_Back in H; rewrite in_mesh_iff in H
         | H : load_covers c s Bot _ = true |- _ => apply load_covers_Bot in H
         | H : load_covers c s Top _ = true |- _ => apply load_covers_Top in H
         | H : load_covers c s Left _ = true |- _ => apply load_covers_Left in H
         | H : load_covers c s Right _ = true |- _ => apply load_covers_Right in H
         end.

(** On every axis the two halo widths fit into the mesh extent. *)
Hypothesis Hfit :
  forall a, width (halo_widths s a) BOT + width (halo_widths s a) TOP
            <= mesh_extent c a.

Lemma loads_partition_shell_closed : loads_partition_shell c s.
Proof.
  pose proof (Hnear AxisX BOT); pose proof (Hnear AxisX TOP);
  pose proof (Hnear AxisY BOT); pose proof (Hnear AxisY TOP);
  pose proof (Hnear AxisZ BOT); pose proof (Hnear AxisZ TOP).
  pose proof (Hfit AxisX); pose proof (Hfit AxisY); pose proof (Hfit AxisZ).
  destruct Hgeo as (Hg & _).
  cbn [halo_widths mesh_extent] in *.
  split.
  - intros f g p Hfg [Hf Hg'].
    destruct f, g; try congruence; face_facts; lia.
  - intros p. rewrite in_halo_shell_iff. split.
    + intros [f Hf]. destruct f; face_facts; lia.
    + intros [(Hx & Hy & Hz) Hout].
      destruct (Z_lt_le_dec (iz p) (width (halo_widths_z s) BOT)).
      { exists Front. apply load_covers_Front. rewrite in_mesh_iff. lia. }
      destruct (Z_lt_le_dec (iz p) (mz c - width (halo_widths_z s) TOP)).
      2:{ exists Back. apply load_covers_Back. rewrite in_mesh_iff. lia. }
      destruct (Z_lt_le_dec (iy p) (width (halo_widths_y s) BOT)).
      { exists Bot. apply load_covers_Bot. lia. }
      destruct (Z_lt_le_dec (iy p) (my c - width (halo_widths_y s) TOP)).
      2:{ exists Top. apply load_covers_Top. lia. }
      destruct (Z_lt_le_dec (ix p) (width (halo_widths_x s) BOT)).
      { exists Left. apply load_covers_Left. lia. }
      destruct (Z_lt_le_dec (ix p) (mx c - width (halo_widths_x s) TOP)).
      2:{ exists Right. apply load_covers_Right. lia. }
      exfalso. apply Hout. lia.
Qed.

End LoadCoverage.

(** C2 (counterexample): with one interior plane on a non-periodic Z axis
    held by a single subdomain and ghost depth 3 (so [mz] is 7 and both Z
    widths are 4), [loadOuterFront] copies the planes 0..3 and
    [loadOuterBack] the planes 3..6: both touch the cell (0,0,3). *)
Lemma loads_overlap_in_thin_domain :
  loadOuterFront (sample_config 1 3 false false)
    (sample_state (sample_config 1 3 false false)) 0 STREAM_DEFAULT =
    [acNodeLoadMeshWithOffset STREAM_DEFAULT 0
       (mkInt3 0 0 0) (mkInt3 0 0 0) (7 * 7 * 4)] /\
  loadOuterBack (sample_config 1 3 false false)
    (sample_state (sample_config 1 3 false false)) 0 STREAM_DEFAULT =
    [acNodeLoadMeshWithOffset STREAM_DEFAULT 0
       (mkInt3 0 0 3) (mkInt3 0 0 3) (7 * 7 * 4)] /\
  ~ loads_partition_shell (sample_config 1 3 false false)
      (sample_state (sample_config 1 3 false false)).
Proof.
  split; [vm_compute; reflexivity|]. split; [vm_compute; reflexivity|].
  intros [Hdisj _].
  apply (Hdisj Front Back (mkInt3 0 0 3)); [discriminate|].
  split; vm_compute; reflexivity.
Qed.

(** Two interior cells per axis are enough for the widths to fit. *)
Lemma halo_fits_mesh_from_two_cells (c : Config) (s : State) :
  widths_near c s -> 2 <= nx c -> 2 <= ny c -> 2 <= nz c ->
  forall a, width (halo_widths s a) BOT + width (halo_widths s a) TOP
            <= mesh_extent c a.
Proof.
  intros Hnear Hx Hy Hz a.
  pose proof (Hnear a BOT). pose proof (Hnear a TOP).
  destruct a; unfold mesh_extent, mx, my, mz; lia.
Qed.

(** C2 (amended): for every initialized configuration in which, on each
    axis, the bottom and top halo widths together do not exceed the mesh
    extent, the cells touched by the six load operations are pairwise
    disjoint and their union is exactly the halo shell: the mesh cells
    outside the interior box. *)
Theorem loads_partition_halo_shell
  (c : Config) (xs ys : Arr2 Z) (h : Heap) :
  geometry_fits c -> slab_fits c ->
  let s := initLoadStore c (initial_state c xs ys h) in
  (forall a, width (halo_widths s a) BOT + width (halo_widths s a) TOP
             <= mesh_extent c a) ->
  loads_partition_shell c s.
Proof.
  intros Hgeo Hcnt s Hfit.
  assert (Hnear : widths_near c s)
    by (apply widths_closed_near, initLoadStore_widths_closed,
          geometry_fits_ghost, Hgeo).
  exact (loads_partition_shell_closed c s Hgeo Hcnt Hnear Hfit).
Qed.

Lemma loads_partition_halo_shell_witness :
  geometry_fits (sample_config 32 3 false false) /\
  slab_fits (sample_config 32 3 false false) /\
  (let s := initLoadStore (sample_config 32 3 false false)
              (initial_state (sample_config 32 3 false false)
                 (mkArr2 0 0) (mkArr2 0 0) sample_heap) in
   (forall a, width (halo_widths s a) BOT + width (halo_widths s a) TOP
              <= mesh_extent (sample_config 32 3 false false) a) /\
   loads_partition_shell (sample_config 32 3 false false) s).
Proof.
  assert (Hgeo : geometry_fits (sample_config 32 3 false false)) by fits_tac.
  assert (Hcnt : slab_fits (sample_config 32 3 false false)) by fits_tac.
  split; [exact Hgeo|]. split; [exact Hcnt|].
  intro s.
  assert (Hfit : forall a,
             width (halo_widths s a) BOT + width (halo_widths s a) TOP
             <= mesh_extent (sample_config 32 3 false false) a)
    by (intros a; destruct a; vm_compute; discriminate).
  split; [exact Hfit|].
  exact (loads_partition_halo_shell (sample_config 32 3 false false)
           (mkArr2 0 0) (mkArr2 0 0) sample_heap Hgeo Hcnt Hfit).
Defined.

(** * Non-empty boxes *)

Section Boxes.

Variable c : Config.
Variable s : State.
Hypothesis Hgeo : geometry_fits c.
Hypothesis Hcnt : slab_fits c.
Hypothesis Hclosed : widths_closed c s.

Let Hnear : widths_near c s := widths_closed_near c s Hclosed.

Lemma twelve_operations_closed (mesh : AcMesh) (st : Stream) :
  twelve_operations c s mesh st =
  loadOuterFront c s mesh st ++ loadOuterBack c s mesh st ++
  loadOuterBot c s mesh st ++ loadOuterTop c s mesh st ++
  loadOuterLeft c s mesh st ++ loadOuterRight c s mesh st ++
  storeInnerFront c s mesh st ++ storeInnerBack c s mesh st ++
  storeInnerBot c s mesh st ++ storeInnerTop c s mesh st ++
  storeInnerLeft c s mesh st ++ storeInnerRight c s mesh st.
Proof. reflexivity. Qed.

Ltac width_facts :=
  pose proof (Hnear AxisX BOT); pose proof (Hnear AxisX TOP);
  pose proof (Hnear AxisY BOT); pose proof (Hnear AxisY TOP);
  pose proof (Hnear AxisZ BOT); pose proof (Hnear AxisZ TOP);
  pose proof (f_equal w_TOT (Hclosed AxisX));
  pose proof (f_equal w_TOT (Hclosed AxisY));
  pose proof (f_equal w_TOT (Hclosed AxisZ));
  pose proof (f_equal w_BOT (Hclosed AxisX));
  pose proof (f_equal w_BOT (Hclosed AxisY));
  pose proof (f_equal w_BOT (Hclosed AxisZ));
  pose proof (f_equal w_TOP (Hclosed AxisX));
  pose proof (f_equal w_TOP (Hclosed AxisY));
  pose proof (f_equal w_TOP (Hclosed AxisZ));
  cbn [halo_widths width w_TOT w_BOT w_TOP] in *.

Ltac rewrite_calls mesh st :=
  rewrite ?(loadOuterFront_closed c s Hgeo Hnear Hcnt mesh st),
    ?(loadOuterBack_closed c s Hgeo Hnear Hcnt mesh st),
    ?(loadOuterBot_closed c s Hgeo Hnear mesh st),
    ?(loadOuterTop_closed c s Hgeo Hnear mesh st),
    ?(loadOuterLeft_closed c s Hgeo Hnear mesh st),
    ?(loadOuterRight_closed c s Hgeo Hnear mesh st),
    ?(storeInnerFront_closed c s Hgeo Hnear mesh st),
    ?(storeInnerBack_closed c s Hgeo Hnear mesh st),
    ?(storeInnerBot_closed c s Hgeo Hnear mesh st),
    ?(storeInnerTop_closed c s Hgeo Hnear mesh st),
    ?(storeInnerLeft_closed c s Hgeo Hnear mesh st),
    ?(storeInnerRight_closed c s Hgeo Hnear mesh st).

Lemma boxes_nonempty_closed :
  0 < nghost c -> 0 < nx c ->
  w_TOT (halo_widths_y s) < ny c -> w_TOT (halo_widths_z s) < nz c ->
  boxes_nonempty c s.
Proof.
  intros Hng Hnx Hy Hz mesh st.
  rewrite twelve_operations_closed. rewrite_calls mesh st.
  width_facts.
  pose proof (extra_bounds c AxisY BOT); pose proof (extra_bounds c AxisY TOP).
  pose proof (extra_bounds c AxisZ BOT); pose proof (extra_bounds c AxisZ TOP).
  assert (0 < mx c * my c)
    by (apply Z.mul_pos_pos; unfold mx, my; lia).
  assert (0 < mx c * my c * w_BOT (halo_widths_z s))
    by (apply Z.mul_pos_pos; lia).
  assert (0 < mx c * my c * w_TOP (halo_widths_z s))
    by (apply Z.mul_pos_pos; lia).
  cbn [app forallb call_nonempty plate_box].
  unfold box_nonempty; cbn [box_start box_end ix iy iz].
  unfold mx, my, mz in *.
  rewrite !andb_true_iff, !Z.ltb_lt. lia.
Qed.

(** * Store boxes and the interior region *)

Lemma stores_within_interior_closed :
  (forall a i, width (halo_widths s a) i <= extent c a) ->
  stores_within_interior c s.
Proof.
  intros Hle f mesh st.
  pose proof (Hle AxisX BOT); pose proof (Hle AxisX TOP);
  pose proof (Hle AxisY BOT); pose proof (Hle AxisY TOP);
  pose proof (Hle AxisZ BOT); pose proof (Hle AxisZ TOP).
  width_facts. cbn [extent] in *.
  destruct Hgeo as (Hg & Hx & Hy & Hz & _).
  destruct f; unfold storeInner; rewrite_calls mesh st;
    unfold all_boxes; cbn [forallb plate_box];
    unfold box_within, domain_interior; cbn [box_start box_end ix iy iz width];
    unfold l1, l2, m1, m2, n1, n2, mx, my, mz;
    rewrite !andb_true_iff, !Z.leb_le; lia.
Qed.

Lemma stores_use_primitives_always : stores_use_primitives c s.
Proof.
  intros mesh st. repeat apply conj; eexists; eexists; reflexivity.
Qed.

End Boxes.

(** C4 (counterexample): with one interior cell per axis, ghost depth 3 and
    every side widened, the extents are positive and the box of
    [loadOuterBot] runs from plane 4 to plane 3 along Z. *)
Lemma boxes_empty_at_minimal_extents :
  positive_extents (sample_config 1 3 false false) /\
  loadOuterBot (sample_config 1 3 false false)
    (sample_state (sample_config 1 3 false false)) 0 STREAM_DEFAULT =
    [acNodeLoadPlateXcomp STREAM_DEFAULT (mkInt3 0 0 4) (mkInt3 7 4 3)
       0 4096 AC_XZ] /\
  ~ boxes_nonempty (sample_config 1 3 false false)
      (sample_state (sample_config 1 3 false false)).
Proof.
  split; [unfold positive_extents; cbn; lia|].
  split; [vm_compute; reflexivity|].
  intros H. specialize (H 0 STREAM_DEFAULT). vm_compute in H. discriminate H.
Qed.

(** C4 (amended): for every configuration with a positive ghost depth, a
    positive interior extent along X, and interior extents along Y and Z
    that exceed the total halo width of their axis, every coordinate box
    built by the twelve operations after [initLoadStore] has start < end on
    all three axes, and the two bulk copies move a positive number of
    elements. *)
Theorem boxes_nonempty_when_interior_exceeds_halo
  (c : Config) (xs ys : Arr2 Z) (h : Heap) :
  geometry_fits c -> slab_fits c ->
  0 < nghost c -> 0 < nx c ->
  let s := initLoadStore c (initial_state c xs ys h) in
  w_TOT (halo_widths_y s) < ny c -> w_TOT (halo_widths_z s) < nz c ->
  boxes_nonempty c s.
Proof.
  intros Hgeo Hcnt Hng Hnx s.
  exact (boxes_nonempty_closed c s Hgeo Hcnt
           (initLoadStore_widths_closed c xs ys h (geometry_fits_ghost c Hgeo))
           Hng Hnx).
Qed.

Lemma boxes_nonempty_when_interior_exceeds_halo_witness :
  geometry_fits (sample_config 32 3 false false) /\
  slab_fits (sample_config 32 3 false false) /\
  0 < nghost (sample_config 32 3 false false) /\
  0 < nx (sample_config 32 3 false false) /\
  (let s := initLoadStore (sample_config 32 3 false false)
              (initial_state (sample_config 32 3 false false)
                 (mkArr2 0 0) (mkArr2 0 0) sample_heap) in
   w_TOT (halo_widths_y s) < ny (sample_config 32 3 false false) /\
   w_TOT (halo_widths_z s) < nz (sample_config 32 3 false false) /\
   boxes_nonempty (sample_config 32 3 false false) s).
Proof.
  assert (Hgeo : geometry_fits (sample_config 32 3 false false)) by fits_tac.
  assert (Hcnt : slab_fits (sample_config 32 3 false false)) by fits_tac.
  assert (Hng : 0 < nghost (sample_config 32 3 false false)) by (cbn; lia).
  assert (Hnx : 0 < nx (sample_config 32 3 false false)) by (cbn; lia).
  do 4 (split; [assumption|]).
  intro s.
  assert (Hy : w_TOT (halo_widths_y s) < ny (sample_config 32 3 false false))
    by (vm_compute; reflexivity).
  assert (Hz : w_TOT (halo_widths_z s) < nz (sample_config 32 3 false false))
    by (vm_compute; reflexivity).
  do 2 (split; [assumption|]).
  exact (boxes_nonempty_when_interior_exceeds_halo
           (sample_config 32 3 false false)
           (mkArr2 0 0) (mkArr2 0 0) sample_heap Hgeo Hcnt Hng Hnx Hy Hz).
Defined.

(** C7 (counterexample): with three interior cells per axis, ghost depth 3
    and every side widened, the interior region is the cells 3..5 on each
    axis, and the box of [storeInnerFront] runs over the planes 3..6
    along Z. *)
Lemma store_box_leaves_interior :
  domain_interior (sample_config 3 3 false false) =
    mkBox (mkInt3 3 3 3) (mkInt3 6 6 6) /\
  storeInnerFront (sample_config 3 3 false false)
    (sample_state (sample_config 3 3 false false)) 0 STREAM_DEFAULT =
    [acNodeStoreIXYPlate STREAM_DEFAULT (mkInt3 3 3 3) (mkInt3 6 6 7) 0 BOT] /\
  ~ stores_within_interior (sample_config 3 3 false false)
      (sample_state (sample_config 3 3 false false)).
Proof.
  split; [vm_compute; reflexivity|]. split; [vm_compute; reflexivity|].
  intros H. specialize (H Front 0 STREAM_DEFAULT).
  vm_compute in H. discriminate H.
Qed.

(** An interior extent of at least [nghost+1] per axis is enough for the
    widths not to exceed it. *)
Lemma halo_within_extent_from_ghost_depth (c : Config) (s : State) :
  widths_near c s ->
  nghost c + 1 <= nx c -> nghost c + 1 <= ny c -> nghost c + 1 <= nz c ->
  forall a i, width (halo_widths s a) i <= extent c a.
Proof.
  intros Hnear Hx Hy Hz a i. pose proof (Hnear a i).
  destruct a; unfold extent; lia.
Qed.

(** C7 (amended): for every configuration whose bottom and top halo widths
    do not exceed the interior extent of their axis, after [initLoadStore]
    every store box lies within the interior region l1..l2, m1..m2, n1..n2
    (0-based, exclusive end); [storeInnerFront] and [storeInnerBack] call the
    inner-plane primitive with the side tags BOT and TOP, and the other four
    stores call the staged-plate primitive, each with a staging buffer of
    its own. *)
Theorem stores_target_interior
  (c : Config) (xs ys : Arr2 Z) (h : Heap) :
  geometry_fits c ->
  let s := initLoadStore c (initial_state c xs ys h) in
  (forall a i, width (halo_widths s a) i <= extent c a) ->
  stores_within_interior c s /\ stores_use_primitives c s.
Proof.
  intros Hgeo s Hle. split.
  - exact (stores_within_interior_closed c s Hgeo
             (initLoadStore_widths_closed c xs ys h
                (geometry_fits_ghost c Hgeo)) Hle).
  - exact (stores_use_primitives_always c s).
Qed.

Lemma stores_target_interior_witness :
  geometry_fits (sample_config 32 3 false false) /\
  (let s := initLoadStore (sample_config 32 3 false false)
              (initial_state (sample_config 32 3 false false)
                 (mkArr2 0 0) (mkArr2 0 0) sample_heap) in
   (forall a i, width (halo_widths s a) i
                <= extent (sample_config 32 3 false false) a) /\
   stores_within_interior (sample_config 32 3 false false) s /\
   stores_use_primitives (sample_config 32 3 false false) s).
Proof.
  assert (Hgeo : geometry_fits (sample_config 32 3 false false)) by fits_tac.
  split; [exact Hgeo|].
  intro s.
  assert (Hle : forall a i, width (halo_widths s a) i
                            <= extent (sample_config 32 3 false false) a)
    by (intros a i; destruct a, i; vm_compute; discriminate).
  split; [exact Hle|].
  exact (stores_target_interior (sample_config 32 3 false false)
           (mkArr2 0 0) (mkArr2 0 0) sample_heap Hgeo Hle).
Defined.

(** * What initLoadStore leaves in the size arrays *)

Lemma alloc_buffers_at_sizes (c : Config) (s : State) (i : Side) :
  halo_xz_size (alloc_buffers_at c s i) = set (halo_xz_size s) i (xz_count c s i) /\
  halo_yz_size (alloc_buffers_at c s i) = set (halo_yz_size s) i (yz_count c s i).
Proof. break_alloc; simpl; auto. Qed.

Lemma get_set {A} (a : Arr2 A) (i j : Side) (v : A) :
  get (set a i v) j = if match i, j with BOT, BOT | TOP, TOP => true | _, _ => false end
                      then v else get a j.
Proof. destruct i, j; reflexivity. Qed.

Lemma xz_count_widths (c : Config) (s s' : State) (i : Side) :
  halo_widths_y s' = halo_widths_y s -> xz_count c s' i = xz_count c s i.
Proof. unfold xz_count. now intros ->. Qed.

Lemma yz_count_widths (c : Config) (s s' : State) (i : Side) :
  halo_widths_x s' = halo_widths_x s -> yz_count c s' i = yz_count c s i.
Proof. unfold yz_count. now intros ->. Qed.

Lemma initLoadStore_sizes (c : Config) (s : State) (i : Side) :
  get (halo_xz_size (initLoadStore c s)) i = xz_count c (initLoadStore c s) i /\
  get (halo_yz_size (initLoadStore c s)) i = yz_count c (initLoadStore c s) i.
Proof.
  unfold initLoadStore; cbn [fold_left].
  set (s0 := set_halo_widths c s).
  set (s1 := alloc_buffers_at c s0 BOT).
  destruct (alloc_buffers_at_widths c s0 BOT) as (Hx0 & Hy0 & _).
  destruct (alloc_buffers_at_widths c s1 TOP) as (Hx1 & Hy1 & _).
  destruct (alloc_buffers_at_sizes c s0 BOT) as (Hxz0 & Hyz0).
  destruct (alloc_buffers_at_sizes c s1 TOP) as (Hxz1 & Hyz1).
  fold s1 in Hx0, Hy0, Hxz0, Hyz0.
  rewrite Hxz1, Hyz1, Hxz0, Hyz0, !get_set.
  rewrite (xz_count_widths c s1 (alloc_buffers_at c s1 TOP) i Hy1).
  rewrite (yz_count_widths c s1 (alloc_buffers_at c s1 TOP) i Hx1).
  rewrite (xz_count_widths c s0 s1 i Hy0), (yz_count_widths c s0 s1 i Hx0).
  rewrite (xz_count_widths c s0 s1 TOP Hy0), (yz_count_widths c s0 s1 TOP Hx0).
  destruct i; auto.
Qed.

(** A product of three bounded factors and a field count. *)
Lemma volume_le (a b d n a' b' d' : Z) :
  0 <= a <= a' -> 0 <= b <= b' -> 0 <= d <= d' -> 0 <= n ->
  a * b * d * n <= a' * b' * d' * n.
Proof.
  intros Ha Hb Hd Hn.
  apply Z.mul_le_mono_nonneg_r; [exact Hn|].
  assert (0 <= a * b) by (apply Z.mul_nonneg_nonneg; lia).
  assert (a * b <= a' * b') by (apply Z.mul_le_mono_nonneg; lia).
  apply Z.mul_le_mono_nonneg; lia.
Qed.

(** Reduction commutes with multiplication: only the full product has to
    be in range. *)
Lemma wrap_mul_wrap_l (a b : Z) : Int.wrap (Int.wrap a * b) = Int.wrap (a * b).
Proof.
  unfold Int.wrap. f_equal.
  rewrite (Z.mod_eq (a + Int.half) Int.modulus) by (unfold Int.modulus; lia).
  replace ((a + Int.half - Int.modulus * ((a + Int.half) / Int.modulus)
            - Int.half) * b + Int.half)
    with (a * b + Int.half + (- ((a + Int.half) / Int.modulus) * b) * Int.modulus)
    by ring.
  apply Z_mod_plus_full.
Qed.

Section Sizes.

Variable c : Config.
Variable s : State.
Hypothesis Hgeo : geometry_fits c.
Hypothesis Hcnt : sizes_fit c.
Hypothesis Hclosed : widths_closed c s.

Let Hnear : widths_near c s := widths_closed_near c s Hclosed.

Lemma xz_count_closed (i : Side) :
  xz_count c s i =
  mx c * nz c * width (halo_widths_y s) i * NUM_VTXBUF_HANDLES c.
Proof.
  pose proof (Hnear AxisY i) as Hw. cbn [halo_widths] in Hw.
  destruct Hgeo as (Hg & Hx & Hy & Hz & _).
  destruct Hcnt as (Hn & Hc & _).
  assert (0 <= mx c) by (unfold mx; lia).
  pose proof (volume_le (mx c) (nz c) (width (halo_widths_y s) i)
                (NUM_VTXBUF_HANDLES c) (mx c) (nz c) (nghost c + 1)
                ltac:(lia) ltac:(lia) ltac:(lia) Hn) as Hle.
  assert (0 <= mx c * nz c * width (halo_widths_y s) i * NUM_VTXBUF_HANDLES c)
    by (repeat apply Z.mul_nonneg_nonneg; lia).
  unfold xz_count, Int.mul.
  rewrite (wrap_mul_wrap_l (mx c * nz c)), wrap_mul_wrap_l.
  apply wrap_small. range_lia.
Qed.

Lemma yz_count_closed (i : Side) :
  yz_count c s i =
  ny c * nz c * width (halo_widths_x s) i * NUM_VTXBUF_HANDLES c.
Proof.
  pose proof (Hnear AxisX i) as Hw. cbn [halo_widths] in Hw.
  destruct Hgeo as (Hg & Hx & Hy & Hz & _).
  destruct Hcnt as (Hn & _ & Hc).
  pose proof (volume_le (ny c) (nz c) (width (halo_widths_x s) i)
                (NUM_VTXBUF_HANDLES c) (ny c) (nz c) (nghost c + 1)
                ltac:(lia) ltac:(lia) ltac:(lia) Hn) as Hle.
  assert (0 <= ny c * nz c * width (halo_widths_x s) i * NUM_VTXBUF_HANDLES c)
    by (repeat apply Z.mul_nonneg_nonneg; lia).
  unfold yz_count, Int.mul.
  rewrite (wrap_mul_wrap_l (ny c * nz c)), wrap_mul_wrap_l.
  apply wrap_small. range_lia.
Qed.

Hypothesis Hxz : forall i, get (halo_xz_size s) i = xz_count c s i.
Hypothesis Hyz : forall i, get (halo_yz_size s) i = yz_count c s i.

Lemma sizes_closed_settled : sizes_closed c s.
Proof.
  intros i. rewrite Hxz, Hyz, xz_count_closed, yz_count_closed. auto.
Qed.

Ltac xz_fits :=
  match goal with
  | |- _ <= ?a * ?d * ?b * ?n =>
      replace (a * d * b * n) with (a * b * d * n) by ring;
      apply volume_le; lia
  end.

Ltac yz_fits :=
  match goal with
  | |- _ <= ?b * ?d * ?a * ?n =>
      replace (b * d * a * n) with (a * b * d * n) by ring;
      apply volume_le; lia
  end.

Lemma staging_buffers_suffice_closed : staging_buffers_suffice c s.
Proof.
  intros mesh st.
  rewrite (loadOuterBot_closed c s Hgeo Hnear mesh st),
    (loadOuterTop_closed c s Hgeo Hnear mesh st),
    (loadOuterLeft_closed c s Hgeo Hnear mesh st),
    (loadOuterRight_closed c s Hgeo Hnear mesh st),
    (storeInnerBot_closed c s Hgeo Hnear mesh st),
    (storeInnerTop_closed c s Hgeo Hnear mesh st),
    (storeInnerLeft_closed c s Hgeo Hnear mesh st),
    (storeInnerRight_closed c s Hgeo Hnear mesh st).
  destruct (sizes_closed_settled BOT) as [-> ->].
  destruct (sizes_closed_settled TOP) as [-> ->].
  pose proof (Hnear AxisX BOT); pose proof (Hnear AxisX TOP);
  pose proof (Hnear AxisY BOT); pose proof (Hnear AxisY TOP);
  pose proof (Hnear AxisZ BOT); pose proof (Hnear AxisZ TOP).
  cbn [halo_widths] in *.
  destruct Hgeo as (Hg & Hx & Hy & Hz & _).
  destruct Hcnt as (Hn & _).
  unfold plates_fit, all_boxes; cbn [app forallb plate_box].
  unfold box_volume; cbn [box_start box_end ix iy iz].
  rewrite !andb_true_iff, !Z.leb_le.
  unfold mx, my, mz in *.
  repeat apply conj; try reflexivity; first [xz_fits | yz_fits].
Qed.

End Sizes.


(** * Re-initialisation *)

Lemma State_eq (s t : State) :
  halo_widths_x s = halo_widths_x t -> halo_widths_y s = halo_widths_y t ->
  halo_widths_z s = halo_widths_z t ->
  halo_xz_size s = halo_xz_size t -> halo_yz_size s = halo_yz_size t ->
  halo_xz_buffer s = halo_xz_buffer t -> halo_yz_buffer s = halo_yz_buffer t ->
  heap s = heap t -> s = t.
Proof. destruct s, t; simpl; intros; subst; reflexivity. Qed.

Lemma widened_idem (w : HaloWidths) (on first last : bool) (ng : Z) :
  widened (widened w on first last ng) on first last ng =
  widened w on first last ng.
Proof. destruct on, first, last; reflexivity. Qed.

Lemma set_get {A} (a : Arr2 A) (i : Side) : set a i (get a i) = a.
Proof. destruct a, i; reflexivity. Qed.

Lemma alloc_buffers_at_rest (c : Config) (s : State) (i : Side) :
  get (halo_xz_buffer s) i <> NULL -> get (halo_yz_buffer s) i <> NULL ->
  halo_xz_buffer (alloc_buffers_at c s i) = halo_xz_buffer s /\
  halo_yz_buffer (alloc_buffers_at c s i) = halo_yz_buffer s /\
  heap (alloc_buffers_at c s i) = heap s.
Proof.
  intros Hxz Hyz. apply Z.eqb_neq in Hxz, Hyz.
  unfold alloc_buffers_at; cbv zeta.
  cbn [halo_xz_buffer halo_yz_buffer with_xz_size with_yz_size].
  rewrite Hxz. cbn [halo_yz_buffer with_xz_size with_yz_size].
  rewrite Hyz. repeat split; reflexivity.
Qed.

(** After [initLoadStore] the state is settled, whatever the state before. *)
Lemma initLoadStore_settled (c : Config) (s : State) :
  settled c (initLoadStore c s).
Proof.
  destruct (initLoadStore_widths_xyz c s) as (Hx & Hy & Hz).
  unfold settled. rewrite Hx, Hy, Hz.
  rewrite set_halo_widths_x, set_halo_widths_y, set_halo_widths_z.
  rewrite !widened_idem.
  split; [reflexivity|]. split; [reflexivity|]. split; [reflexivity|].
  split; intro i;
    [exact (proj1 (initLoadStore_sizes c s i))
    | exact (proj2 (initLoadStore_sizes c s i))].
Qed.

Lemma set_halo_widths_settled (c : Config) (s : State) :
  settled c s -> set_halo_widths c s = s.
Proof.
  intros (Hx & Hy & Hz & _).
  destruct (set_halo_widths_rest c s) as (H1 & H2 & H3 & H4 & H5).
  apply State_eq; try assumption.
  - rewrite set_halo_widths_x. now symmetry.
  - rewrite set_halo_widths_y. now symmetry.
  - rewrite set_halo_widths_z. now symmetry.
Qed.

Lemma alloc_buffers_at_settled (c : Config) (s : State) (i : Side) :
  settled c s ->
  get (halo_xz_buffer s) i <> NULL -> get (halo_yz_buffer s) i <> NULL ->
  alloc_buffers_at c s i = s.
Proof.
  intros (_ & _ & _ & Hxz & Hyz) Hbx Hby.
  destruct (alloc_buffers_at_widths c s i) as (H1 & H2 & H3).
  destruct (alloc_buffers_at_sizes c s i) as (H4 & H5).
  destruct (alloc_buffers_at_rest c s i Hbx Hby) as (H6 & H7 & H8).
  apply State_eq; try assumption.
  - rewrite H4, <- Hxz. apply set_get.
  - rewrite H5, <- Hyz. apply set_get.
Qed.

Lemma initLoadStore_settled_noop (c : Config) (s : State) :
  settled c s -> buffers_allocated s -> initLoadStore c s = s.
Proof.
  intros Hs (Hb1 & Hb2 & Hb3 & Hb4).
  unfold initLoadStore; cbn [fold_left].
  rewrite (set_halo_widths_settled c s Hs).
  rewrite (alloc_buffers_at_settled c s BOT Hs Hb1 Hb2).
  apply (alloc_buffers_at_settled c s TOP Hs Hb3 Hb4).
Qed.

(** C5: a second [initLoadStore] after a first one that left all four
    staging buffers allocated changes nothing: the four buffer pointers keep
    their values, the allocator is not called (its log and its supply are
    those of the first call), and the width and size arrays are recomputed
    to the same values. *)
Theorem initLoadStore_idempotent (c : Config) (s0 : State) :
  buffers_allocated (initLoadStore c s0) ->
  let s1 := initLoadStore c s0 in
  let s2 := initLoadStore c s1 in
  s2 = s1 /\
  halo_xz_buffer s2 = halo_xz_buffer s1 /\
  halo_yz_buffer s2 = halo_yz_buffer s1 /\
  heap s2 = heap s1 /\
  (forall a, halo_widths s2 a = halo_widths s1 a) /\
  halo_xz_size s2 = halo_xz_size s1 /\
  halo_yz_size s2 = halo_yz_size s1.
Proof.
  intros Hb s1 s2.
  assert (H : s2 = s1)
    by exact (initLoadStore_settled_noop c s1 (initLoadStore_settled c s0) Hb).
  clearbody s2 s1. subst s2. repeat split; reflexivity.
Qed.

Lemma initLoadStore_idempotent_witness :
  buffers_allocated
    (initLoadStore (sample_config 32 3 false false)
       (initial_state (sample_config 32 3 false false)
          (mkArr2 0 0) (mkArr2 0 0) sample_heap)) /\
  (let s1 := initLoadStore (sample_config 32 3 false false)
               (initial_state (sample_config 32 3 false false)
                  (mkArr2 0 0) (mkArr2 0 0) sample_heap) in
   initLoadStore (sample_config 32 3 false false) s1 = s1).
Proof.
  assert (Hb : buffers_allocated
            (initLoadStore (sample_config 32 3 false false)
               (initial_state (sample_config 32 3 false false)
                  (mkArr2 0 0) (mkArr2 0 0) sample_heap)))
    by (repeat split; vm_compute; discriminate).
  split; [exact Hb|].
  exact (proj1 (initLoadStore_idempotent (sample_config 32 3 false false)
                  (initial_state (sample_config 32 3 false false)
                     (mkArr2 0 0) (mkArr2 0 0) sample_heap) Hb)).
Defined.

(** * The first allocation *)

(** One pass of the loop on a slot whose two pointers are null, with two
    addresses left in the supply: both buffers are requested, the XZ one
    first, each with the byte count of its size. *)
Lemma alloc_buffers_at_null (c : Config) (s : State) (i : Side)
  (p q : ptr) (rest : list ptr) :
  get (halo_xz_buffer s) i = NULL -> get (halo_yz_buffer s) i = NULL ->
  supply (heap s) = p :: q :: rest ->
  halo_xz_buffer (alloc_buffers_at c s i) = set (halo_xz_buffer s) i p /\
  halo_yz_buffer (alloc_buffers_at c s i) = set (halo_yz_buffer s) i q /\
  heap (alloc_buffers_at c s i) =
    mkHeap rest (mem_log (heap s) ++
                 [Malloc (alloc_bytes c (xz_count c s i)) p;
                  Malloc (alloc_bytes c (yz_count c s i)) q]).
Proof.
  intros Hx Hy Hs.
  destruct s as [wx wy wz xs ys [bx0 bx1] [by0 by1] [sup log]].
  cbn [halo_xz_buffer halo_yz_buffer heap supply] in Hx, Hy, Hs. subst sup.
  destruct i; cbn [get at_BOT at_TOP] in Hx, Hy; subst;
    unfold alloc_buffers_at, xz_count, yz_count, malloc; cbn;
    rewrite <- app_assoc; repeat split; reflexivity.
Qed.

(** The first [initLoadStore] of a program, with four addresses left in the
    supply: the four buffers are requested in the order XZ bottom, YZ bottom,
    XZ top, YZ top, each with the byte count of its size array entry. *)
Lemma initLoadStore_first_allocation
  (c : Config) (xs ys : Arr2 Z) (log : list MemEvent)
  (p1 p2 p3 p4 : ptr) (rest : list ptr) :
  let s := initLoadStore c
             (initial_state c xs ys (mkHeap (p1 :: p2 :: p3 :: p4 :: rest) log)) in
  halo_xz_buffer s = mkArr2 p1 p3 /\
  halo_yz_buffer s = mkArr2 p2 p4 /\
  heap s =
    mkHeap rest
      (log ++ [Malloc (alloc_bytes c (get (halo_xz_size s) BOT)) p1;
               Malloc (alloc_bytes c (get (halo_yz_size s) BOT)) p2;
               Malloc (alloc_bytes c (get (halo_xz_size s) TOP)) p3;
               Malloc (alloc_bytes c (get (halo_yz_size s) TOP)) p4]).
Proof.
  intros s.
  destruct (initLoadStore_sizes c
              (initial_state c xs ys (mkHeap (p1 :: p2 :: p3 :: p4 :: rest) log))
              BOT) as [HxzB HyzB].
  destruct (initLoadStore_sizes c
              (initial_state c xs ys (mkHeap (p1 :: p2 :: p3 :: p4 :: rest) log))
              TOP) as [HxzT HyzT].
  fold s in HxzB, HyzB, HxzT, HyzT.
  rewrite HxzB, HyzB, HxzT, HyzT. clear HxzB HyzB HxzT HyzT.
  destruct (initLoadStore_widths_xyz c
              (initial_state c xs ys (mkHeap (p1 :: p2 :: p3 :: p4 :: rest) log)))
    as (Hwx & Hwy & _).
  fold s in Hwx, Hwy.
  subst s. unfold initLoadStore in *; cbn [fold_left] in *.
  set (s0 := set_halo_widths c
               (initial_state c xs ys
                  (mkHeap (p1 :: p2 :: p3 :: p4 :: rest) log))) in *.
  destruct (set_halo_widths_rest c
              (initial_state c xs ys (mkHeap (p1 :: p2 :: p3 :: p4 :: rest) log)))
    as (_ & _ & Hbx & Hby & Hh).
  fold s0 in Hbx, Hby, Hh.
  unfold initial_state in Hbx, Hby, Hh;
    cbn [halo_xz_buffer halo_yz_buffer heap] in Hbx, Hby, Hh.
  destruct (alloc_buffers_at_null c s0 BOT p1 p2 (p3 :: p4 :: rest))
    as (Hx1 & Hy1 & Hh1);
    [rewrite Hbx; reflexivity | rewrite Hby; reflexivity
     | rewrite Hh; reflexivity |].
  destruct (alloc_buffers_at_widths c s0 BOT) as (Hw1x & Hw1y & _).
  set (s1 := alloc_buffers_at c s0 BOT) in *.
  destruct (alloc_buffers_at_null c s1 TOP p3 p4 rest)
    as (Hx2 & Hy2 & Hh2);
    [rewrite Hx1, Hbx; reflexivity | rewrite Hy1, Hby; reflexivity
     | rewrite Hh1; reflexivity |].
  destruct (alloc_buffers_at_widths c s1 TOP) as (Hw2x & Hw2y & _).
  rewrite Hx2, Hy2, Hh2, Hx1, Hy1, Hh1, Hbx, Hby, Hh.
  cbn [set mem_log at_BOT at_TOP].
  rewrite <- app_assoc. cbn [app].
  rewrite (xz_count_widths c s1 _ BOT Hw2y), (yz_count_widths c s1 _ BOT Hw2x).
  rewrite (xz_count_widths c s1 _ TOP Hw2y), (yz_count_widths c s1 _ TOP Hw2x).
  rewrite (xz_count_widths c s0 s1 BOT Hw1y), (yz_count_widths c s0 s1 BOT Hw1x).
  repeat split; reflexivity.
Qed.

(** The byte count of a request is the element count times the size of an
    element, when the count is a non-negative [int] and the element size is
    that of a machine type. *)
Lemma alloc_bytes_exact (c : Config) (size : Z) :
  0 <= size <= Int.max_int -> 0 <= sizeof_AcReal c <= 64 ->
  alloc_bytes c size = size * sizeof_AcReal c.
Proof.
  intros Hsize Hel.
  unfold alloc_bytes, Int.to_size_t, Int.size_mul, Int.size_modulus,
    Int.max_int, Int.half in *.
  rewrite (Z.mod_small size) by lia.
  apply Z.mod_small. nia.
Qed.

(** * Teardown *)

Lemma releases_app (l l' : list MemEvent) :
  releases (l ++ l') = releases l ++ releases l'.
Proof.
  induction l as [|e l IH]; [reflexivity|].
  destruct e as [n p|p]; cbn [app releases]; [exact IH|].
  destruct (p =? NULL); cbn [app]; now rewrite IH.
Qed.

Lemma finalLoadStore_closed (s : State) :
  finalLoadStore s =
  with_heap s (mkHeap (supply (heap s)) (mem_log (heap s) ++ teardown_releases s)).
Proof.
  destruct s as [wx wy wz xs ys bx by_ [sup log]].
  unfold finalLoadStore, free_buffers_at, free, with_heap, teardown_releases;
    cbn [fold_left halo_widths_x halo_widths_y halo_widths_z halo_xz_size
         halo_yz_size halo_xz_buffer halo_yz_buffer heap supply mem_log].
  rewrite <- !app_assoc. reflexivity.
Qed.

(** C9 (counterexample): after initialisation and a first teardown of the
    sample state the four pointers still hold the released addresses, and a
    second teardown passes every one of them to [free] again. *)
Lemma second_teardown_releases_again :
  halo_xz_buffer (finalLoadStore (sample_state (sample_config 32 3 false false)))
    = mkArr2 4096 12288 /\
  halo_yz_buffer (finalLoadStore (sample_state (sample_config 32 3 false false)))
    = mkArr2 8192 16384 /\
  releases
    (mem_log (heap (finalLoadStore (finalLoadStore
       (sample_state (sample_config 32 3 false false))))))
    = [4096; 8192; 12288; 16384; 4096; 8192; 12288; 16384] /\
  invalid_free
    (mem_log (heap (finalLoadStore (finalLoadStore
       (sample_state (sample_config 32 3 false false)))))) = true /\
  ~ second_teardown_releases_nothing
      (sample_state (sample_config 32 3 false false)).
Proof.
  repeat apply conj; try (vm_compute; reflexivity).
  unfold second_teardown_releases_nothing. vm_compute. discriminate.
Qed.

(** C9 (amended): [finalLoadStore] passes the four buffer pointers to [free],
    once each and in the order of its loop, and changes nothing else: the
    pointers keep their values and are not set to null.  Invoked twice in a
    row it passes the same four pointers to [free] a second time: the second
    call adds the non-null ones among them once more to the releases of the
    first. *)
Theorem finalLoadStore_releases_on_every_call (s : State) :
  let s1 := finalLoadStore s in
  let s2 := finalLoadStore s1 in
  s1 = with_heap s (mkHeap (supply (heap s))
                           (mem_log (heap s) ++ teardown_releases s)) /\
  halo_xz_buffer s1 = halo_xz_buffer s /\
  halo_yz_buffer s1 = halo_yz_buffer s /\
  mem_log (heap s2) =
    mem_log (heap s) ++ teardown_releases s ++ teardown_releases s /\
  releases (mem_log (heap s2)) =
    releases (mem_log (heap s1)) ++ releases (teardown_releases s).
Proof.
  intros s1 s2. subst s2 s1. rewrite !finalLoadStore_closed.
  destruct s as [wx wy wz xs ys bx by_ [sup log]].
  cbn [with_heap heap halo_xz_buffer halo_yz_buffer supply mem_log
       teardown_releases halo_widths_x halo_widths_y halo_widths_z
       halo_xz_size halo_yz_size].
  rewrite <- !app_assoc, !releases_app.
  repeat split; try reflexivity.
  now rewrite <- app_assoc.
Qed.

(** * What initLoadStore allocates, from any state *)

(** One pass of the loop: a request for each null pointer of the slot, in
    the order XZ, YZ; pointers that are not null, and those of the other
    slot, stay. *)
Lemma alloc_buffers_at_effect (c : Config) (s : State) (i : Side) :
  exists l,
    mem_log (heap (alloc_buffers_at c s i)) = mem_log (heap s) ++ l /\
    length l =
      length (filter is_null [get (halo_xz_buffer s) i; get (halo_yz_buffer s) i]) /\
    forallb is_malloc l = true /\
    (forall j, get (halo_xz_buffer s) j <> NULL ->
               get (halo_xz_buffer (alloc_buffers_at c s i)) j =
               get (halo_xz_buffer s) j) /\
    (forall j, get (halo_yz_buffer s) j <> NULL ->
               get (halo_yz_buffer (alloc_buffers_at c s i)) j =
               get (halo_yz_buffer s) j) /\
    (forall j, j <> i ->
               get (halo_xz_buffer (alloc_buffers_at c s i)) j =
               get (halo_xz_buffer s) j /\
               get (halo_yz_buffer (alloc_buffers_at c s i)) j =
               get (halo_yz_buffer s) j).
Proof.
  destruct s as [wx wy wz xs ys [bx0 bx1] [by0 by1] [sup log]].
  destruct i; unfold alloc_buffers_at, malloc, is_null; cbn.
  - destruct (bx0 =? NULL) eqn:Ex; destruct (by0 =? NULL) eqn:Ey;
      destruct sup as [|p [|q sup]]; cbn; rewrite ?Ey; cbn;
      eexists; (split; [try rewrite <- app_assoc; try reflexivity;
                        symmetry; apply app_nil_r|]);
      (split; [reflexivity|]); (split; [reflexivity|]);
      (split; [|split]); intros j Hj; destruct j; cbn in *;
      try (apply Z.eqb_eq in Ex); try (apply Z.eqb_eq in Ey);
      try split; try reflexivity; congruence.
  - destruct (bx1 =? NULL) eqn:Ex; destruct (by1 =? NULL) eqn:Ey;
      destruct sup as [|p [|q sup]]; cbn; rewrite ?Ey; cbn;
      eexists; (split; [try rewrite <- app_assoc; try reflexivity;
                        symmetry; apply app_nil_r|]);
      (split; [reflexivity|]); (split; [reflexivity|]);
      (split; [|split]); intros j Hj; destruct j; cbn in *;
      try (apply Z.eqb_eq in Ex); try (apply Z.eqb_eq in Ey);
      try split; try reflexivity; congruence.
Qed.

Lemma initLoadStore_unfold (c : Config) (s : State) :
  initLoadStore c s =
  alloc_buffers_at c (alloc_buffers_at c (set_halo_widths c s) BOT) TOP.
Proof. reflexivity. Qed.

(** X1: from any state and under any configuration, [initLoadStore] calls
    [malloc] exactly once for each of the four buffer pointers that is null
    and never [free]; a pointer that is not null keeps its value. *)
Theorem initLoadStore_allocates_null_slots (c : Config) (s : State) :
  exists l,
    mem_log (heap (initLoadStore c s)) = mem_log (heap s) ++ l /\
    length l = null_slots s /\
    forallb is_malloc l = true /\
    (forall j, get (halo_xz_buffer s) j <> NULL ->
               get (halo_xz_buffer (initLoadStore c s)) j =
               get (halo_xz_buffer s) j) /\
    (forall j, get (halo_yz_buffer s) j <> NULL ->
               get (halo_yz_buffer (initLoadStore c s)) j =
               get (halo_yz_buffer s) j).
Proof.
  rewrite initLoadStore_unfold.
  destruct (set_halo_widths_rest c s) as (_ & _ & Hbx & Hby & Hh).
  unfold null_slots. rewrite <- Hbx, <- Hby, <- Hh.
  generalize (set_halo_widths c s). clear s Hbx Hby Hh. intros s0.
  destruct (alloc_buffers_at_effect c s0 BOT)
    as (l1 & Hl1 & Hn1 & Hm1 & Hx1 & Hy1 & Ho1).
  destruct (Ho1 TOP ltac:(discriminate)) as [HxT HyT].
  revert Hl1 Hx1 Hy1 HxT HyT. clear Ho1.
  generalize (alloc_buffers_at c s0 BOT). intros s1 Hl1 Hx1 Hy1 HxT HyT.
  destruct (alloc_buffers_at_effect c s1 TOP)
    as (l2 & Hl2 & Hn2 & Hm2 & Hx2 & Hy2 & _).
  revert Hl2 Hx2 Hy2. generalize (alloc_buffers_at c s1 TOP).
  intros s2 Hl2 Hx2 Hy2.
  exists (l1 ++ l2). split; [|split; [|split; [|split]]].
  - rewrite Hl2, Hl1. now rewrite app_assoc.
  - rewrite length_app, Hn1, Hn2, HxT, HyT.
    change [get (halo_xz_buffer s0) BOT; get (halo_yz_buffer s0) BOT;
            get (halo_xz_buffer s0) TOP; get (halo_yz_buffer s0) TOP]
      with ([get (halo_xz_buffer s0) BOT; get (halo_yz_buffer s0) BOT] ++
            [get (halo_xz_buffer s0) TOP; get (halo_yz_buffer s0) TOP]).
    now rewrite filter_app, length_app.
  - rewrite forallb_app, Hm1, Hm2. reflexivity.
  - intros j Hj. rewrite Hx2; [now apply Hx1|]. now rewrite Hx1.
  - intros j Hj. rewrite Hy2; [now apply Hy1|]. now rewrite Hy1.
Qed.

(** * Re-initialisation under another configuration *)

Lemma initLoadStore_allocated_rest (c : Config) (s : State) :
  buffers_allocated s ->
  halo_xz_buffer (initLoadStore c s) = halo_xz_buffer s /\
  halo_yz_buffer (initLoadStore c s) = halo_yz_buffer s /\
  heap (initLoadStore c s) = heap s.
Proof.
  intros (Hb1 & Hb2 & Hb3 & Hb4).
  rewrite initLoadStore_unfold.
  destruct (set_halo_widths_rest c s) as (_ & _ & Hbx & Hby & Hh).
  rewrite <- Hbx in Hb1, Hb3. rewrite <- Hby in Hb2, Hb4.
  rewrite <- Hbx, <- Hby, <- Hh.
  revert Hb1 Hb2 Hb3 Hb4. generalize (set_halo_widths c s).
  clear s Hbx Hby Hh. intros s0 Hb1 Hb2 Hb3 Hb4.
  destruct (alloc_buffers_at_rest c s0 BOT Hb1 Hb2) as (Hx1 & Hy1 & Hh1).
  rewrite <- Hx1 in Hb3. rewrite <- Hy1 in Hb4.
  rewrite <- Hx1, <- Hy1, <- Hh1.
  revert Hb3 Hb4. generalize (alloc_buffers_at c s0 BOT).
  clear s0 Hb1 Hb2 Hx1 Hy1 Hh1. intros s1 Hb3 Hb4.
  exact (alloc_buffers_at_rest c s1 TOP Hb3 Hb4).
Qed.

(** X2: once the four buffers are allocated, [initLoadStore] under any
    configuration, also one with other extents, leaves the buffer pointers
    and the allocator as they are, while it overwrites the size arrays with
    the counts of that configuration: the sizes follow the configuration,
    the buffers do not. *)
Theorem initLoadStore_keeps_buffers_resizes
  (c2 : Config) (s : State) :
  buffers_allocated s ->
  halo_xz_buffer (initLoadStore c2 s) = halo_xz_buffer s /\
  halo_yz_buffer (initLoadStore c2 s) = halo_yz_buffer s /\
  heap (initLoadStore c2 s) = heap s /\
  forall i,
    get (halo_xz_size (initLoadStore c2 s)) i =
      xz_count c2 (initLoadStore c2 s) i /\
    get (halo_yz_size (initLoadStore c2 s)) i =
      yz_count c2 (initLoadStore c2 s) i.
Proof.
  intros Hb.
  destruct (initLoadStore_allocated_rest c2 s Hb) as (Hx & Hy & Hh).
  split; [exact Hx|]. split; [exact Hy|]. split; [exact Hh|].
  intro i. exact (initLoadStore_sizes c2 s i).
Qed.

Lemma initLoadStore_keeps_buffers_resizes_witness :
  buffers_allocated (sample_state (sample_config 32 3 false false)) /\
  halo_xz_buffer (initLoadStore (sample_config 64 3 false false)
                    (sample_state (sample_config 32 3 false false))) =
    mkArr2 4096 12288 /\
  heap (initLoadStore (sample_config 64 3 false false)
          (sample_state (sample_config 32 3 false false))) =
    heap (sample_state (sample_config 32 3 false false)) /\
  get (halo_xz_size (sample_state (sample_config 32 3 false false))) BOT
    = 38 * 32 * 4 * 8 /\
  get (halo_xz_size (initLoadStore (sample_config 64 3 false false)
                       (sample_state (sample_config 32 3 false false)))) BOT
    = 70 * 64 * 4 * 8.
Proof.
  assert (Hb : buffers_allocated (sample_state (sample_config 32 3 false false)))
    by (repeat split; vm_compute; discriminate).
  destruct (initLoadStore_keeps_buffers_resizes
              (sample_config 64 3 false false)
              (sample_state (sample_config 32 3 false false)) Hb)
    as (Hx & _ & Hh & Hs).
  split; [exact Hb|]. split; [rewrite Hx; vm_compute; reflexivity|].
  split; [exact Hh|]. split; [vm_compute; reflexivity|].
  rewrite (proj1 (Hs BOT)). vm_compute. reflexivity.
Defined.

(** * Teardown followed by initialisation *)

Lemma settled_with_heap (c : Config) (s : State) (h : Heap) :
  settled c s -> settled c (with_heap s h).
Proof. intros Hs. exact Hs. Qed.

Lemma In_releases_app_r (p : ptr) (l l' : list MemEvent) :
  In p (releases l') -> In p (releases (l ++ l')).
Proof. intros H. rewrite releases_app. apply in_or_app. now right. Qed.

Lemma teardown_releases_all (s : State) :
  buffers_allocated s ->
  releases (teardown_releases s) =
  [get (halo_xz_buffer s) BOT; get (halo_yz_buffer s) BOT;
   get (halo_xz_buffer s) TOP; get (halo_yz_buffer s) TOP].
Proof.
  intros (H1 & H2 & H3 & H4). apply Z.eqb_neq in H1, H2, H3, H4.
  unfold teardown_releases; cbn [releases]. now rewrite H1, H2, H3, H4.
Qed.

Lemma reinit_after_teardown_settled (c : Config) (s : State) :
  settled c s -> buffers_allocated s ->
  initLoadStore c (finalLoadStore s) = finalLoadStore s /\
  halo_xz_buffer (finalLoadStore s) = halo_xz_buffer s /\
  halo_yz_buffer (finalLoadStore s) = halo_yz_buffer s /\
  (forall i, In (get (halo_xz_buffer s) i)
                (releases (mem_log (heap (finalLoadStore s))))) /\
  (forall i, In (get (halo_yz_buffer s) i)
                (releases (mem_log (heap (finalLoadStore s))))).
Proof.
  intros Hs Hb. rewrite finalLoadStore_closed.
  split; [|split; [reflexivity|split; [reflexivity|]]].
  - apply initLoadStore_settled_noop; [apply settled_with_heap, Hs | exact Hb].
  - cbn [with_heap heap mem_log].
    split; intros i; apply In_releases_app_r;
      rewrite (teardown_releases_all s Hb); destruct i; cbn [In]; auto.
Qed.

(** X3: after a successful [initLoadStore] and a [finalLoadStore], a further
    [initLoadStore] allocates nothing and changes nothing: the four buffer
    pointers are still the addresses of the first allocation, every one of
    which has been passed to [free]. *)
Theorem initLoadStore_after_teardown_reuses_released
  (c : Config) (s0 : State) :
  buffers_allocated (initLoadStore c s0) ->
  let s1 := initLoadStore c s0 in
  let s2 := finalLoadStore s1 in
  let s3 := initLoadStore c s2 in
  s3 = s2 /\
  halo_xz_buffer s2 = halo_xz_buffer s1 /\
  halo_yz_buffer s2 = halo_yz_buffer s1 /\
  (forall i, In (get (halo_xz_buffer s1) i) (releases (mem_log (heap s2)))) /\
  (forall i, In (get (halo_yz_buffer s1) i) (releases (mem_log (heap s2)))).
Proof.
  intros Hb s1 s2 s3.
  exact (reinit_after_teardown_settled c s1 (initLoadStore_settled c s0) Hb).
Qed.

Lemma initLoadStore_after_teardown_reuses_released_witness :
  buffers_allocated
    (initLoadStore (sample_config 32 3 false false)
       (initial_state (sample_config 32 3 false false)
          (mkArr2 0 0) (mkArr2 0 0) sample_heap)) /\
  (let s1 := initLoadStore (sample_config 32 3 false false)
               (initial_state (sample_config 32 3 false false)
                  (mkArr2 0 0) (mkArr2 0 0) sample_heap) in
   initLoadStore (sample_config 32 3 false false) (finalLoadStore s1) =
   finalLoadStore s1).
Proof.
  assert (Hb : buffers_allocated
            (initLoadStore (sample_config 32 3 false false)
               (initial_state (sample_config 32 3 false false)
                  (mkArr2 0 0) (mkArr2 0 0) sample_heap)))
    by (repeat split; vm_compute; discriminate).
  split; [exact Hb|].
  exact (proj1 (initLoadStore_after_teardown_reuses_released
                  (sample_config 32 3 false false)
                  (initial_state (sample_config 32 3 false false)
                     (mkArr2 0 0) (mkArr2 0 0) sample_heap) Hb)).
Defined.

(** * One initialisation and one teardown from program start *)

Lemma lifecycle_log_clean (b1 b2 b3 b4 : Z) (p1 p2 p3 p4 : ptr) :
  NoDup [p1; p2; p3; p4] -> ~ In NULL [p1; p2; p3; p4] ->
  invalid_free
    ([Malloc b1 p1; Malloc b2 p2; Malloc b3 p3; Malloc b4 p4] ++
     [Free p1; Free p2; Free p3; Free p4]) = false /\
  live_from []
    ([Malloc b1 p1; Malloc b2 p2; Malloc b3 p3; Malloc b4 p4] ++
     [Free p1; Free p2; Free p3; Free p4]) = [].
Proof.
  intros Hnd Hnn.
  assert (Hn1 : (p1 =? NULL) = false) by (apply Z.eqb_neq; cbn in Hnn; intuition).
  assert (Hn2 : (p2 =? NULL) = false) by (apply Z.eqb_neq; cbn in Hnn; intuition).
  assert (Hn3 : (p3 =? NULL) = false) by (apply Z.eqb_neq; cbn in Hnn; intuition).
  assert (Hn4 : (p4 =? NULL) = false) by (apply Z.eqb_neq; cbn in Hnn; intuition).
  inversion Hnd as [|? ? Hi1 Hnd1]; subst.
  inversion Hnd1 as [|? ? Hi2 Hnd2]; subst.
  inversion Hnd2 as [|? ? Hi3 Hnd3]; subst.
  cbn [In] in Hi1, Hi2, Hi3.
  assert (H12 : (p1 =? p2) = false) by (apply Z.eqb_neq; intuition).
  assert (H13 : (p1 =? p3) = false) by (apply Z.eqb_neq; intuition).
  assert (H14 : (p1 =? p4) = false) by (apply Z.eqb_neq; intuition).
  assert (H23 : (p2 =? p3) = false) by (apply Z.eqb_neq; intuition).
  assert (H24 : (p2 =? p4) = false) by (apply Z.eqb_neq; intuition).
  assert (H34 : (p3 =? p4) = false) by (apply Z.eqb_neq; intuition).
  assert (H21 : (p2 =? p1) = false) by (rewrite Z.eqb_sym; exact H12).
  assert (H31 : (p3 =? p1) = false) by (rewrite Z.eqb_sym; exact H13).
  assert (H41 : (p4 =? p1) = false) by (rewrite Z.eqb_sym; exact H14).
  assert (H32 : (p3 =? p2) = false) by (rewrite Z.eqb_sym; exact H23).
  assert (H42 : (p4 =? p2) = false) by (rewrite Z.eqb_sym; exact H24).
  assert (H43 : (p4 =? p3) = false) by (rewrite Z.eqb_sym; exact H34).
  unfold invalid_free.
  cbn [app invalid_free_from live_from].
  rewrite Hn1, Hn2, Hn3, Hn4.
  cbn [existsb filter].
  rewrite ?Z.eqb_refl, ?H12, ?H13, ?H14, ?H21, ?H23, ?H24, ?H31, ?H32, ?H34,
    ?H41, ?H42, ?H43.
  cbn [orb negb existsb filter].
  rewrite ?Z.eqb_refl, ?H12, ?H13, ?H14, ?H21, ?H23, ?H24, ?H31, ?H32, ?H34,
    ?H41, ?H42, ?H43.
  cbn [orb negb existsb filter].
  rewrite ?Z.eqb_refl, ?H12, ?H13, ?H14, ?H21, ?H23, ?H24, ?H31, ?H32, ?H34,
    ?H41, ?H42, ?H43.
  cbn [orb negb existsb filter].
  rewrite ?Z.eqb_refl, ?H12, ?H13, ?H14, ?H21, ?H23, ?H24, ?H31, ?H32, ?H34,
    ?H41, ?H42, ?H43.
  cbn [orb negb existsb filter].
  split; reflexivity.
Qed.

Lemma teardown_after_first_allocation
  (s : State) (b1 b2 b3 b4 : Z) (p1 p2 p3 p4 : ptr) (rest : list ptr) :
  halo_xz_buffer s = mkArr2 p1 p3 -> halo_yz_buffer s = mkArr2 p2 p4 ->
  heap s =
    mkHeap rest [Malloc b1 p1; Malloc b2 p2; Malloc b3 p3; Malloc b4 p4] ->
  NoDup [p1; p2; p3; p4] -> ~ In NULL [p1; p2; p3; p4] ->
  releases (mem_log (heap (finalLoadStore s))) = [p1; p2; p3; p4] /\
  invalid_free (mem_log (heap (finalLoadStore s))) = false /\
  live_from [] (mem_log (heap (finalLoadStore s))) = [] /\
  supply (heap (finalLoadStore s)) = rest.
Proof.
  intros Hxz Hyz Hh Hnd Hnn.
  rewrite finalLoadStore_closed. cbn [with_heap heap mem_log supply].
  unfold teardown_releases. rewrite Hxz, Hyz, Hh.
  cbn [get at_BOT at_TOP mem_log supply].
  destruct (lifecycle_log_clean b1 b2 b3 b4 p1 p2 p3 p4 Hnd Hnn) as [Hv Hl].
  split; [|split; [exact Hv|split; [exact Hl|reflexivity]]].
  assert (Hn1 : (p1 =? NULL) = false) by (apply Z.eqb_neq; cbn in Hnn; intuition).
  assert (Hn2 : (p2 =? NULL) = false) by (apply Z.eqb_neq; cbn in Hnn; intuition).
  assert (Hn3 : (p3 =? NULL) = false) by (apply Z.eqb_neq; cbn in Hnn; intuition).
  assert (Hn4 : (p4 =? NULL) = false) by (apply Z.eqb_neq; cbn in Hnn; intuition).
  cbn [app releases]. now rewrite Hn1, Hn2, Hn3, Hn4.
Qed.

(** X4: one [initLoadStore] at program start followed by one
    [finalLoadStore], with an allocator that hands out four distinct
    non-null addresses: the four addresses are released once each, in the
    order of allocation, no release is invalid and no block stays live. *)
Theorem init_then_teardown_releases_each_buffer_once
  (c : Config) (xs ys : Arr2 Z) (p1 p2 p3 p4 : ptr) (rest : list ptr) :
  NoDup [p1; p2; p3; p4] -> ~ In NULL [p1; p2; p3; p4] ->
  let s := finalLoadStore
             (initLoadStore c
                (initial_state c xs ys
                   (mkHeap (p1 :: p2 :: p3 :: p4 :: rest) []))) in
  releases (mem_log (heap s)) = [p1; p2; p3; p4] /\
  invalid_free (mem_log (heap s)) = false /\
  live_from [] (mem_log (heap s)) = [] /\
  supply (heap s) = rest.
Proof.
  intros Hnd Hnn s.
  destruct (initLoadStore_first_allocation c xs ys [] p1 p2 p3 p4 rest)
    as (Hxz & Hyz & Hh).
  exact (teardown_after_first_allocation _ _ _ _ _ p1 p2 p3 p4 rest
           Hxz Hyz Hh Hnd Hnn).
Qed.

Lemma init_then_teardown_releases_each_buffer_once_witness :
  NoDup [4096; 8192; 12288; 16384] /\
  ~ In NULL [4096; 8192; 12288; 16384] /\
  (let s := finalLoadStore
              (initLoadStore (sample_config 32 3 false false)
                 (initial_state (sample_config 32 3 false false)
                    (mkArr2 0 0) (mkArr2 0 0)
                    (mkHeap (4096 :: 8192 :: 12288 :: 16384 :: []) []))) in
   releases (mem_log (heap s)) = [4096; 8192; 12288; 16384] /\
   invalid_free (mem_log (heap s)) = false /\
   live_from [] (mem_log (heap s)) = [] /\
   supply (heap s) = []).
Proof.
  assert (Hnd : NoDup [4096; 8192; 12288; 16384])
    by (repeat constructor; cbn [In]; intuition discriminate).
  assert (Hnn : ~ In NULL [4096; 8192; 12288; 16384])
    by (cbn [In]; unfold NULL; intuition discriminate).
  split; [exact Hnd|]. split; [exact Hnn|].
  exact (init_then_teardown_releases_each_buffer_once
           (sample_config 32 3 false false) (mkArr2 0 0) (mkArr2 0 0)
           4096 8192 12288 16384 [] Hnd Hnn).
Defined.

(** * Allocation failure *)

Lemma alloc_buffers_at_exhausted (c : Config) (s : State) (i : Side) :
  get (halo_xz_buffer s) i = NULL -> get (halo_yz_buffer s) i = NULL ->
  supply (heap s) = [] ->
  halo_xz_buffer (alloc_buffers_at c s i) = halo_xz_buffer s /\
  halo_yz_buffer (alloc_buffers_at c s i) = halo_yz_buffer s /\
  heap (alloc_buffers_at c s i) =
    mkHeap [] (mem_log (heap s) ++
               [Malloc (alloc_bytes c (xz_count c s i)) NULL;
                Malloc (alloc_bytes c (yz_count c s i)) NULL]).
Proof.
  intros Hx Hy Hs.
  destruct s as [wx wy wz xs ys [bx0 bx1] [by0 by1] [sup log]].
  cbn [halo_xz_buffer halo_yz_buffer heap supply] in Hx, Hy, Hs. subst sup.
  destruct i; cbn [get at_BOT at_TOP] in Hx, Hy; subst;
    unfold alloc_buffers_at, xz_count, yz_count, malloc; cbn;
    rewrite <- app_assoc; repeat split; reflexivity.
Qed.

Lemma plate_calls_buffers (c : Config) (s : State) (mesh : AcMesh) (st : Stream) :
  map staging_buffer
    (loadOuterBot c s mesh st ++ loadOuterTop c s mesh st ++
     loadOuterLeft c s mesh st ++ loadOuterRight c s mesh st ++
     storeInnerBot c s mesh st ++ storeInnerTop c s mesh st ++
     storeInnerLeft c s mesh st ++ storeInnerRight c s mesh st) =
  [Some (get (halo_xz_buffer s) BOT); Some (get (halo_xz_buffer s) TOP);
   Some (get (halo_yz_buffer s) BOT); Some (get (halo_yz_buffer s) TOP);
   Some (get (halo_xz_buffer s) BOT); Some (get (halo_xz_buffer s) TOP);
   Some (get (halo_yz_buffer s) BOT); Some (get (halo_yz_buffer s) TOP)].
Proof. reflexivity. Qed.

Lemma initLoadStore_exhausted_rest
  (c : Config) (xs ys : Arr2 Z) (log : list MemEvent) :
  let s := initLoadStore c (initial_state c xs ys (mkHeap [] log)) in
  halo_xz_buffer s = mkArr2 NULL NULL /\
  halo_yz_buffer s = mkArr2 NULL NULL /\
  heap s =
    mkHeap []
      (log ++ [Malloc (alloc_bytes c (get (halo_xz_size s) BOT)) NULL;
               Malloc (alloc_bytes c (get (halo_yz_size s) BOT)) NULL;
               Malloc (alloc_bytes c (get (halo_xz_size s) TOP)) NULL;
               Malloc (alloc_bytes c (get (halo_yz_size s) TOP)) NULL]).
Proof.
  intros s.
  destruct (initLoadStore_sizes c (initial_state c xs ys (mkHeap [] log)) BOT)
    as [HxzB HyzB].
  destruct (initLoadStore_sizes c (initial_state c xs ys (mkHeap [] log)) TOP)
    as [HxzT HyzT].
  fold s in HxzB, HyzB, HxzT, HyzT.
  rewrite HxzB, HyzB, HxzT, HyzT. clear HxzB HyzB HxzT HyzT.
  subst s. unfold initLoadStore in *; cbn [fold_left] in *.
  set (s0 := set_halo_widths c (initial_state c xs ys (mkHeap [] log))) in *.
  destruct (set_halo_widths_rest c (initial_state c xs ys (mkHeap [] log)))
    as (_ & _ & Hbx & Hby & Hh).
  fold s0 in Hbx, Hby, Hh.
  unfold initial_state in Hbx, Hby, Hh;
    cbn [halo_xz_buffer halo_yz_buffer heap] in Hbx, Hby, Hh.
  destruct (alloc_buffers_at_exhausted c s0 BOT)
    as (Hx1 & Hy1 & Hh1);
    [rewrite Hbx; reflexivity | rewrite Hby; reflexivity
     | rewrite Hh; reflexivity |].
  destruct (alloc_buffers_at_widths c s0 BOT) as (Hw1x & Hw1y & _).
  set (s1 := alloc_buffers_at c s0 BOT) in *.
  destruct (alloc_buffers_at_exhausted c s1 TOP)
    as (Hx2 & Hy2 & Hh2);
    [rewrite Hx1, Hbx; reflexivity | rewrite Hy1, Hby; reflexivity
     | rewrite Hh1; reflexivity |].
  destruct (alloc_buffers_at_widths c s1 TOP) as (Hw2x & Hw2y & _).
  rewrite Hx2, Hy2, Hh2, Hx1, Hy1, Hh1, Hbx, Hby, Hh.
  cbn [mem_log].
  rewrite <- app_assoc. cbn [app].
  rewrite (xz_count_widths c s1 _ BOT Hw2y), (yz_count_widths c s1 _ BOT Hw2x).
  rewrite (xz_count_widths c s1 _ TOP Hw2y), (yz_count_widths c s1 _ TOP Hw2x).
  rewrite (xz_count_widths c s0 s1 BOT Hw1y), (yz_count_widths c s0 s1 BOT Hw1x).
  repeat split; reflexivity.
Qed.

Lemma null_buffers_reach_calls (c : Config) (s : State) (mesh : AcMesh) (st : Stream) :
  halo_xz_buffer s = mkArr2 NULL NULL -> halo_yz_buffer s = mkArr2 NULL NULL ->
  map staging_buffer
    (loadOuterBot c s mesh st ++ loadOuterTop c s mesh st ++
     loadOuterLeft c s mesh st ++ loadOuterRight c s mesh st ++
     storeInnerBot c s mesh st ++ storeInnerTop c s mesh st ++
     storeInnerLeft c s mesh st ++ storeInnerRight c s mesh st) =
  repeat (Some NULL) 8.
Proof.
  intros Hx Hy. rewrite plate_calls_buffers, Hx, Hy. reflexivity.
Qed.

(** X5: when the allocator is exhausted at program start, [initLoadStore]
    still returns: it logs four failed requests, leaves the four buffer
    pointers null, and the eight staged load and store operations then hand
    the null pointer to the device primitives as their staging buffer. *)
Theorem initLoadStore_ignores_allocation_failure
  (c : Config) (xs ys : Arr2 Z) (log : list MemEvent)
  (mesh : AcMesh) (st : Stream) :
  let s := initLoadStore c (initial_state c xs ys (mkHeap [] log)) in
  halo_xz_buffer s = mkArr2 NULL NULL /\
  halo_yz_buffer s = mkArr2 NULL NULL /\
  heap s =
    mkHeap []
      (log ++ [Malloc (alloc_bytes c (get (halo_xz_size s) BOT)) NULL;
               Malloc (alloc_bytes c (get (halo_yz_size s) BOT)) NULL;
               Malloc (alloc_bytes c (get (halo_xz_size s) TOP)) NULL;
               Malloc (alloc_bytes c (get (halo_yz_size s) TOP)) NULL]) /\
  map staging_buffer
    (loadOuterBot c s mesh st ++ loadOuterTop c s mesh st ++
     loadOuterLeft c s mesh st ++ loadOuterRight c s mesh st ++
     storeInnerBot c s mesh st ++ storeInnerTop c s mesh st ++
     storeInnerLeft c s mesh st ++ storeInnerRight c s mesh st) =
  repeat (Some NULL) 8.
Proof.
  intros s.
  destruct (initLoadStore_exhausted_rest c xs ys log) as (Hx & Hy & Hh).
  split; [exact Hx|]. split; [exact Hy|]. split; [exact Hh|].
  exact (null_buffers_reach_calls c s mesh st Hx Hy).
Qed.

(** * Teardown of buffers that were never allocated *)

Lemma invalid_free_from_null_frees (live : list ptr) (l : list MemEvent) :
  invalid_free_from live (l ++ [Free NULL; Free NULL; Free NULL; Free NULL]) =
  invalid_free_from live l.
Proof.
  revert live. induction l as [|e l IH]; intros live; [reflexivity|].
  destruct e as [b p|p]; cbn [app invalid_free_from].
  - apply IH.
  - destruct (p =? NULL); [apply IH|].
    destruct (existsb (Z.eqb p) live); [apply IH|reflexivity].
Qed.

(** X6: [finalLoadStore] on a state whose four buffer pointers are null, as
    before any [initLoadStore], passes the null pointer to [free] four
    times: no address is released and no invalid release is added to the
    log. *)
Theorem finalLoadStore_of_null_buffers_releases_nothing (s : State) :
  halo_xz_buffer s = mkArr2 NULL NULL -> halo_yz_buffer s = mkArr2 NULL NULL ->
  mem_log (heap (finalLoadStore s)) =
    mem_log (heap s) ++ [Free NULL; Free NULL; Free NULL; Free NULL] /\
  releases (mem_log (heap (finalLoadStore s))) = releases (mem_log (heap s)) /\
  invalid_free (mem_log (heap (finalLoadStore s))) =
    invalid_free (mem_log (heap s)).
Proof.
  intros Hx Hy. rewrite finalLoadStore_closed.
  cbn [with_heap heap mem_log]. unfold teardown_releases.
  rewrite Hx, Hy. cbn [get at_BOT at_TOP].
  split; [reflexivity|]. split.
  - rewrite releases_app. cbn. apply app_nil_r.
  - apply invalid_free_from_null_frees.
Qed.

Lemma finalLoadStore_of_null_buffers_releases_nothing_witness :
  halo_xz_buffer (initial_state (sample_config 32 3 false false)
                    (mkArr2 0 0) (mkArr2 0 0) sample_heap) = mkArr2 NULL NULL /\
  halo_yz_buffer (initial_state (sample_config 32 3 false false)
                    (mkArr2 0 0) (mkArr2 0 0) sample_heap) = mkArr2 NULL NULL /\
  releases (mem_log (heap (finalLoadStore
     (initial_state (sample_config 32 3 false false)
        (mkArr2 0 0) (mkArr2 0 0) sample_heap)))) = [].
Proof.
  split; [reflexivity|]. split; [reflexivity|].
  exact (proj1 (proj2 (finalLoadStore_of_null_buffers_releases_nothing
                         (initial_state (sample_config 32 3 false false)
                            (mkArr2 0 0) (mkArr2 0 0) sample_heap)
                         eq_refl eq_refl))).
Defined.

(** * Widths are only ever widened *)

Lemma widened_off (w : HaloWidths) (first last : bool) (ng : Z) (i : Side) :
  width (widened w false first last ng) i = width w i.
Proof. destruct i; reflexivity. Qed.

Lemma widened_side (w : HaloWidths) (on first last : bool) (ng : Z) (i : Side) :
  width (widened w on first last ng) i =
  if on && (match i with BOT => first | TOP => last end)
  then ng +i 1 else width w i.
Proof. destruct i; reflexivity. Qed.

Lemma initLoadStore_width_from_any (c : Config) (s : State) (a : Axis) (i : Side) :
  width (halo_widths (initLoadStore c s) a) i =
  if widening_enabled c a && negb (lperi c a) && at_edge c a i
  then nghost c +i 1 else width (halo_widths s a) i.
Proof.
  rewrite initLoadStore_widths_from.
  destruct a; unfold halo_widths, widening_enabled, lperi;
    [rewrite set_halo_widths_x | rewrite set_halo_widths_y
     | rewrite set_halo_widths_z];
    rewrite widened_side; destruct i; reflexivity.
Qed.

(** X7: [initLoadStore] never narrows a width.  On an axis where the
    widening does not apply (periodic, or Y and Z in the yin-yang mode) the
    bottom and top widths are left as they were, from any state: a width
    widened by an earlier call stays widened. *)
Theorem initLoadStore_never_narrows (c : Config) (s : State) (a : Axis) (i : Side) :
  widening_enabled c a && negb (lperi c a) = false ->
  width (halo_widths (initLoadStore c s) a) i = width (halo_widths s a) i.
Proof.
  intros Hoff. rewrite initLoadStore_width_from_any, Hoff. reflexivity.
Qed.

Lemma initLoadStore_never_narrows_witness :
  widening_enabled (sample_config 32 3 true false) AxisX &&
    negb (lperi (sample_config 32 3 true false) AxisX) = false /\
  width (halo_widths (sample_state (sample_config 32 3 false false)) AxisX) BOT
    = 4 /\
  width (halo_widths
           (initLoadStore (sample_config 32 3 true false)
              (sample_state (sample_config 32 3 false false))) AxisX) BOT = 4.
Proof.
  split; [reflexivity|]. split; [vm_compute; reflexivity|].
  rewrite (initLoadStore_never_narrows (sample_config 32 3 true false)
             (sample_state (sample_config 32 3 false false)) AxisX BOT eq_refl).
  vm_compute. reflexivity.
Defined.

(** * The cells the store operations touch *)

Section StoreCoverage.

Variable c : Config.
Variable s : State.
Hypothesis Hgeo : geometry_fits c.
Hypothesis Hnear : widths_near c s.

Lemma store_covers_Front (p : int3) :
  store_covers c s Front p = true <->
  nghost c <= ix p < nghost c + nx c /\
  nghost c <= iy p < nghost c + ny c /\
  nghost c <= iz p < nghost c + width (halo_widths_z s) BOT.
Proof.
  unfold store_covers, storeInner.
  rewrite (storeInnerFront_closed c s Hgeo Hnear).
  cbn [existsb covers]. rewrite orb_false_r, in_box_iff. reflexivity.
Qed.

Lemma store_covers_Back (p : int3) :
  store_covers c s Back p = true <->
  nghost c <= ix p < nghost c + nx c /\
  nghost c <= iy p < nghost c + ny c /\
  nghost c + nz c - width (halo_widths_z s) TOP <= iz p < nghost c + nz c.
Proof.
  unfold store_covers, storeInner.
  rewrite (storeInnerBack_closed c s Hgeo Hnear).
  cbn [existsb covers]. rewrite orb_false_r, in_box_iff. reflexivity.
Qed.

Lemma store_covers_Bot (p : int3) :
  store_covers c s Bot p = true <->
  nghost c <= ix p < nghost c + nx c /\
  nghost c <= iy p < nghost c + width (halo_widths_y s) BOT /\
  nghost c + width (halo_widths_z s) BOT <= iz p
    < nghost c + nz c - width (halo_widths_z s) TOP.
Proof.
  unfold store_covers, storeInner.
  rewrite (storeInnerBot_closed c s Hgeo Hnear).
  cbn [existsb covers]. rewrite orb_false_r, in_box_iff. reflexivity.
Qed.

Lemma store_covers_Top (p : int3) :
  store_covers c s Top p = true <->
  nghost c <= ix p < nghost c + nx c /\
  nghost c + ny c - width (halo_widths_y s) TOP <= iy p < nghost c + ny c /\
  nghost c + width (halo_widths_z s) BOT <= iz p
    < nghost c + nz c - width (halo_widths_z s) TOP.
Proof.
  unfold store_covers, storeInner.
  rewrite (storeInnerTop_closed c s Hgeo Hnear).
  cbn [existsb covers]. rewrite orb_false_r, in_box_iff. reflexivity.
Qed.

Lemma store_covers_Left (p : int3) :
  store_covers c s Left p = true <->
  nghost c <= ix p < nghost c + width (halo_widths_x s) BOT /\
  nghost c + width (halo_widths_y s) BOT <= iy p
    < nghost c + ny c - width (halo_widths_y s) TOP /\
  nghost c + width (halo_widths_z s) BOT <= iz p
    < nghost c + nz c - width (halo_widths_z s) TOP.
Proof.
  unfold store_covers, storeInner.
  rewrite (storeInnerLeft_closed c s Hgeo Hnear).
  cbn [existsb covers]. rewrite orb_false_r, in_box_iff. reflexivity.
Qed.

Lemma store_covers_Right (p : int3) :
  store_covers c s Right p = true <->
  nghost c + nx c - width (halo_widths_x s) TOP <= ix p < nghost c + nx c /\
  nghost c + width (halo_widths_y s) BOT <= iy p
    < nghost c + ny c - width (halo_widths_y s) TOP /\
  nghost c + width (halo_widths_z s) BOT <= iz p
    < nghost c + nz c - width (halo_widths_z s) TOP.
Proof.
  unfold store_covers, storeInner.
  rewrite (storeInnerRight_closed c s Hgeo Hnear).
  cbn [existsb covers]. rewrite orb_false_r, in_box_iff. reflexivity.
Qed.

Lemma in_inner_shell_iff (p : int3) :
  in_inner_shell c s p = true <->
  (nghost c <= ix p < nghost c + nx c /\
   nghost c <= iy p < nghost c + ny c /\
   nghost c <= iz p < nghost c + nz c) /\
  ~ (nghost c + width (halo_widths_x s) BOT <= ix p
       < nghost c + nx c - width (halo_widths_x s) TOP /\
     nghost c + width (halo_widths_y s) BOT <= iy p
       < nghost c + ny c - width (halo_widths_y s) TOP /\
     nghost c + width (halo_widths_z s) BOT <= iz p
       < nghost c + nz c - width (halo_widths_z s) TOP).
Proof.
  unfold in_inner_shell.
  rewrite andb_true_iff, negb_true_iff, <- not_true_iff_false, !in_box_iff.
  unfold domain_interior, inner_core, l1, l2, m1, m2, n1, n2, mx, my, mz;
    cbn [box_start box_end ix iy iz].
  split; intros [H1 H2]; (split; [lia|intros H3; apply H2; lia]).
Qed.

Ltac store_facts :=
  repeat match goal with
         | H : store_covers c s Front _ = true |- _ => apply store_covers_Front in H
         | H : store_covers c s Back _ = true |- _ => apply store_covers_Back in H
         | H : store_covers c s Bot _ = true |- _ => apply store_covers_Bot in H
         | H : store_covers c s Top _ = true |- _ => apply store_covers_Top in H
         | H : store_covers c s Left _ = true |- _ => apply store_covers_Left in H
         | H : store_covers c s Right _ = true |- _ => apply store_covers_Right in H
         end.

Ltac near_facts :=
  pose proof (Hnear AxisX BOT); pose proof (Hnear AxisX TOP);
  pose proof (Hnear AxisY BOT); pose proof (Hnear AxisY TOP);
  pose proof (Hnear AxisZ BOT); pose proof (Hnear AxisZ TOP);
  cbn [halo_widths] in *.

Lemma stores_partition_inner_shell_closed :
  (forall a, width (halo_widths s a) BOT + width (halo_widths s a) TOP
             <= extent c a) ->
  stores_partition_inner_shell c s.
Proof.
  intros Hfit.
  pose proof (Hfit AxisX); pose proof (Hfit AxisY); pose proof (Hfit AxisZ).
  near_facts. destruct Hgeo as (Hg & _). cbn [extent] in *.
  split.
  - intros f g p Hfg [Hf Hg'].
    destruct f, g; try congruence; store_facts; lia.
  - intros p. rewrite in_inner_shell_iff. split.
    + intros [f Hf]. destruct f; store_facts; lia.
    + intros [(Hx & Hy & Hz) Hout].
      destruct (Z_lt_le_dec (iz p) (nghost c + width (halo_widths_z s) BOT)).
      { exists Front. apply store_covers_Front. lia. }
      destruct (Z_lt_le_dec (iz p)
                  (nghost c + nz c - width (halo_widths_z s) TOP)).
      2:{ exists Back. apply store_covers_Back. lia. }
      destruct (Z_lt_le_dec (iy p) (nghost c + width (halo_widths_y s) BOT)).
      { exists Bot. apply store_covers_Bot. lia. }
      destruct (Z_lt_le_dec (iy p)
                  (nghost c + ny c - width (halo_widths_y s) TOP)).
      2:{ exists Top. apply store_covers_Top. lia. }
      destruct (Z_lt_le_dec (ix p) (nghost c + width (halo_widths_x s) BOT)).
      { exists Left. apply store_covers_Left. lia. }
      destruct (Z_lt_le_dec (ix p)
                  (nghost c + nx c - width (halo_widths_x s) TOP)).
      2:{ exists Right. apply store_covers_Right. lia. }
      exfalso. apply Hout. lia.
Qed.

End StoreCoverage.

(** X8: for every initialized configuration in which, on each axis, the
    bottom and top halo widths together do not exceed the interior extent,
    the cells touched by the six store operations are pairwise disjoint and
    their union is exactly the inner shell: the interior cells outside the
    core that is left when the halo widths are taken off on every side. *)
Theorem stores_partition_the_inner_shell
  (c : Config) (xs ys : Arr2 Z) (h : Heap) :
  geometry_fits c ->
  let s := initLoadStore c (initial_state c xs ys h) in
  (forall a, width (halo_widths s a) BOT + width (halo_widths s a) TOP
             <= extent c a) ->
  stores_partition_inner_shell c s.
Proof.
  intros Hgeo s Hfit.
  assert (Hnear : widths_near c s)
    by (apply widths_closed_near, initLoadStore_widths_closed,
          geometry_fits_ghost, Hgeo).
  exact (stores_partition_inner_shell_closed c s Hgeo Hnear Hfit).
Qed.

Lemma stores_partition_the_inner_shell_witness :
  geometry_fits (sample_config 32 3 false false) /\
  (let s := initLoadStore (sample_config 32 3 false false)
              (initial_state (sample_config 32 3 false false)
                 (mkArr2 0 0) (mkArr2 0 0) sample_heap) in
   (forall a, width (halo_widths s a) BOT + width (halo_widths s a) TOP
              <= extent (sample_config 32 3 false false) a) /\
   stores_partition_inner_shell (sample_config 32 3 false false) s).
Proof.
  assert (Hgeo : geometry_fits (sample_config 32 3 false false)) by fits_tac.
  split; [exact Hgeo|].
  intro s.
  assert (Hfit : forall a,
             width (halo_widths s a) BOT + width (halo_widths s a) TOP
             <= extent (sample_config 32 3 false false) a)
    by (intros a; destruct a; vm_compute; discriminate).
  split; [exact Hfit|].
  exact (stores_partition_the_inner_shell (sample_config 32 3 false false)
           (mkArr2 0 0) (mkArr2 0 0) sample_heap Hgeo Hfit).
Defined.

(** * How many vertices the batch drivers move *)

Section Counts.

Variable c : Config.
Variable s : State.
Hypothesis Hgeo : geometry_fits c.
Hypothesis Hcnt : slab_fits c.
Hypothesis Hnear : widths_near c s.

Ltac near_facts :=
  pose proof (Hnear AxisX BOT); pose proof (Hnear AxisX TOP);
  pose proof (Hnear AxisY BOT); pose proof (Hnear AxisY TOP);
  pose proof (Hnear AxisZ BOT); pose proof (Hnear AxisZ TOP);
  cbn [halo_widths] in *.

Lemma loads_vertex_count (mesh : AcMesh) :
  (forall a, width (halo_widths s a) BOT + width (halo_widths s a) TOP
             <= mesh_extent c a) ->
  total_vertices (loadOuterHalos c s mesh) =
  mx c * my c * mz c - box_volume (shell_interior c s).
Proof.
  intros Hfit.
  pose proof (Hfit AxisX); pose proof (Hfit AxisY); pose proof (Hfit AxisZ).
  near_facts. cbn [mesh_extent] in *.
  destruct Hgeo as (Hg & Hx & Hy & Hz & _).
  assert (0 <= mx c) by (unfold mx; lia).
  assert (0 <= my c) by (unfold my; lia).
  assert (0 <= mz c) by (unfold mz; lia).
  unfold loadOuterHalos.
  rewrite (loadOuterFront_closed c s Hgeo Hnear Hcnt),
    (loadOuterBack_closed c s Hgeo Hnear Hcnt),
    (loadOuterTop_closed c s Hgeo Hnear), (loadOuterBot_closed c s Hgeo Hnear),
    (loadOuterLeft_closed c s Hgeo Hnear), (loadOuterRight_closed c s Hgeo Hnear).
  unfold total_vertices, shell_interior, box_volume;
    cbn [app fold_right call_vertices box_volume box_start box_end ix iy iz].
  unfold box_volume; cbn [box_start box_end ix iy iz].
  repeat match goal with
         | |- context [Z.max 0 ?e] => rewrite (Z.max_r 0 e) by lia
         end.
  ring.
Qed.

Lemma stores_vertex_count (mesh : AcMesh) :
  (forall a, width (halo_widths s a) BOT + width (halo_widths s a) TOP
             <= extent c a) ->
  total_vertices (storeInnerHalos c s mesh) =
  nx c * ny c * nz c - box_volume (inner_core c s).
Proof.
  intros Hfit.
  pose proof (Hfit AxisX); pose proof (Hfit AxisY); pose proof (Hfit AxisZ).
  near_facts. cbn [extent] in *.
  destruct Hgeo as (Hg & Hx & Hy & Hz & _).
  unfold storeInnerHalos.
  rewrite (storeInnerFront_closed c s Hgeo Hnear),
    (storeInnerBack_closed c s Hgeo Hnear),
    (storeInnerTop_closed c s Hgeo Hnear), (storeInnerBot_closed c s Hgeo Hnear),
    (storeInnerLeft_closed c s Hgeo Hnear), (storeInnerRight_closed c s Hgeo Hnear).
  unfold total_vertices, inner_core, box_volume;
    cbn [app fold_right call_vertices box_volume box_start box_end ix iy iz].
  unfold box_volume; cbn [box_start box_end ix iy iz].
  repeat match goal with
         | |- context [Z.max 0 ?e] => rewrite (Z.max_r 0 e) by lia
         end.
  ring.
Qed.

End Counts.

(** X9: for every initialized configuration in which the bottom and top
    halo widths together do not exceed the mesh extent of their axis,
    [loadOuterHalos] moves, per field, as many vertices as the mesh has
    outside the interior box of the halo shell:
    [mx*my*mz - (mx-wx)*(my-wy)*(mz-wz)] with [w] the total width. *)
Theorem loadOuterHalos_vertex_count
  (c : Config) (xs ys : Arr2 Z) (h : Heap) (mesh : AcMesh) :
  geometry_fits c -> slab_fits c ->
  let s := initLoadStore c (initial_state c xs ys h) in
  (forall a, width (halo_widths s a) BOT + width (halo_widths s a) TOP
             <= mesh_extent c a) ->
  total_vertices (loadOuterHalos c s mesh) =
  mx c * my c * mz c - box_volume (shell_interior c s).
Proof.
  intros Hgeo Hcnt s Hfit.
  assert (Hnear : widths_near c s)
    by (apply widths_closed_near, initLoadStore_widths_closed,
          geometry_fits_ghost, Hgeo).
  exact (loads_vertex_count c s Hgeo Hcnt Hnear mesh Hfit).
Qed.

Lemma loadOuterHalos_vertex_count_witness :
  geometry_fits (sample_config 32 3 false false) /\
  slab_fits (sample_config 32 3 false false) /\
  (let s := initLoadStore (sample_config 32 3 false false)
              (initial_state (sample_config 32 3 false false)
                 (mkArr2 0 0) (mkArr2 0 0) sample_heap) in
   (forall a, width (halo_widths s a) BOT + width (halo_widths s a) TOP
              <= mesh_extent (sample_config 32 3 false false) a) /\
   total_vertices (loadOuterHalos (sample_config 32 3 false false) s 7) =
   38 * 38 * 38 - 30 * 30 * 30).
Proof.
  assert (Hgeo : geometry_fits (sample_config 32 3 false false)) by fits_tac.
  assert (Hcnt : slab_fits (sample_config 32 3 false false)) by fits_tac.
  split; [exact Hgeo|]. split; [exact Hcnt|].
  intro s.
  assert (Hfit : forall a,
             width (halo_widths s a) BOT + width (halo_widths s a) TOP
             <= mesh_extent (sample_config 32 3 false false) a)
    by (intros a; destruct a; vm_compute; discriminate).
  split; [exact Hfit|]. subst s.
  rewrite (loadOuterHalos_vertex_count (sample_config 32 3 false false)
             (mkArr2 0 0) (mkArr2 0 0) sample_heap 7 Hgeo Hcnt Hfit).
  vm_compute. reflexivity.
Defined.

(** X10: for every initialized configuration in which the bottom and top
    halo widths together do not exceed the interior extent of their axis,
    [storeInnerHalos] moves, per field, as many vertices as the interior has
    outside its core: [nx*ny*nz - (nx-wx)*(ny-wy)*(nz-wz)]. *)
Theorem storeInnerHalos_vertex_count
  (c : Config) (xs ys : Arr2 Z) (h : Heap) (mesh : AcMesh) :
  geometry_fits c ->
  let s := initLoadStore c (initial_state c xs ys h) in
  (forall a, width (halo_widths s a) BOT + width (halo_widths s a) TOP
             <= extent c a) ->
  total_vertices (storeInnerHalos c s mesh) =
  nx c * ny c * nz c - box_volume (inner_core c s).
Proof.
  intros Hgeo s Hfit.
  assert (Hnear : widths_near c s)
    by (apply widths_closed_near, initLoadStore_widths_closed,
          geometry_fits_ghost, Hgeo).
  exact (stores_vertex_count c s Hgeo Hnear mesh Hfit).
Qed.

Lemma storeInnerHalos_vertex_count_witness :
  geometry_fits (sample_config 32 3 false false) /\
  (let s := initLoadStore (sample_config 32 3 false false)
              (initial_state (sample_config 32 3 false false)
                 (mkArr2 0 0) (mkArr2 0 0) sample_heap) in
   (forall a, width (halo_widths s a) BOT + width (halo_widths s a) TOP
              <= extent (sample_config 32 3 false false) a) /\
   total_vertices (storeInnerHalos (sample_config 32 3 false false) s 7) =
   32 * 32 * 32 - 24 * 24 * 24).
Proof.
  assert (Hgeo : geometry_fits (sample_config 32 3 false false)) by fits_tac.
  split; [exact Hgeo|].
  intro s.
  assert (Hfit : forall a,
             width (halo_widths s a) BOT + width (halo_widths s a) TOP
             <= extent (sample_config 32 3 false false) a)
    by (intros a; destruct a; vm_compute; discriminate).
  split; [exact Hfit|]. subst s.
  rewrite (storeInnerHalos_vertex_count (sample_config 32 3 false false)
             (mkArr2 0 0) (mkArr2 0 0) sample_heap 7 Hgeo Hfit).
  vm_compute. reflexivity.
Defined.

(** * The calls stay inside the mesh *)

Section InMesh.

Variable c : Config.
Variable s : State.
Hypothesis Hgeo : geometry_fits c.
Hypothesis Hcnt : slab_fits c.
Hypothesis Hnear : widths_near c s.
Hypothesis Hnx : 0 < nx c.
Hypothesis Hny : 0 < ny c.
Hypothesis Hnz : 0 < nz c.

Lemma bulk_runs_in_mesh (i : Side) :
  0 <= mx c * my c * width (halo_widths_z s) i <= mx c * my c * mz c /\
  0 <= (mz c - width (halo_widths_z s) i) * (mx c * my c).
Proof.
  pose proof (Hnear AxisZ i) as Hw. cbn [halo_widths] in Hw.
  destruct Hgeo as (Hg & _).
  assert (0 <= mx c * my c)
    by (apply Z.mul_nonneg_nonneg; unfold mx, my; lia).
  assert (width (halo_widths_z s) i <= mz c) by (unfold mz; lia).
  split; [split|].
  - apply Z.mul_nonneg_nonneg; lia.
  - apply Z.mul_le_mono_nonneg_l; lia.
  - apply Z.mul_nonneg_nonneg; lia.
Qed.

Lemma twelve_operations_in_mesh (mesh : AcMesh) (st : Stream) :
  forallb (call_in_mesh c) (twelve_operations c s mesh st) = true.
Proof.
  destruct (bulk_runs_in_mesh BOT) as [[Hb1 Hb2] _].
  destruct (bulk_runs_in_mesh TOP) as [[Ht1 Ht2] Ht3].
  rewrite twelve_operations_closed.
  rewrite (loadOuterFront_closed c s Hgeo Hnear Hcnt mesh st),
    (loadOuterBack_closed c s Hgeo Hnear Hcnt mesh st),
    (loadOuterBot_closed c s Hgeo Hnear mesh st),
    (loadOuterTop_closed c s Hgeo Hnear mesh st),
    (loadOuterLeft_closed c s Hgeo Hnear mesh st),
    (loadOuterRight_closed c s Hgeo Hnear mesh st),
    (storeInnerFront_closed c s Hgeo Hnear mesh st),
    (storeInnerBack_closed c s Hgeo Hnear mesh st),
    (storeInnerBot_closed c s Hgeo Hnear mesh st),
    (storeInnerTop_closed c s Hgeo Hnear mesh st),
    (storeInnerLeft_closed c s Hgeo Hnear mesh st),
    (storeInnerRight_closed c s Hgeo Hnear mesh st).
  pose proof (Hnear AxisX BOT); pose proof (Hnear AxisX TOP);
  pose proof (Hnear AxisY BOT); pose proof (Hnear AxisY TOP);
  pose proof (Hnear AxisZ BOT); pose proof (Hnear AxisZ TOP).
  cbn [halo_widths] in *.
  destruct Hgeo as (Hg & _).
  cbn [app forallb call_in_mesh plate_box].
  unfold box_within, mesh_box, vertex_idx; cbn [box_start box_end ix iy iz].
  replace (0 + 0 * mx c + 0 * (mx c * my c)) with 0 by ring.
  replace (0 + 0 * mx c + (mz c - width (halo_widths_z s) TOP) * (mx c * my c)
           + mx c * my c * width (halo_widths_z s) TOP)
    with (mx c * my c * mz c) by ring.
  replace (0 + 0 * mx c + (mz c - width (halo_widths_z s) TOP) * (mx c * my c))
    with ((mz c - width (halo_widths_z s) TOP) * (mx c * my c)) by ring.
  rewrite !andb_true_iff, !Z.leb_le.
  unfold mx, my, mz in *. lia.
Qed.

End InMesh.

(** X11: for every initialized configuration with at least one interior
    cell per axis, every one of the twelve operations stays inside the mesh:
    each plate box lies within [0,mx) x [0,my) x [0,mz), and each bulk copy
    runs over vertex indices within [0, mx*my*mz). *)
Theorem twelve_operations_stay_in_mesh
  (c : Config) (xs ys : Arr2 Z) (h : Heap) (mesh : AcMesh) (st : Stream) :
  geometry_fits c -> slab_fits c ->
  0 < nx c -> 0 < ny c -> 0 < nz c ->
  let s := initLoadStore c (initial_state c xs ys h) in
  forallb (call_in_mesh c) (twelve_operations c s mesh st) = true.
Proof.
  intros Hgeo Hcnt Hnx Hny Hnz s.
  assert (Hnear : widths_near c s)
    by (apply widths_closed_near, initLoadStore_widths_closed,
          geometry_fits_ghost, Hgeo).
  exact (twelve_operations_in_mesh c s Hgeo Hcnt Hnear Hnx Hny Hnz mesh st).
Qed.

Lemma twelve_operations_stay_in_mesh_witness :
  geometry_fits (sample_config 1 3 false false) /\
  slab_fits (sample_config 1 3 false false) /\
  0 < nx (sample_config 1 3 false false) /\
  0 < ny (sample_config 1 3 false false) /\
  0 < nz (sample_config 1 3 false false) /\
  (let s := initLoadStore (sample_config 1 3 false false)
              (initial_state (sample_config 1 3 false false)
                 (mkArr2 0 0) (mkArr2 0 0) sample_heap) in
   forallb (call_in_mesh (sample_config 1 3 false false))
     (twelve_operations (sample_config 1 3 false false) s 7 STREAM_DEFAULT)
   = true).
Proof.
  assert (Hgeo : geometry_fits (sample_config 1 3 false false)) by fits_tac.
  assert (Hcnt : slab_fits (sample_config 1 3 false false)) by fits_tac.
  assert (H1 : 0 < nx (sample_config 1 3 false false)) by (cbn; lia).
  assert (H2 : 0 < ny (sample_config 1 3 false false)) by (cbn; lia).
  assert (H3 : 0 < nz (sample_config 1 3 false false)) by (cbn; lia).
  do 5 (split; [assumption|]).
  exact (twelve_operations_stay_in_mesh (sample_config 1 3 false false)
           (mkArr2 0 0) (mkArr2 0 0) sample_heap 7 STREAM_DEFAULT
           Hgeo Hcnt H1 H2 H3).
Defined.

(** * Loads, stores and the interior *)

Section LoadsAndInterior.

Variable c : Config.
Variable s : State.
Hypothesis Hgeo : geometry_fits c.
Hypothesis Hcnt : slab_fits c.
Hypothesis Hnear : widths_near c s.

Ltac load_facts :=
  repeat match goal with
         | H : load_covers c s Front _ = true |- _ =>
             apply (load_covers_Front c s Hgeo Hcnt Hnear) in H;
             rewrite in_mesh_iff in H
         | H : load_covers c s Back _ = true |- _ =>
             apply (load_covers_Back c s Hgeo Hcnt Hnear) in H;
             rewrite in_mesh_iff in H
         | H : load_covers c s Bot _ = true |- _ =>
             apply (load_covers_Bot c s Hgeo Hnear) in H
         | H : load_covers c s Top _ = true |- _ =>
             apply (load_covers_Top c s Hgeo Hnear) in H
         | H : load_covers c s Left _ = true |- _ =>
             apply (load_covers_Left c s Hgeo Hnear) in H
         | H : load_covers c s Right _ = true |- _ =>
             apply (load_covers_Right c s Hgeo Hnear) in H
         end.

Lemma domain_interior_iff (p : int3) :
  in_box p (domain_interior c) = true <->
  nghost c <= ix p < nghost c + nx c /\
  nghost c <= iy p < nghost c + ny c /\
  nghost c <= iz p < nghost c + nz c.
Proof.
  rewrite in_box_iff.
  unfold domain_interior, l1, l2, m1, m2, n1, n2, mx, my, mz;
    cbn [box_start box_end ix iy iz]. lia.
Qed.

Lemma unwidened_loads_miss_interior (f : Face) (p : int3) :
  (forall a i, width (halo_widths s a) i = nghost c) ->
  load_covers c s f p = true -> in_box p (domain_interior c) = false.
Proof.
  intros Hw Hf.
  pose proof (Hw AxisX BOT); pose proof (Hw AxisX TOP);
  pose proof (Hw AxisY BOT); pose proof (Hw AxisY TOP);
  pose proof (Hw AxisZ BOT); pose proof (Hw AxisZ TOP).
  cbn [halo_widths] in *.
  apply not_true_iff_false. rewrite domain_interior_iff.
  destruct f; load_facts; unfold mx, my, mz in *; lia.
Qed.

Lemma widened_load_reaches_store_layer (f : Face) (p : int3) :
  0 < extent c (face_axis f) ->
  width (halo_widths s (face_axis f)) (face_side f) = nghost c + 1 ->
  store_covers c s f p = true ->
  coord (face_axis f) p = boundary_layer c f ->
  load_covers c s f p = true /\ in_box p (domain_interior c) = true.
Proof.
  intros Hpos Hw Hs Hl.
  pose proof (Hnear AxisX BOT); pose proof (Hnear AxisX TOP);
  pose proof (Hnear AxisY BOT); pose proof (Hnear AxisY TOP);
  pose proof (Hnear AxisZ BOT); pose proof (Hnear AxisZ TOP).
  destruct Hgeo as (Hg & Hx & Hy & Hz & _).
  rewrite domain_interior_iff.
  destruct f; cbn [face_axis face_side halo_widths coord extent] in *;
    unfold boundary_layer in Hl; cbn [face_axis face_side extent] in Hl.
  - apply (store_covers_Front c s Hgeo Hnear) in Hs. split; [|lia].
    apply (load_covers_Front c s Hgeo Hcnt Hnear). rewrite in_mesh_iff.
    unfold mx, my, mz. lia.
  - apply (store_covers_Back c s Hgeo Hnear) in Hs. split; [|lia].
    apply (load_covers_Back c s Hgeo Hcnt Hnear). rewrite in_mesh_iff.
    unfold mx, my, mz. lia.
  - apply (store_covers_Bot c s Hgeo Hnear) in Hs. split; [|lia].
    apply (load_covers_Bot c s Hgeo Hnear). unfold mx, my, mz. lia.
  - apply (store_covers_Top c s Hgeo Hnear) in Hs. split; [|lia].
    apply (load_covers_Top c s Hgeo Hnear). unfold mx, my, mz. lia.
  - apply (store_covers_Left c s Hgeo Hnear) in Hs. split; [|lia].
    apply (load_covers_Left c s Hgeo Hnear). unfold mx, my, mz. lia.
  - apply (store_covers_Right c s Hgeo Hnear) in Hs. split; [|lia].
    apply (load_covers_Right c s Hgeo Hnear). unfold mx, my, mz. lia.
Qed.

End LoadsAndInterior.

Lemma store_cells_in_interior (c : Config) (s : State) (g : Face) (p : int3) :
  geometry_fits c -> widths_near c s ->
  (forall a i, width (halo_widths s a) i <= extent c a) ->
  store_covers c s g p = true -> in_box p (domain_interior c) = true.
Proof.
  intros Hgeo Hnear Hle Hs.
  pose proof (Hle AxisX BOT); pose proof (Hle AxisX TOP);
  pose proof (Hle AxisY BOT); pose proof (Hle AxisY TOP);
  pose proof (Hle AxisZ BOT); pose proof (Hle AxisZ TOP).
  pose proof (Hnear AxisX BOT); pose proof (Hnear AxisX TOP);
  pose proof (Hnear AxisY BOT); pose proof (Hnear AxisY TOP);
  pose proof (Hnear AxisZ BOT); pose proof (Hnear AxisZ TOP).
  destruct Hgeo as (Hg & Hrest). cbn [halo_widths extent] in *.
  apply domain_interior_iff.
  destruct g;
    [apply (store_covers_Front c s (conj Hg Hrest) Hnear) in Hs
    |apply (store_covers_Back c s (conj Hg Hrest) Hnear) in Hs
    |apply (store_covers_Bot c s (conj Hg Hrest) Hnear) in Hs
    |apply (store_covers_Top c s (conj Hg Hrest) Hnear) in Hs
    |apply (store_covers_Left c s (conj Hg Hrest) Hnear) in Hs
    |apply (store_covers_Right c s (conj Hg Hrest) Hnear) in Hs]; lia.
Qed.

(** X12: for every initialized configuration in which no side is widened
    (every width is the ghost depth) and the ghost depth does not exceed any
    interior extent, the loads touch ghost cells only and the stores interior
    cells only: no cell is touched by both a load and a store. *)
Theorem unwidened_loads_and_stores_are_disjoint
  (c : Config) (xs ys : Arr2 Z) (h : Heap) :
  geometry_fits c -> slab_fits c ->
  let s := initLoadStore c (initial_state c xs ys h) in
  (forall a i, width (halo_widths s a) i = nghost c) ->
  (forall a, nghost c <= extent c a) ->
  forall f g p,
    (load_covers c s f p = true -> in_box p (domain_interior c) = false) /\
    (store_covers c s g p = true -> in_box p (domain_interior c) = true) /\
    ~ (load_covers c s f p = true /\ store_covers c s g p = true).
Proof.
  intros Hgeo Hcnt s Hw Hn f g p.
  assert (Hnear : widths_near c s)
    by (apply widths_closed_near, initLoadStore_widths_closed,
          geometry_fits_ghost, Hgeo).
  assert (Hle : forall a i, width (halo_widths s a) i <= extent c a)
    by (intros a i; rewrite Hw; apply Hn).
  pose proof (unwidened_loads_miss_interior c s Hgeo Hcnt Hnear f p Hw) as Hl.
  pose proof (store_cells_in_interior c s g p Hgeo Hnear Hle) as Hs.
  split; [exact Hl|]. split; [exact Hs|].
  intros [H1 H2]. rewrite (Hl H1) in Hs. specialize (Hs H2). discriminate Hs.
Qed.

Lemma unwidened_loads_and_stores_are_disjoint_witness :
  geometry_fits (sample_config 32 3 true false) /\
  slab_fits (sample_config 32 3 true false) /\
  (let s := initLoadStore (sample_config 32 3 true false)
              (initial_state (sample_config 32 3 true false)
                 (mkArr2 0 0) (mkArr2 0 0) sample_heap) in
   (forall a i, width (halo_widths s a) i = nghost (sample_config 32 3 true false)) /\
   (forall a, nghost (sample_config 32 3 true false)
              <= extent (sample_config 32 3 true false) a) /\
   forall f g p,
     ~ (load_covers (sample_config 32 3 true false) s f p = true /\
        store_covers (sample_config 32 3 true false) s g p = true)).
Proof.
  assert (Hgeo : geometry_fits (sample_config 32 3 true false)) by fits_tac.
  assert (Hcnt : slab_fits (sample_config 32 3 true false)) by fits_tac.
  split; [exact Hgeo|]. split; [exact Hcnt|].
  intro s.
  assert (Hw : forall a i, width (halo_widths s a) i
                           = nghost (sample_config 32 3 true false))
    by (intros a i; destruct a, i; vm_compute; reflexivity).
  assert (Hn : forall a, nghost (sample_config 32 3 true false)
                         <= extent (sample_config 32 3 true false) a)
    by (intros a; destruct a; vm_compute; discriminate).
  split; [exact Hw|]. split; [exact Hn|].
  intros f g p.
  exact (proj2 (proj2 (unwidened_loads_and_stores_are_disjoint
                         (sample_config 32 3 true false)
                         (mkArr2 0 0) (mkArr2 0 0) sample_heap
                         Hgeo Hcnt Hw Hn f g p))).
Defined.

(** X13: on a widened side the load reaches into the interior.  For every
    initialized configuration and every face whose width is [nghost+1] on an
    axis with at least one interior cell, every cell of the store box of
    that face that lies in the outermost interior layer behind the face is
    an interior cell that the load of the same face touches as well. *)
Theorem widened_load_overlaps_store
  (c : Config) (xs ys : Arr2 Z) (h : Heap) (f : Face) (p : int3) :
  geometry_fits c -> slab_fits c ->
  0 < extent c (face_axis f) ->
  let s := initLoadStore c (initial_state c xs ys h) in
  width (halo_widths s (face_axis f)) (face_side f) = nghost c + 1 ->
  store_covers c s f p = true ->
  coord (face_axis f) p = boundary_layer c f ->
  load_covers c s f p = true /\ in_box p (domain_interior c) = true.
Proof.
  intros Hgeo Hcnt Hpos s.
  assert (Hnear : widths_near c s)
    by (apply widths_closed_near, initLoadStore_widths_closed,
          geometry_fits_ghost, Hgeo).
  exact (widened_load_reaches_store_layer c s Hgeo Hcnt Hnear f p Hpos).
Qed.

Lemma widened_load_overlaps_store_witness :
  geometry_fits (sample_config 32 3 false false) /\
  slab_fits (sample_config 32 3 false false) /\
  0 < extent (sample_config 32 3 false false) (face_axis Left) /\
  (let s := initLoadStore (sample_config 32 3 false false)
              (initial_state (sample_config 32 3 false false)
                 (mkArr2 0 0) (mkArr2 0 0) sample_heap) in
   width (halo_widths s (face_axis Left)) (face_side Left)
     = nghost (sample_config 32 3 false false) + 1 /\
   store_covers (sample_config 32 3 false false) s Left (mkInt3 3 10 10) = true /\
   coord (face_axis Left) (mkInt3 3 10 10)
     = boundary_layer (sample_config 32 3 false false) Left /\
   load_covers (sample_config 32 3 false false) s Left (mkInt3 3 10 10) = true).
Proof.
  assert (Hgeo : geometry_fits (sample_config 32 3 false false)) by fits_tac.
  assert (Hcnt : slab_fits (sample_config 32 3 false false)) by fits_tac.
  assert (Hpos : 0 < extent (sample_config 32 3 false false) (face_axis Left))
    by (cbn; lia).
  split; [exact Hgeo|]. split; [exact Hcnt|]. split; [exact Hpos|].
  intro s.
  assert (Hw : width (halo_widths s (face_axis Left)) (face_side Left)
               = nghost (sample_config 32 3 false false) + 1)
    by (vm_compute; reflexivity).
  assert (Hs : store_covers (sample_config 32 3 false false) s Left
                 (mkInt3 3 10 10) = true)
    by (vm_compute; reflexivity).
  assert (Hl : coord (face_axis Left) (mkInt3 3 10 10)
               = boundary_layer (sample_config 32 3 false false) Left)
    by (vm_compute; reflexivity).
  split; [exact Hw|]. split; [exact Hs|]. split; [exact Hl|].
  exact (proj1 (widened_load_overlaps_store (sample_config 32 3 false false)
                  (mkArr2 0 0) (mkArr2 0 0) sample_heap Left (mkInt3 3 10 10)
                  Hgeo Hcnt Hpos Hw Hs Hl)).
Defined.

(** * The requests of the first allocation *)

Lemma counts_in_range (c : Config) (s : State) (i : Side) :
  Int.in_range (xz_count c s i) /\ Int.in_range (yz_count c s i).
Proof. split; apply wrap_in_range. Qed.

Lemma first_requests_exact (c : Config) (s : State) :
  geometry_fits c -> sizes_fit c -> widths_closed c s ->
  0 <= sizeof_AcReal c <= 64 ->
  (forall i, get (halo_xz_size s) i = xz_count c s i) ->
  (forall i, get (halo_yz_size s) i = yz_count c s i) ->
  forall i,
    alloc_bytes c (get (halo_xz_size s) i) =
      mx c * nz c * width (halo_widths_y s) i * NUM_VTXBUF_HANDLES c
      * sizeof_AcReal c /\
    alloc_bytes c (get (halo_yz_size s) i) =
      ny c * nz c * width (halo_widths_x s) i * NUM_VTXBUF_HANDLES c
      * sizeof_AcReal c.
Proof.
  intros Hgeo Hcnt Hclosed Hel Hxz Hyz i.
  pose proof (widths_closed_near c s Hclosed) as Hnear.
  pose proof (Hnear AxisX i) as Hwx. pose proof (Hnear AxisY i) as Hwy.
  cbn [halo_widths] in Hwx, Hwy.
  destruct (counts_in_range c s i) as [Rx Ry].
  rewrite (xz_count_closed c s Hgeo Hcnt Hclosed i) in Rx.
  rewrite (yz_count_closed c s Hgeo Hcnt Hclosed i) in Ry.
  rewrite Hxz, Hyz, (xz_count_closed c s Hgeo Hcnt Hclosed i),
    (yz_count_closed c s Hgeo Hcnt Hclosed i).
  destruct Hgeo as (Hg & Hx & Hy & Hz & _). destruct Hcnt as (Hn & _).
  assert (0 <= mx c) by (unfold mx; lia).
  unfold Int.in_range in Rx, Ry.
  split; apply alloc_bytes_exact; try exact Hel; split;
    try (repeat apply Z.mul_nonneg_nonneg; lia); lia.
Qed.

(** X14: at program start, with four addresses left in the allocator and no
    overflow, [initLoadStore] requests the four staging buffers in the order
    XZ bottom, YZ bottom, XZ top, YZ top; the byte counts are
    [mx*nz*halo_widths_y[side]*NUM_VTXBUF_HANDLES*sizeof(AcReal)] for XZ and
    [ny*nz*halo_widths_x[side]*NUM_VTXBUF_HANDLES*sizeof(AcReal)] for YZ, and
    the four pointers are set to the four addresses. *)
Theorem initLoadStore_first_requests
  (c : Config) (xs ys : Arr2 Z) (log : list MemEvent)
  (p1 p2 p3 p4 : ptr) (rest : list ptr) :
  geometry_fits c -> sizes_fit c -> 0 <= sizeof_AcReal c <= 64 ->
  let s := initLoadStore c
             (initial_state c xs ys (mkHeap (p1 :: p2 :: p3 :: p4 :: rest) log)) in
  halo_xz_buffer s = mkArr2 p1 p3 /\
  halo_yz_buffer s = mkArr2 p2 p4 /\
  heap s =
    mkHeap rest
      (log ++
       [Malloc (mx c * nz c * width (halo_widths_y s) BOT
                * NUM_VTXBUF_HANDLES c * sizeof_AcReal c) p1;
        Malloc (ny c * nz c * width (halo_widths_x s) BOT
                * NUM_VTXBUF_HANDLES c * sizeof_AcReal c) p2;
        Malloc (mx c * nz c * width (halo_widths_y s) TOP
                * NUM_VTXBUF_HANDLES c * sizeof_AcReal c) p3;
        Malloc (ny c * nz c * width (halo_widths_x s) TOP
                * NUM_VTXBUF_HANDLES c * sizeof_AcReal c) p4]).
Proof.
  intros Hgeo Hcnt Hel s.
  destruct (initLoadStore_first_allocation c xs ys log p1 p2 p3 p4 rest)
    as (Hx & Hy & Hh).
  pose proof (first_requests_exact c s Hgeo Hcnt
                (initLoadStore_widths_closed c xs _ _ (geometry_fits_ghost c Hgeo))
                Hel
                (fun i => proj1 (initLoadStore_sizes c _ i))
                (fun i => proj2 (initLoadStore_sizes c _ i))) as Hb.
  split; [exact Hx|]. split; [exact Hy|].
  rewrite <- (proj1 (Hb BOT)), <- (proj2 (Hb BOT)),
    <- (proj1 (Hb TOP)), <- (proj2 (Hb TOP)).
  exact Hh.
Qed.

Lemma initLoadStore_first_requests_witness :
  geometry_fits (sample_config 32 3 false false) /\
  sizes_fit (sample_config 32 3 false false) /\
  0 <= sizeof_AcReal (sample_config 32 3 false false) <= 64 /\
  (let s := initLoadStore (sample_config 32 3 false false)
              (initial_state (sample_config 32 3 false false)
                 (mkArr2 0 0) (mkArr2 0 0)
                 (mkHeap (4096 :: 8192 :: 12288 :: 16384 :: []) [])) in
   halo_xz_buffer s = mkArr2 4096 12288 /\
   halo_yz_buffer s = mkArr2 8192 16384 /\
   heap s =
     mkHeap []
       [Malloc (38 * 32 * 4 * 8 * 8) 4096; Malloc (32 * 32 * 4 * 8 * 8) 8192;
        Malloc (38 * 32 * 4 * 8 * 8) 12288; Malloc (32 * 32 * 4 * 8 * 8) 16384]).
Proof.
  assert (Hgeo : geometry_fits (sample_config 32 3 false false)) by fits_tac.
  assert (Hcnt : sizes_fit (sample_config 32 3 false false)) by fits_tac.
  assert (Hel : 0 <= sizeof_AcReal (sample_config 32 3 false false) <= 64)
    by (cbn; lia).
  split; [exact Hgeo|]. split; [exact Hcnt|]. split; [exact Hel|].
  intro s.
  destruct (initLoadStore_first_requests (sample_config 32 3 false false)
              (mkArr2 0 0) (mkArr2 0 0) [] 4096 8192 12288 16384 []
              Hgeo Hcnt Hel) as (Hx & Hy & Hh).
  split; [exact Hx|]. split; [exact Hy|].
  etransitivity; [exact Hh|]. vm_compute. reflexivity.
Defined.

(** * Sizes grow with the extents and the widths *)

Lemma sizes_monotone_closed (c c' : Config) (s s' : State) :
  geometry_fits c -> sizes_closed c s -> sizes_closed c' s' ->
  widths_near c s ->
  nx c <= nx c' -> ny c <= ny c' -> nz c <= nz c' -> nghost c = nghost c' ->
  0 <= NUM_VTXBUF_HANDLES c <= NUM_VTXBUF_HANDLES c' ->
  (forall a i, width (halo_widths s a) i <= width (halo_widths s' a) i) ->
  forall i,
    get (halo_xz_size s) i <= get (halo_xz_size s') i /\
    get (halo_yz_size s) i <= get (halo_yz_size s') i.
Proof.
  intros Hgeo Hs Hs' Hnear Hx Hy Hz Hg Hn Hw i.
  destruct (Hs i) as [-> ->]. destruct (Hs' i) as [-> ->].
  pose proof (Hw AxisX i) as Hwx. pose proof (Hw AxisY i) as Hwy.
  pose proof (Hnear AxisX i) as Hnx. pose proof (Hnear AxisY i) as Hny.
  cbn [halo_widths] in Hwx, Hwy, Hnx, Hny.
  destruct Hgeo as (Hg0 & Hx0 & Hy0 & Hz0 & _).
  split.
  - apply Z.le_trans with
      (mx c' * nz c' * width (halo_widths_y s') i * NUM_VTXBUF_HANDLES c).
    + apply volume_le; unfold mx; lia.
    + apply Z.mul_le_mono_nonneg_l; [|lia].
      repeat apply Z.mul_nonneg_nonneg; unfold mx; lia.
  - apply Z.le_trans with
      (ny c' * nz c' * width (halo_widths_x s') i * NUM_VTXBUF_HANDLES c).
    + apply volume_le; lia.
    + apply Z.mul_le_mono_nonneg_l; [|lia].
      repeat apply Z.mul_nonneg_nonneg; lia.
Qed.

(** X15: the sizes of the staging buffers are monotonic.  For two
    initialized configurations with the same ghost depth, where the second
    has extents and a field count at least those of the first and a width
    at least that of the first on every side, every entry of the two size
    arrays of the second is at least that of the first. *)
Theorem staging_sizes_are_monotonic
  (c c' : Config) (xs ys xs' ys' : Arr2 Z) (h h' : Heap) :
  geometry_fits c -> sizes_fit c -> geometry_fits c' -> sizes_fit c' ->
  nx c <= nx c' -> ny c <= ny c' -> nz c <= nz c' -> nghost c = nghost c' ->
  NUM_VTXBUF_HANDLES c <= NUM_VTXBUF_HANDLES c' ->
  let s := initLoadStore c (initial_state c xs ys h) in
  let s' := initLoadStore c' (initial_state c' xs' ys' h') in
  (forall a i, width (halo_widths s a) i <= width (halo_widths s' a) i) ->
  forall i,
    get (halo_xz_size s) i <= get (halo_xz_size s') i /\
    get (halo_yz_size s) i <= get (halo_yz_size s') i.
Proof.
  intros Hgeo Hcnt Hgeo' Hcnt' Hx Hy Hz Hg Hn s s'.
  pose proof (initLoadStore_widths_closed c xs ys h (geometry_fits_ghost c Hgeo))
    as Hcl.
  pose proof (initLoadStore_widths_closed c' xs' ys' h'
                (geometry_fits_ghost c' Hgeo')) as Hcl'.
  pose proof (sizes_closed_settled c s Hgeo Hcnt Hcl
                (fun i => proj1 (initLoadStore_sizes c _ i))
                (fun i => proj2 (initLoadStore_sizes c _ i))) as Hs.
  pose proof (sizes_closed_settled c' s' Hgeo' Hcnt' Hcl'
                (fun i => proj1 (initLoadStore_sizes c' _ i))
                (fun i => proj2 (initLoadStore_sizes c' _ i))) as Hs'.
  exact (sizes_monotone_closed c c' s s' Hgeo Hs Hs'
           (widths_closed_near c s Hcl) Hx Hy Hz Hg
           (conj (proj1 Hcnt) Hn)).
Qed.

Lemma staging_sizes_are_monotonic_witness :
  geometry_fits (sample_config 32 3 true false) /\
  sizes_fit (sample_config 32 3 true false) /\
  geometry_fits (sample_config 64 3 false false) /\
  sizes_fit (sample_config 64 3 false false) /\
  get (halo_xz_size (sample_state (sample_config 32 3 true false))) BOT
  <= get (halo_xz_size (sample_state (sample_config 64 3 false false))) BOT.
Proof.
  assert (Hgeo : geometry_fits (sample_config 32 3 true false)) by fits_tac.
  assert (Hcnt : sizes_fit (sample_config 32 3 true false)) by fits_tac.
  assert (Hgeo' : geometry_fits (sample_config 64 3 false false)) by fits_tac.
  assert (Hcnt' : sizes_fit (sample_config 64 3 false false)) by fits_tac.
  do 4 (split; [assumption|]).
  refine (proj1 (staging_sizes_are_monotonic
                   (sample_config 32 3 true false)
                   (sample_config 64 3 false false)
                   (mkArr2 0 0) (mkArr2 0 0) (mkArr2 0 0) (mkArr2 0 0)
                   sample_heap sample_heap Hgeo Hcnt Hgeo' Hcnt'
                   _ _ _ _ _ _ BOT));
    try (cbn; lia).
  intros a i; destruct a, i; vm_compute; discriminate.
Defined.

(** * The staging buffers and their allocations *)

Lemma allocated_bytes_from_app (cur : Z) (p : ptr) (l l' : list MemEvent) :
  allocated_bytes_from cur p (l ++ l') =
  allocated_bytes_from (allocated_bytes_from cur p l) p l'.
Proof.
  revert cur. induction l as [|e l IH]; intros cur; [reflexivity|].
  destruct e as [b q|q]; cbn [app allocated_bytes_from]; apply IH.
Qed.

(** After four requests that returned four distinct non-null addresses,
    the block at each address has the byte count of its request, whatever
    the log before. *)
Lemma allocated_bytes_four_requests
  (log : list MemEvent) (b1 b2 b3 b4 : Z) (p1 p2 p3 p4 : ptr) :
  NoDup [p1; p2; p3; p4] -> ~ In NULL [p1; p2; p3; p4] ->
  let log' := log ++ [Malloc b1 p1; Malloc b2 p2; Malloc b3 p3; Malloc b4 p4] in
  allocated_bytes log' p1 = b1 /\ allocated_bytes log' p2 = b2 /\
  allocated_bytes log' p3 = b3 /\ allocated_bytes log' p4 = b4.
Proof.
  intros Hnd Hnn log'. subst log'.
  assert (Hn1 : (p1 =? NULL) = false) by (apply Z.eqb_neq; cbn in Hnn; intuition).
  assert (Hn2 : (p2 =? NULL) = false) by (apply Z.eqb_neq; cbn in Hnn; intuition).
  assert (Hn3 : (p3 =? NULL) = false) by (apply Z.eqb_neq; cbn in Hnn; intuition).
  assert (Hn4 : (p4 =? NULL) = false) by (apply Z.eqb_neq; cbn in Hnn; intuition).
  inversion Hnd as [|? ? Hi1 Hnd1]; subst.
  inversion Hnd1 as [|? ? Hi2 Hnd2]; subst.
  inversion Hnd2 as [|? ? Hi3 Hnd3]; subst.
  cbn [In] in Hi1, Hi2, Hi3.
  assert (H12 : (p1 =? p2) = false) by (apply Z.eqb_neq; intuition).
  assert (H13 : (p1 =? p3) = false) by (apply Z.eqb_neq; intuition).
  assert (H14 : (p1 =? p4) = false) by (apply Z.eqb_neq; intuition).
  assert (H23 : (p2 =? p3) = false) by (apply Z.eqb_neq; intuition).
  assert (H24 : (p2 =? p4) = false) by (apply Z.eqb_neq; intuition).
  assert (H34 : (p3 =? p4) = false) by (apply Z.eqb_neq; intuition).
  assert (H21 : (p2 =? p1) = false) by (rewrite Z.eqb_sym; exact H12).
  assert (H31 : (p3 =? p1) = false) by (rewrite Z.eqb_sym; exact H13).
  assert (H41 : (p4 =? p1) = false) by (rewrite Z.eqb_sym; exact H14).
  assert (H32 : (p3 =? p2) = false) by (rewrite Z.eqb_sym; exact H23).
  assert (H42 : (p4 =? p2) = false) by (rewrite Z.eqb_sym; exact H24).
  assert (H43 : (p4 =? p3) = false) by (rewrite Z.eqb_sym; exact H34).
  unfold allocated_bytes. rewrite Hn1, Hn2, Hn3, Hn4.
  rewrite !allocated_bytes_from_app. cbn [allocated_bytes_from].
  rewrite ?Z.eqb_refl, ?H12, ?H13, ?H14, ?H21, ?H23, ?H24, ?H31, ?H32, ?H34,
    ?H41, ?H42, ?H43.
  repeat apply conj; reflexivity.
Qed.

(** A call that is given the buffer [p], whose block has the byte count of
    [size] elements, and whose plate has at most [size] elements, fits into
    that block. *)
Lemma plate_within_allocation_call
  (c : Config) (log : list MemEvent) (size : Z) (p : ptr) (d : DeviceCall) :
  0 <= sizeof_AcReal c ->
  allocated_bytes log p = size * sizeof_AcReal c ->
  staging_buffer d = Some p ->
  plates_fit c size [d] = true ->
  plate_within_allocation c log d = true.
Proof.
  intros Hel Hall Hbuf Hfit.
  unfold plates_fit, all_boxes in Hfit. cbn [forallb] in Hfit.
  rewrite andb_true_r in Hfit.
  unfold plate_within_allocation. rewrite Hbuf.
  destruct d; cbn [staging_buffer plate_box] in *; try discriminate.
  all: rewrite Hall; apply Z.leb_le in Hfit; apply Z.leb_le;
    apply Z.mul_le_mono_nonneg_r; assumption.
Qed.

Lemma plate_within_allocation_calls
  (c : Config) (log : list MemEvent) (size : Z) (p : ptr)
  (ds : list DeviceCall) :
  0 <= sizeof_AcReal c ->
  allocated_bytes log p = size * sizeof_AcReal c ->
  Forall (fun d => staging_buffer d = Some p) ds ->
  plates_fit c size ds = true ->
  forallb (plate_within_allocation c log) ds = true.
Proof.
  intros Hel Hall Hbuf. induction Hbuf as [|d ds Hd Hds IH]; intros Hfit.
  - reflexivity.
  - unfold plates_fit, all_boxes in Hfit. cbn [forallb] in Hfit.
    apply andb_true_iff in Hfit. destruct Hfit as [Hfd Hfds].
    cbn [forallb]. apply andb_true_iff. split.
    + apply (plate_within_allocation_call c log size p d Hel Hall Hd).
      unfold plates_fit, all_boxes. cbn [forallb].
      rewrite Hfd. reflexivity.
    + apply IH. exact Hfds.
Qed.

Lemma plates_fit_app (c : Config) (size : Z) (ds ds' : list DeviceCall) :
  plates_fit c size (ds ++ ds') = true ->
  plates_fit c size ds = true /\ plates_fit c size ds' = true.
Proof.
  unfold plates_fit, all_boxes. rewrite forallb_app.
  intros H. apply andb_true_iff in H. exact H.
Qed.

Section StagedBuffers.

Variables (c : Config) (s : State) (mesh : AcMesh) (st : Stream).

Lemma loadOuterBot_buffer :
  Forall (fun d => staging_buffer d = Some (get (halo_xz_buffer s) BOT))
    (loadOuterBot c s mesh st).
Proof. repeat constructor. Qed.

Lemma loadOuterTop_buffer :
  Forall (fun d => staging_buffer d = Some (get (halo_xz_buffer s) TOP))
    (loadOuterTop c s mesh st).
Proof. repeat constructor. Qed.

Lemma loadOuterLeft_buffer :
  Forall (fun d => staging_buffer d = Some (get (halo_yz_buffer s) BOT))
    (loadOuterLeft c s mesh st).
Proof. repeat constructor. Qed.

Lemma loadOuterRight_buffer :
  Forall (fun d => staging_buffer d = Some (get (halo_yz_buffer s) TOP))
    (loadOuterRight c s mesh st).
Proof. repeat constructor. Qed.

Lemma storeInnerBot_buffer :
  Forall (fun d => staging_buffer d = Some (get (halo_xz_buffer s) BOT))
    (storeInnerBot c s mesh st).
Proof. repeat constructor. Qed.

Lemma storeInnerTop_buffer :
  Forall (fun d => staging_buffer d = Some (get (halo_xz_buffer s) TOP))
    (storeInnerTop c s mesh st).
Proof. repeat constructor. Qed.

Lemma storeInnerLeft_buffer :
  Forall (fun d => staging_buffer d = Some (get (halo_yz_buffer s) BOT))
    (storeInnerLeft c s mesh st).
Proof. repeat constructor. Qed.

Lemma storeInnerRight_buffer :
  Forall (fun d => staging_buffer d = Some (get (halo_yz_buffer s) TOP))
    (storeInnerRight c s mesh st).
Proof. repeat constructor. Qed.

End StagedBuffers.

(** On any state: if the sizes bound the plates and the block at each buffer
    has the byte count of its size, every staged plate fits into the block
    of the buffer it is given. *)
Lemma plates_within_allocations (c : Config) (s : State) (log : list MemEvent) :
  0 <= sizeof_AcReal c ->
  staging_buffers_suffice c s ->
  (forall i,
      allocated_bytes log (get (halo_xz_buffer s) i) =
        get (halo_xz_size s) i * sizeof_AcReal c /\
      allocated_bytes log (get (halo_yz_buffer s) i) =
        get (halo_yz_size s) i * sizeof_AcReal c) ->
  forall mesh st,
    forallb (plate_within_allocation c log) (staged_calls c s mesh st) = true.
Proof.
  intros Hel Hfit Hall mesh st.
  destruct (Hfit mesh st) as (HB & HT & HL & HR).
  destruct (Hall BOT) as [HxB HyB]. destruct (Hall TOP) as [HxT HyT].
  apply plates_fit_app in HB, HT, HL, HR.
  destruct HB as [HB1 HB2], HT as [HT1 HT2], HL as [HL1 HL2], HR as [HR1 HR2].
  unfold staged_calls. rewrite !forallb_app, !andb_true_iff.
  repeat apply conj.
  - exact (plate_within_allocation_calls c log _ _ _ Hel HxB
             (loadOuterBot_buffer c s mesh st) HB1).
  - exact (plate_within_allocation_calls c log _ _ _ Hel HxT
             (loadOuterTop_buffer c s mesh st) HT1).
  - exact (plate_within_allocation_calls c log _ _ _ Hel HyB
             (loadOuterLeft_buffer c s mesh st) HL1).
  - exact (plate_within_allocation_calls c log _ _ _ Hel HyT
             (loadOuterRight_buffer c s mesh st) HR1).
  - exact (plate_within_allocation_calls c log _ _ _ Hel HxB
             (storeInnerBot_buffer c s mesh st) HB2).
  - exact (plate_within_allocation_calls c log _ _ _ Hel HxT
             (storeInnerTop_buffer c s mesh st) HT2).
  - exact (plate_within_allocation_calls c log _ _ _ Hel HyB
             (storeInnerLeft_buffer c s mesh st) HL2).
  - exact (plate_within_allocation_calls c log _ _ _ Hel HyT
             (storeInnerRight_buffer c s mesh st) HR2).
Qed.

(** The state after a first allocation, described by what the earlier lemmas
    establish of it: closed widths, the sizes of lines 62-63, the four
    addresses in the four pointers and the four requests at the end of the
    log. *)
Lemma buffers_hold_plates_closed
  (c : Config) (s : State) (log : list MemEvent)
  (p1 p2 p3 p4 : ptr) (rest : list ptr) :
  geometry_fits c -> sizes_fit c -> 0 <= sizeof_AcReal c <= 64 ->
  NoDup [p1; p2; p3; p4] -> ~ In NULL [p1; p2; p3; p4] ->
  widths_closed c s ->
  (forall i, get (halo_xz_size s) i = xz_count c s i) ->
  (forall i, get (halo_yz_size s) i = yz_count c s i) ->
  halo_xz_buffer s = mkArr2 p1 p3 ->
  halo_yz_buffer s = mkArr2 p2 p4 ->
  heap s =
    mkHeap rest
      (log ++ [Malloc (alloc_bytes c (get (halo_xz_size s) BOT)) p1;
               Malloc (alloc_bytes c (get (halo_yz_size s) BOT)) p2;
               Malloc (alloc_bytes c (get (halo_xz_size s) TOP)) p3;
               Malloc (alloc_bytes c (get (halo_yz_size s) TOP)) p4]) ->
  sizes_closed c s /\
  staging_buffers_suffice c s /\
  (forall i,
      get (halo_xz_buffer s) i <> NULL /\
      get (halo_yz_buffer s) i <> NULL /\
      allocated_bytes (mem_log (heap s)) (get (halo_xz_buffer s) i) =
        get (halo_xz_size s) i * sizeof_AcReal c /\
      allocated_bytes (mem_log (heap s)) (get (halo_yz_buffer s) i) =
        get (halo_yz_size s) i * sizeof_AcReal c) /\
  (forall mesh st,
      forallb (plate_within_allocation c (mem_log (heap s)))
        (staged_calls c s mesh st) = true).
Proof.
  intros Hgeo Hcnt Hel Hnd Hnn Hclosed Hxz Hyz Hbx Hby Hheap.
  pose proof (sizes_closed_settled c s Hgeo Hcnt Hclosed Hxz Hyz) as Hsizes.
  pose proof (staging_buffers_suffice_closed c s Hgeo Hcnt Hclosed Hxz Hyz)
    as Hfit.
  pose proof (first_requests_exact c s Hgeo Hcnt Hclosed Hel Hxz Hyz) as Hreq.
  assert (Hbytes : forall i,
             alloc_bytes c (get (halo_xz_size s) i) =
               get (halo_xz_size s) i * sizeof_AcReal c /\
             alloc_bytes c (get (halo_yz_size s) i) =
               get (halo_yz_size s) i * sizeof_AcReal c).
  { intros i. destruct (Hreq i) as [Rx Ry]. destruct (Hsizes i) as [Sx Sy].
    rewrite Rx, Ry, Sx, Sy. split; reflexivity. }
  assert (Hall : forall i,
             get (halo_xz_buffer s) i <> NULL /\
             get (halo_yz_buffer s) i <> NULL /\
             allocated_bytes (mem_log (heap s)) (get (halo_xz_buffer s) i) =
               get (halo_xz_size s) i * sizeof_AcReal c /\
             allocated_bytes (mem_log (heap s)) (get (halo_yz_buffer s) i) =
               get (halo_yz_size s) i * sizeof_AcReal c).
  { intros i. rewrite Hheap, Hbx, Hby. cbn [mem_log].
    destruct (allocated_bytes_four_requests log
                (alloc_bytes c (get (halo_xz_size s) BOT))
                (alloc_bytes c (get (halo_yz_size s) BOT))
                (alloc_bytes c (get (halo_xz_size s) TOP))
                (alloc_bytes c (get (halo_yz_size s) TOP))
                p1 p2 p3 p4 Hnd Hnn) as (A1 & A2 & A3 & A4).
    destruct (Hbytes BOT) as [BxB ByB]. destruct (Hbytes TOP) as [BxT ByT].
    cbn [In] in Hnn.
    destruct i; cbn [get at_BOT at_TOP] in *.
    - rewrite A1, A2. repeat apply conj; try assumption; intros E;
        apply Hnn; rewrite E; tauto.
    - rewrite A3, A4. repeat apply conj; try assumption; intros E;
        apply Hnn; rewrite E; tauto. }
  split; [exact Hsizes|]. split; [exact Hfit|]. split; [exact Hall|].
  apply (plates_within_allocations c s (mem_log (heap s)) (proj1 Hel) Hfit).
  intros i. destruct (Hall i) as (_ & _ & Ax & Ay). split; assumption.
Qed.

(** C10: at program start, with the allocator handing out four distinct
    non-null addresses and no overflow in the size products,
    [initLoadStore] leaves each staging buffer pointing to a block that has
    room for the plates staged through it.  The size entries are
    [mx*nz*halo_widths_y[side]*NUM_VTXBUF_HANDLES] and
    [ny*nz*halo_widths_x[side]*NUM_VTXBUF_HANDLES]; the block that [malloc]
    returned for [halo_xz_buffer[side]] and [halo_yz_buffer[side]] has that
    many elements of [sizeof(AcReal)] bytes; and for each of the eight load
    and store operations that stage a plate, the volume of its box times the
    number of fields times [sizeof(AcReal)] is at most the byte count of the
    block at the buffer the operation is given. *)
Theorem staging_buffers_hold_their_plates
  (c : Config) (xs ys : Arr2 Z) (log : list MemEvent)
  (p1 p2 p3 p4 : ptr) (rest : list ptr) :
  geometry_fits c -> sizes_fit c -> 0 <= sizeof_AcReal c <= 64 ->
  NoDup [p1; p2; p3; p4] -> ~ In NULL [p1; p2; p3; p4] ->
  let s := initLoadStore c
             (initial_state c xs ys (mkHeap (p1 :: p2 :: p3 :: p4 :: rest) log)) in
  sizes_closed c s /\
  staging_buffers_suffice c s /\
  (forall i,
      get (halo_xz_buffer s) i <> NULL /\
      get (halo_yz_buffer s) i <> NULL /\
      allocated_bytes (mem_log (heap s)) (get (halo_xz_buffer s) i) =
        get (halo_xz_size s) i * sizeof_AcReal c /\
      allocated_bytes (mem_log (heap s)) (get (halo_yz_buffer s) i) =
        get (halo_yz_size s) i * sizeof_AcReal c) /\
  (forall mesh st,
      forallb (plate_within_allocation c (mem_log (heap s)))
        (staged_calls c s mesh st) = true).
Proof.
  intros Hgeo Hcnt Hel Hnd Hnn s.
  destruct (initLoadStore_first_allocation c xs ys log p1 p2 p3 p4 rest)
    as (Hbx & Hby & Hheap).
  exact (buffers_hold_plates_closed c s log p1 p2 p3 p4 rest
           Hgeo Hcnt Hel Hnd Hnn
           (initLoadStore_widths_closed c xs ys _ (geometry_fits_ghost c Hgeo))
           (fun i => proj1 (initLoadStore_sizes c _ i))
           (fun i => proj2 (initLoadStore_sizes c _ i))
           Hbx Hby Hheap).
Qed.

Lemma staging_buffers_hold_their_plates_witness :
  geometry_fits (sample_config 32 3 false false) /\
  sizes_fit (sample_config 32 3 false false) /\
  0 <= sizeof_AcReal (sample_config 32 3 false false) <= 64 /\
  NoDup [4096; 8192; 12288; 16384] /\
  ~ In NULL [4096; 8192; 12288; 16384] /\
  (let s := initLoadStore (sample_config 32 3 false false)
              (initial_state (sample_config 32 3 false false)
                 (mkArr2 0 0) (mkArr2 0 0)
                 (mkHeap [4096; 8192; 12288; 16384] [])) in
   sizes_closed (sample_config 32 3 false false) s /\
   staging_buffers_suffice (sample_config 32 3 false false) s /\
   (forall i,
       get (halo_xz_buffer s) i <> NULL /\
       get (halo_yz_buffer s) i <> NULL /\
       allocated_bytes (mem_log (heap s)) (get (halo_xz_buffer s) i) =
         get (halo_xz_size s) i *
         sizeof_AcReal (sample_config 32 3 false false) /\
       allocated_bytes (mem_log (heap s)) (get (halo_yz_buffer s) i) =
         get (halo_yz_size s) i *
         sizeof_AcReal (sample_config 32 3 false false)) /\
   (forall mesh st,
       forallb (plate_within_allocation (sample_config 32 3 false false)
                  (mem_log (heap s)))
         (staged_calls (sample_config 32 3 false false) s mesh st) = true)).
Proof.
  assert (Hgeo : geometry_fits (sample_config 32 3 false false)) by fits_tac.
  assert (Hcnt : sizes_fit (sample_config 32 3 false false)) by fits_tac.
  assert (Hel : 0 <= sizeof_AcReal (sample_config 32 3 false false) <= 64)
    by (cbn [sizeof_AcReal sample_config]; lia).
  assert (Hnn : ~ In NULL [4096; 8192; 12288; 16384])
    by (unfold NULL; cbn [In]; lia).
  assert (Hnd : NoDup [4096; 8192; 12288; 16384])
    by (repeat constructor; cbn [In]; lia).
  split; [exact Hgeo|]. split; [exact Hcnt|]. split; [exact Hel|].
  split; [exact Hnd|]. split; [exact Hnn|].
  exact (staging_buffers_hold_their_plates (sample_config 32 3 false false)
           (mkArr2 0 0) (mkArr2 0 0) [] 4096 8192 12288 16384 []
           Hgeo Hcnt Hel Hnd Hnn).
Defined.
